(** * Realtime device-ingestion pipeline of the monitoring dashboard

    A shallow embedding of
      - the line splitter, the writer and the [close] function of
        [src/lib/serialAdapter.ts]
        ([LineBreakTransformer], [writeLine], [openPort]);
      - the NDJSON parser, the clamp helper, the read loop and the page
        of [src/modules/Monitoring/monitoring.tsx]
        ([parseLine], [clamp], [toPct], [readLoop], the effects and the
        handlers of [MonitoringPage]).

    Conventions.
      - A JavaScript string is its sequence of UTF-16 code units.
      - A JavaScript number is an IEEE 754 binary64 datum ([spec_float]).
      - Code that can throw lives in the [completion] monad; [try_catch]
        is the [try { .. } catch { .. }] statement.
      - React state is a record ([ReactState]); a value of it is also what
        the closures of one render see, because [readLoop] keeps running
        with the bindings of the render that launched it.
      - An async function runs up to an [await] of a call that leaves the
        page and is then a [Task]; the page takes the events, controls
        used and promises settled, in any order. *)

From Stdlib Require Import String Ascii.
From Stdlib Require Import List NArith ZArith Bool Lia.
From Stdlib Require Import Floats.SpecFloat.
Import ListNotations.

Set Warnings "-register-all".

(* ===================================================================== *)
(** ** JavaScript strings                                                 *)
(* ===================================================================== *)

Definition code_unit := N.
Definition jsstring := list code_unit.

(** A literal of the source, written as a Rocq string of ASCII characters. *)
Fixpoint js (s : string) : jsstring :=
  match s with
  | EmptyString => []
  | String c r => N_of_ascii c :: js r
  end.

Definition LF : code_unit := 10%N.
Definition CR : code_unit := 13%N.

Definition is_empty (s : jsstring) : bool :=
  match s with [] => true | _ :: _ => false end.

Fixpoint jsstring_eqb (a b : jsstring) : bool :=
  match a, b with
  | [], [] => true
  | x :: a', y :: b' => N.eqb x y && jsstring_eqb a' b'
  | _, _ => false
  end.

(** [s.startsWith(p)] *)
Fixpoint startsWith (s p : jsstring) : bool :=
  match p, s with
  | [], _ => true
  | _ :: _, [] => false
  | y :: p', x :: s' => N.eqb x y && startsWith s' p'
  end.

(** [s.endsWith(p)] *)
Definition endsWith (s p : jsstring) : bool :=
  startsWith (rev s) (rev p).

(** WhiteSpace and LineTerminator code points of ECMAScript, the set
    stripped by [String.prototype.trim]. *)
Definition is_js_whitespace (c : code_unit) : bool :=
  ((9 <=? c) && (c <=? 13) || (c =? 32) || (c =? 160) || (c =? 5760)
   || (8192 <=? c) && (c <=? 8202) || (c =? 8232) || (c =? 8233)
   || (c =? 8239) || (c =? 8287) || (c =? 12288) || (c =? 65279))%N.

Fixpoint trim_start (s : jsstring) : jsstring :=
  match s with
  | c :: r => if is_js_whitespace c then trim_start r else s
  | [] => []
  end.

(** [s.trim()] *)
Definition trim (s : jsstring) : jsstring :=
  rev (trim_start (rev (trim_start s))).

(* ===================================================================== *)
(** ** serialAdapter.ts: the line splitter                                *)
(* ===================================================================== *)

Module Serial.

(** [push_front c] puts a character that starts no match in front of the
    segment that follows it. *)
Definition push_front (c : code_unit) (segs : list jsstring) : list jsstring :=
  match segs with
  | seg :: more => (c :: seg) :: more
  | [] => [[c]]
  end.

(** [s.split(/\r?\n/)].  The pattern never matches the empty string, so the
    result has one more element than there are matches; scanning from the
    left, a match starts at a position that reads CR LF or LF. *)
Fixpoint split (s : jsstring) : list jsstring :=
  match s with
  | [] => [[]]
  | c :: r =>
      if (c =? LF)%N then [] :: split r
      else match r with
           | d :: r' =>
               if ((c =? CR) && (d =? LF))%N then [] :: split r'
               else push_front c (split r)
           | [] => [[c]]
           end
  end.

(** [lines.pop() ?? ""]: the removed last element, and what stays. *)
Definition pop (lines : list jsstring) : list jsstring * jsstring :=
  (removelast lines, last lines []).

(** The elements the [for .. of] loop hands to [controller.enqueue]. *)
Definition enqueued (lines : list jsstring) : list jsstring :=
  filter (fun line => negb (length line =? 0)%nat) lines.

(** [class LineBreakTransformer]: the private field [carry] is the state;
    a method returns the lines it enqueues on the controller and the new
    [carry]. *)
Module LineBreakTransformer.

Definition initial_carry : jsstring := [].

Definition transform (carry chunk : jsstring) : list jsstring * jsstring :=
  let carry1 := carry ++ chunk in
  let lines := split carry1 in
  let '(lines', carry2) := pop lines in
  (enqueued lines', carry2).

Definition flush (carry : jsstring) : list jsstring * jsstring :=
  ([], []).

End LineBreakTransformer.

(** The stream: [transform] once per chunk, in order. *)
Fixpoint transform_all (carry : jsstring) (chunks : list jsstring)
  : list jsstring * jsstring :=
  match chunks with
  | [] => ([], carry)
  | chunk :: rest =>
      let '(out1, carry1) := LineBreakTransformer.transform carry chunk in
      let '(out2, carry2) := transform_all carry1 rest in
      (out1 ++ out2, carry2)
  end.

(** Everything a reader sees from a stream that is fed [chunks] and then
    closed: a new transformer, [transform] per chunk, then [flush]. *)
Definition emitted (chunks : list jsstring) : list jsstring :=
  let '(out, carry) :=
    transform_all LineBreakTransformer.initial_carry chunks in
  out ++ fst (LineBreakTransformer.flush carry).

(** [writeLine]: the text handed to [writer.write]. *)
Definition writeLine (line : jsstring) : jsstring :=
  if endsWith line [LF] then line else line ++ [LF].

End Serial.


(* ===================================================================== *)
(** ** JavaScript numbers, values and completions                         *)
(* ===================================================================== *)

(** Number values: IEEE 754 binary64. *)
Definition number := spec_float.

Definition prec : Z := 53.
Definition emax : Z := 1024.

Definition NaN : number := S754_nan.
Definition pos_zero : number := S754_zero false.
Definition neg_zero : number := S754_zero true.
Definition pos_inf : number := S754_infinity false.
Definition neg_inf : number := S754_infinity true.

(** The Number value of an integer literal of the source. *)
Definition num (z : Z) : number := binary_normalize prec emax z 0 false.

(** The Number value of the decimal [m * 10^e], rounded to nearest, ties to
    even; a negative sign gives [-0] for [m = 0]. *)
Definition num_decimal (negative : bool) (m : N) (e : Z) : number :=
  match m with
  | N0 => S754_zero negative
  | Npos p =>
      match e with
      | Zneg k =>
          SFdiv prec emax (S754_finite negative p 0)
                          (S754_finite false (Pos.pow 10 k) 0)
      | _ =>
          binary_normalize prec emax
            (cond_Zopp negative (Zpos p * Z.pow 10 e)) 0 false
      end
  end.

Definition is_nan (x : number) : bool :=
  match x with S754_nan => true | _ => false end.

(** [Number.isFinite(x)] for a Number [x]. *)
Definition Number_isFinite (x : number) : bool :=
  match x with
  | S754_zero _ | S754_finite _ _ _ => true
  | S754_infinity _ | S754_nan => false
  end.

(** The relational operators [<] and [<=] on Numbers. *)
Definition num_ltb (x y : number) : bool := SFltb x y.
Definition num_leb (x y : number) : bool := SFleb x y.

Definition is_pos_zero (x : number) : bool :=
  match x with S754_zero false => true | _ => false end.
Definition is_neg_zero (x : number) : bool :=
  match x with S754_zero true => true | _ => false end.

(** [Math.max(...)]: the loop of the language specification, from
    [highest = -Infinity]. *)
Fixpoint Math_max_from (highest : number) (args : list number) : number :=
  match args with
  | [] => highest
  | n :: rest =>
      if is_nan n then NaN
      else
        let h1 := if is_pos_zero n && is_neg_zero highest then pos_zero
                  else highest in
        let h2 := if num_ltb h1 n then n else h1 in
        Math_max_from h2 rest
  end.

Definition Math_max (args : list number) : number :=
  Math_max_from neg_inf args.

(** [Math.min(...)], from [lowest = +Infinity]. *)
Fixpoint Math_min_from (lowest : number) (args : list number) : number :=
  match args with
  | [] => lowest
  | n :: rest =>
      if is_nan n then NaN
      else
        let l1 := if is_neg_zero n && is_pos_zero lowest then neg_zero
                  else lowest in
        let l2 := if num_ltb n l1 then n else l1 in
        Math_min_from l2 rest
  end.

Definition Math_min (args : list number) : number :=
  Math_min_from pos_inf args.

(** A thrown value: an [Error] instance with its [message] (a [SyntaxError]
    or a [TypeError] is one), or any other value. *)
Variant thrown :=
  | ThrownError (message : jsstring)
  | ThrownOther.

(** The outcome of evaluating code that may throw. *)
Variant completion (A : Type) :=
  | Normal (a : A)
  | Throw (e : thrown).
Arguments Normal {A} a.
Arguments Throw {A} e.

Definition bind {A B} (c : completion A) (k : A -> completion B)
  : completion B :=
  match c with
  | Normal a => k a
  | Throw e => Throw e
  end.

(** [try { body } catch (e) { handler }] *)
Definition try_catch {A} (body : completion A)
    (handler : thrown -> completion A) : completion A :=
  match body with
  | Normal a => Normal a
  | Throw e => handler e
  end.

Declare Scope completion_scope.
Delimit Scope completion_scope with completion.
Notation "x <- c ;; k" := (bind c (fun x => k))
  (at level 61, c at next level, right associativity) : completion_scope.
Open Scope completion_scope.

(** The values [JSON.parse] can return, and [undefined].  An object keeps
    its members in the order of the text; a later member of the same name
    overrides an earlier one. *)
Inductive jsval :=
  | JUndefined
  | JNull
  | JBool (b : bool)
  | JNum (n : number)
  | JStr (s : jsstring)
  | JArr (elements : list jsval)
  | JObj (members : list (jsstring * jsval)).

Definition has_own_property (members : list (jsstring * jsval))
    (key : jsstring) : bool :=
  existsb (fun kv => jsstring_eqb (fst kv) key) members.

(** The value of the own property [key], [undefined] when there is none. *)
Fixpoint own_property (members : list (jsstring * jsval)) (key : jsstring)
  : jsval :=
  match members with
  | [] => JUndefined
  | (k, v) :: rest =>
      if has_own_property rest key then own_property rest key
      else if jsstring_eqb k key then v
      else JUndefined
  end.

(** [v.key] for one of the field names the parser reads: reading a
    property of [null] or [undefined] throws a [TypeError]; none of these
    names is a property of the Boolean, Number, String, Array or Object
    prototype, so only an own property of an object can answer. *)
Definition get (v : jsval) (key : jsstring) : completion jsval :=
  match v with
  | JUndefined | JNull => Throw (ThrownError (js "Cannot read properties"))
  | JObj members => Normal (own_property members key)
  | JBool _ | JNum _ | JStr _ | JArr _ => Normal JUndefined
  end.

Definition nullish (v : jsval) : bool :=
  match v with
  | JUndefined | JNull => true
  | _ => false
  end.

(** [a ?? b]: [b] is evaluated only when [a] is [null] or [undefined]. *)
Definition coalesce (a b : completion jsval) : completion jsval :=
  v <- a ;; if nullish v then b else Normal v.

(** What the page takes from the JavaScript engine.  [JSON_parse] returns
    the parsed value or throws a [SyntaxError]; [StringToNumber] is the
    conversion of a String to a Number; [ObjectToNumber] is the conversion
    of an array or an object (through its primitive value), which can
    throw. *)
Class JsRuntime := {
  JSON_parse : jsstring -> completion jsval;
  StringToNumber : jsstring -> number;
  ObjectToNumber : jsval -> completion number
}.

Section NumberCoercion.
Context {rt : JsRuntime}.

(** [Number(v)] *)
Definition Number (v : jsval) : completion number :=
  match v with
  | JUndefined => Normal NaN
  | JNull => Normal pos_zero
  | JBool true => Normal (num 1)
  | JBool false => Normal pos_zero
  | JNum n => Normal n
  | JStr s => Normal (StringToNumber s)
  | JArr _ | JObj _ => ObjectToNumber v
  end.

End NumberCoercion.

(* ===================================================================== *)
(** ** A reference engine                                                 *)
(* ===================================================================== *)

(** An executable [JsRuntime] after ECMA-404 (the JSON grammar) and
    ECMA-262 ([JSON.parse], StringToNumber, ToPrimitive), used to run the
    page on concrete lines.  The theorems about the page hold for every
    [JsRuntime]. *)
Module Engine.

Definition SyntaxError : thrown := ThrownError (js "Unexpected token").
Definition TypeError : thrown :=
  ThrownError (js "Cannot convert object to primitive value").

Definition is_json_ws (c : code_unit) : bool :=
  ((c =? 9) || (c =? 10) || (c =? 13) || (c =? 32))%N.

Fixpoint skip_ws (s : jsstring) : jsstring :=
  match s with
  | c :: r => if is_json_ws c then skip_ws r else s
  | [] => []
  end.

Definition is_digit (c : code_unit) : bool := ((48 <=? c) && (c <=? 57))%N.

(** The value of a digit in radix up to 16, [None] for any other unit. *)
Definition digit_value (c : code_unit) : option N :=
  if is_digit c then Some (c - 48)%N
  else if ((97 <=? c) && (c <=? 102))%N then Some (c - 87)%N
  else if ((65 <=? c) && (c <=? 70))%N then Some (c - 55)%N
  else None.

(** The longest run of decimal digits at the front of [s]: its value, its
    length and what follows. *)
Fixpoint read_digits (acc : N) (count : nat) (s : jsstring)
  : N * nat * jsstring :=
  match s with
  | c :: r =>
      if is_digit c then read_digits (acc * 10 + (c - 48))%N (S count) r
      else (acc, count, s)
  | [] => (acc, count, [])
  end.

(** An optional exponent part [e|E [+|-] digits]: its value (0 when there
    is none) and what follows; [None] when an exponent mark is followed by
    no digit. *)
Definition read_exponent (s : jsstring) : option (Z * jsstring) :=
  match s with
  | c :: r =>
      if ((c =? 101) || (c =? 69))%N then
        let '(negative, r1) :=
          match r with
          | d :: r' =>
              if (d =? 45)%N then (true, r')
              else if (d =? 43)%N then (false, r')
              else (false, r)
          | [] => (false, r)
          end in
        let '(e, n, r2) := read_digits 0 0 r1 in
        match n with
        | O => None
        | S _ => Some (cond_Zopp negative (Z.of_N e), r2)
        end
      else Some (0%Z, s)
  | [] => Some (0%Z, s)
  end.

(** A JSON number at the front of [s]. *)
Definition parse_number (s : jsstring) : option (number * jsstring) :=
  let '(negative, s1) :=
    match s with
    | c :: r => if (c =? 45)%N then (true, r) else (false, s)
    | [] => (false, s)
    end in
  let int_part :=
    match s1 with
    | c :: r =>
        if (c =? 48)%N then Some (0%N, r)
        else if is_digit c then
          let '(i, _, r') := read_digits 0 0 s1 in Some (i, r')
        else None
    | [] => None
    end in
  match int_part with
  | None => None
  | Some (i, s2) =>
      let frac_part :=
        match s2 with
        | c :: r =>
            if (c =? 46)%N then
              let '(f, n, r') := read_digits 0 0 r in
              match n with
              | O => None
              | S _ => Some (f, n, r')
              end
            else Some (0%N, O, s2)
        | [] => Some (0%N, O, s2)
        end in
      match frac_part with
      | None => None
      | Some (f, n, s3) =>
          match read_exponent s3 with
          | None => None
          | Some (e, s4) =>
              Some (num_decimal negative (i * 10 ^ N.of_nat n + f)%N
                                (e - Z.of_nat n), s4)
          end
      end
  end.

(** The characters of a JSON string after its opening quote, up to and
    including the closing quote. *)
Fixpoint parse_string (s : jsstring) : option (jsstring * jsstring) :=
  let cons_to := fun (c : code_unit) (res : option (jsstring * jsstring)) =>
    match res with
    | Some (str, rest) => Some (c :: str, rest)
    | None => None
    end in
  match s with
  | [] => None
  | c :: r =>
      if (c =? 34)%N then Some ([], r)
      else if (c <? 32)%N then None
      else if (c =? 92)%N then
        match r with
        | [] => None
        | e :: r1 =>
            if (e =? 34)%N then cons_to 34%N (parse_string r1)
            else if (e =? 92)%N then cons_to 92%N (parse_string r1)
            else if (e =? 47)%N then cons_to 47%N (parse_string r1)
            else if (e =? 98)%N then cons_to 8%N (parse_string r1)
            else if (e =? 102)%N then cons_to 12%N (parse_string r1)
            else if (e =? 110)%N then cons_to 10%N (parse_string r1)
            else if (e =? 114)%N then cons_to 13%N (parse_string r1)
            else if (e =? 116)%N then cons_to 9%N (parse_string r1)
            else if (e =? 117)%N then
              match r1 with
              | h1 :: h2 :: h3 :: h4 :: r2 =>
                  match digit_value h1, digit_value h2,
                        digit_value h3, digit_value h4 with
                  | Some a, Some b, Some c', Some d =>
                      cons_to (((a * 16 + b) * 16 + c') * 16 + d)%N
                              (parse_string r2)
                  | _, _, _, _ => None
                  end
              | _ => None
              end
            else None
        end
      else cons_to c (parse_string r)
  end.

(** A JSON value at the front of [s], after optional white space.  The
    recursion is bounded by [fuel]; a call uses up one unit and at most two
    calls follow each other without consuming a character. *)
Fixpoint parse_value (fuel : nat) (s : jsstring)
  : option (jsval * jsstring) :=
  match fuel with
  | O => None
  | S fuel' =>
      match skip_ws s with
      | [] => None
      | c :: r =>
          if (c =? 123)%N then
            match skip_ws r with
            | d :: r' =>
                if (d =? 125)%N then Some (JObj [], r')
                else parse_members fuel' r []
            | [] => None
            end
          else if (c =? 91)%N then
            match skip_ws r with
            | d :: r' =>
                if (d =? 93)%N then Some (JArr [], r')
                else parse_elements fuel' r []
            | [] => None
            end
          else if (c =? 34)%N then
            match parse_string r with
            | Some (str, r') => Some (JStr str, r')
            | None => None
            end
          else if startsWith (c :: r) (js "true") then
            Some (JBool true, skipn 4 (c :: r))
          else if startsWith (c :: r) (js "false") then
            Some (JBool false, skipn 5 (c :: r))
          else if startsWith (c :: r) (js "null") then
            Some (JNull, skipn 4 (c :: r))
          else
            match parse_number (c :: r) with
            | Some (n, r') => Some (JNum n, r')
            | None => None
            end
      end
  end
with parse_elements (fuel : nat) (s : jsstring) (acc : list jsval)
  : option (jsval * jsstring) :=
  match fuel with
  | O => None
  | S fuel' =>
      match parse_value fuel' s with
      | Some (v, r) =>
          match skip_ws r with
          | c :: r' =>
              if (c =? 44)%N then parse_elements fuel' r' (v :: acc)
              else if (c =? 93)%N then Some (JArr (rev (v :: acc)), r')
              else None
          | [] => None
          end
      | None => None
      end
  end
with parse_members (fuel : nat) (s : jsstring)
    (acc : list (jsstring * jsval)) : option (jsval * jsstring) :=
  match fuel with
  | O => None
  | S fuel' =>
      match skip_ws s with
      | q :: r =>
          if (q =? 34)%N then
            match parse_string r with
            | Some (k, r1) =>
                match skip_ws r1 with
                | c :: r2 =>
                    if (c =? 58)%N then
                      match parse_value fuel' r2 with
                      | Some (v, r3) =>
                          match skip_ws r3 with
                          | d :: r4 =>
                              if (d =? 44)%N then
                                parse_members fuel' r4 ((k, v) :: acc)
                              else if (d =? 125)%N then
                                Some (JObj (rev ((k, v) :: acc)), r4)
                              else None
                          | [] => None
                          end
                      | None => None
                      end
                    else None
                | [] => None
                end
            | None => None
            end
          else None
      | [] => None
      end
  end.

(** [JSON.parse(text)] *)
Definition JSON_parse (text : jsstring) : completion jsval :=
  match parse_value (2 * length text + 2) text with
  | Some (v, rest) =>
      if is_empty (skip_ws rest) then Normal v else Throw SyntaxError
  | None => Throw SyntaxError
  end.

(** The digits of [s] in [radix], all of [s] and at least one. *)
Fixpoint read_radix (radix acc : N) (s : jsstring) : option N :=
  match s with
  | [] => Some acc
  | c :: r =>
      match digit_value c with
      | Some d => if (d <? radix)%N then read_radix radix (acc * radix + d)%N r
                  else None
      | None => None
      end
  end.

Definition radix_literal (radix : N) (digits : jsstring) : number :=
  match digits with
  | [] => NaN
  | _ :: _ =>
      match read_radix radix 0 digits with
      | Some n => num (Z.of_N n)
      | None => NaN
      end
  end.

(** StrUnsignedDecimalLiteral, all of [s]. *)
Definition decimal_literal (negative : bool) (s : jsstring) : number :=
  if jsstring_eqb s (js "Infinity") then S754_infinity negative
  else
    let '(i, ni, s1) := read_digits 0 0 s in
    let '(f, nf, s2) :=
      match s1 with
      | c :: r => if (c =? 46)%N then read_digits 0 0 r else (0%N, O, s1)
      | [] => (0%N, O, s1)
      end in
    match (ni + nf)%nat with
    | O => NaN
    | S _ =>
        match read_exponent s2 with
        | Some (e, []) =>
            num_decimal negative (i * 10 ^ N.of_nat nf + f)%N
                        (e - Z.of_nat nf)
        | _ => NaN
        end
    end.

(** StringToNumber *)
Definition StringToNumber (s : jsstring) : number :=
  match trim s with
  | [] => pos_zero
  | c :: r =>
      if (c =? 45)%N then decimal_literal true r
      else if (c =? 43)%N then decimal_literal false r
      else
        match r with
        | d :: digits =>
            if (c =? 48)%N && ((d =? 120) || (d =? 88))%N
            then radix_literal 16 digits
            else if (c =? 48)%N && ((d =? 111) || (d =? 79))%N
            then radix_literal 8 digits
            else if (c =? 48)%N && ((d =? 98) || (d =? 66))%N
            then radix_literal 2 digits
            else decimal_literal false (c :: r)
        | [] => decimal_literal false (c :: r)
        end
  end.

(** Converting an object to a string throws exactly when the object has an
    own property [toString] (a JSON value, hence not callable); an array
    converts its elements in turn. *)
Fixpoint to_string_throws (v : jsval) : bool :=
  match v with
  | JObj members => has_own_property members (js "toString")
  | JArr elements => existsb to_string_throws elements
  | _ => false
  end.

(** The Number that the text of [v] converts to, for [v] an element of an
    array that is joined (no conversion throwing): [null] and [undefined]
    are joined as the empty text, a nested array as its own joined text,
    and the text of a Number converts back to that Number, with [-0]
    printed as ["0"].  The joined text of two or more elements has a comma
    and is no numeric literal. *)
Fixpoint element_to_number (v : jsval) : number :=
  match v with
  | JUndefined | JNull => pos_zero
  | JBool _ => NaN
  | JNum n => if is_neg_zero n then pos_zero else n
  | JStr s => StringToNumber s
  | JArr elements =>
      match elements with
      | [] => pos_zero
      | [e] => element_to_number e
      | _ :: _ :: _ => NaN
      end
  | JObj _ => NaN
  end.

(** ToNumber of an array or a plain object.  A plain object without an own
    [toString] has the text ["[object Object]"]. *)
Definition ObjectToNumber (v : jsval) : completion number :=
  if to_string_throws v then Throw TypeError
  else
    match v with
    | JArr _ => Normal (element_to_number v)
    | _ => Normal NaN
    end.

End Engine.

#[export] Instance reference_engine : JsRuntime := {|
  JSON_parse := Engine.JSON_parse;
  StringToNumber := Engine.StringToNumber;
  ObjectToNumber := Engine.ObjectToNumber
|}.

(* ===================================================================== *)
(** ** JavaScript arithmetic                                              *)
(* ===================================================================== *)

(** The operators [-], [*] and [/] on Numbers: the binary64 operations,
    rounded to nearest, ties to even. *)
Definition num_sub (x y : number) : number := SFsub prec emax x y.
Definition num_mul (x y : number) : number := SFmul prec emax x y.
Definition num_div (x y : number) : number := SFdiv prec emax x y.

(* ===================================================================== *)
(** ** serialAdapter.ts: closing the port                                 *)
(* ===================================================================== *)

(** The [close] function that [openPort] returns. *)
Module OpenPort.

(** What [close] does that can be seen from outside. *)
Variant CloseEvent :=
  | WriterReleaseLock
  | ReaderCancel
  | PortClose
  | AwaitReadableClosed
  | AwaitWritableClosed
  | ConsoleError.

(** How each of the five releases settles. *)
Record Outcomes := {
  releaseLock_result : completion unit;
  cancel_result : completion unit;
  port_close_result : completion unit;
  readableClosed_result : completion unit;
  writableClosed_result : completion unit
}.

(** A computation that leaves a trace of events, and may throw. *)
Definition traced (A : Type) : Type := list CloseEvent * completion A.

(** Performing [ev], which settles as [outcome]. *)
Definition perform (ev : CloseEvent) (outcome : completion unit)
  : traced unit :=
  ([ev], outcome).

(** [a; b] *)
Definition seq (a b : traced unit) : traced unit :=
  match snd a with
  | Normal _ => (fst a ++ fst b, snd b)
  | Throw e => (fst a, Throw e)
  end.

(** [try { body } catch { handler }] *)
Definition try_traced (body handler : traced unit) : traced unit :=
  match snd body with
  | Normal _ => body
  | Throw _ => (fst body ++ fst handler, snd handler)
  end.

(** [console.error("error")] *)
Definition log_error : traced unit := ([ConsoleError], Normal tt).

Definition close (o : Outcomes) : traced unit :=
  seq (try_traced (perform WriterReleaseLock (releaseLock_result o))
                  log_error)
  (seq (try_traced (perform ReaderCancel (cancel_result o)) log_error)
  (seq (try_traced (perform PortClose (port_close_result o)) log_error)
  (seq (try_traced (perform AwaitReadableClosed (readableClosed_result o))
                   log_error)
       (try_traced (perform AwaitWritableClosed (writableClosed_result o))
                   log_error)))).

End OpenPort.

(* ===================================================================== *)
(** ** monitoring.tsx: types, clamp and the NDJSON parser                 *)
(* ===================================================================== *)

Module Monitoring.

Record RealtimeRow := {
  timestamp : jsstring;
  pulse : number;
  oxygenSaturation : number;
  temperatureC : number;
  systolic : number;
  diastolic : number
}.

(** [clamp(n, min, max)] *)
Definition clamp (n min max : number) : number :=
  Math_max [min; Math_min [max; n]].

Section Parser.
Context {rt : JsRuntime}.

(** [Number(obj.first ?? obj.second)] *)
Definition field (obj : jsval) (first second : string) : completion number :=
  v <- coalesce (get obj (js first)) (get obj (js second)) ;;
  Number v.

(** [parseLine(line)]; [ts] is the value of [new Date().toISOString()]
    read on entry. *)
Definition parseLine (ts : jsstring) (line : jsstring)
  : completion (option RealtimeRow) :=
  let s := trim line in
  if is_empty s || negb (startsWith s (js "{")) || negb (endsWith s (js "}"))
  then Normal None
  else
    try_catch
      (obj <- JSON_parse s ;;
       pulse <- field obj "pulse" "bpm" ;;
       spo2 <- field obj "spo2" "oxygenSaturation" ;;
       temp <- field obj "temp" "temperatureC" ;;
       sys <- field obj "sys" "systolic" ;;
       dia <- field obj "dia" "diastolic" ;;
       let ok := forallb Number_isFinite [pulse; spo2; temp; sys; dia] in
       if negb ok then Normal None
       else Normal (Some {| timestamp := ts;
                            pulse := pulse;
                            oxygenSaturation := spo2;
                            temperatureC := temp;
                            systolic := sys;
                            diastolic := dia |}))
      (fun _ => Normal None).

End Parser.

(* ===================================================================== *)
(** ** monitoring.tsx: the page state, the read loop and the handlers     *)
(* ===================================================================== *)

(** The fields of a [Session] the page reads or writes. *)
Record Session := {
  id : jsstring;
  endedAt : option jsstring
}.

(** An open connection ([SerialIO]); the page only tests it against
    [null] and hands it to the adapter. *)
Record SerialIO := {
  port_index : Z
}.

(** The fields of a [Patient] the page reads: [p.id] and
    [p.user.fullname]. *)
Record Patient := {
  patient_id : jsstring;
  fullname : jsstring
}.

(** A [SerialPort] of the browser: an object the page only stores, compares
    by identity and hands to the adapter. *)
Record SerialPort := {
  port_object : N
}.

(** The [useState] values of [MonitoringPage].  One value of this type is
    also what the closures created by one render see: [session],
    [isMonitoring], ... are [const] bindings of that render. *)
Record ReactState := {
  patients : list Patient;
  patientId : jsstring;
  session : option Session;
  ports : list SerialPort;
  selectedPortIdx : Z;
  io : option SerialIO;
  isMonitoring : bool;
  startedFromDevice : bool;
  loading : bool;
  err : option jsstring;
  realtime : list RealtimeRow
}.

(** The [useRef] cells: one mutable [current] each, shared by all renders. *)
Record Refs := {
  lastSentRef : Z;
  closeLoopRef : bool
}.

Record Store := {
  state : ReactState;
  refs : Refs
}.

Definition initial_store : Store :=
  {| state := {| patients := []; patientId := []; session := None;
                 ports := []; selectedPortIdx := -1;
                 io := None; isMonitoring := false;
                 startedFromDevice := false; loading := false; err := None;
                 realtime := [] |};
     refs := {| lastSentRef := 0; closeLoopRef := false |} |}.

(** The state setters returned by [useState], and assignment to a ref. *)
Definition update (f : ReactState -> ReactState) (st : Store) : Store :=
  {| state := f (state st); refs := refs st |}.

Definition setPatients (v : list Patient) : Store -> Store :=
  update (fun s =>
    {| patients := v;
       patientId := patientId s;
       session := session s;
       ports := ports s;
       selectedPortIdx := selectedPortIdx s;
       io := io s;
       isMonitoring := isMonitoring s;
       startedFromDevice := startedFromDevice s;
       loading := loading s;
       err := err s;
       realtime := realtime s |}).

Definition setPatientId (v : jsstring) : Store -> Store :=
  update (fun s =>
    {| patients := patients s;
       patientId := v;
       session := session s;
       ports := ports s;
       selectedPortIdx := selectedPortIdx s;
       io := io s;
       isMonitoring := isMonitoring s;
       startedFromDevice := startedFromDevice s;
       loading := loading s;
       err := err s;
       realtime := realtime s |}).

Definition setSession (f : option Session -> option Session) : Store -> Store :=
  update (fun s =>
    {| patients := patients s;
       patientId := patientId s;
       session := f (session s);
       ports := ports s;
       selectedPortIdx := selectedPortIdx s;
       io := io s;
       isMonitoring := isMonitoring s;
       startedFromDevice := startedFromDevice s;
       loading := loading s;
       err := err s;
       realtime := realtime s |}).

Definition setPorts (v : list SerialPort) : Store -> Store :=
  update (fun s =>
    {| patients := patients s;
       patientId := patientId s;
       session := session s;
       ports := v;
       selectedPortIdx := selectedPortIdx s;
       io := io s;
       isMonitoring := isMonitoring s;
       startedFromDevice := startedFromDevice s;
       loading := loading s;
       err := err s;
       realtime := realtime s |}).

Definition setSelectedPortIdx (v : Z) : Store -> Store :=
  update (fun s =>
    {| patients := patients s;
       patientId := patientId s;
       session := session s;
       ports := ports s;
       selectedPortIdx := v;
       io := io s;
       isMonitoring := isMonitoring s;
       startedFromDevice := startedFromDevice s;
       loading := loading s;
       err := err s;
       realtime := realtime s |}).

Definition setIo (v : option SerialIO) : Store -> Store :=
  update (fun s =>
    {| patients := patients s;
       patientId := patientId s;
       session := session s;
       ports := ports s;
       selectedPortIdx := selectedPortIdx s;
       io := v;
       isMonitoring := isMonitoring s;
       startedFromDevice := startedFromDevice s;
       loading := loading s;
       err := err s;
       realtime := realtime s |}).

Definition setIsMonitoring (v : bool) : Store -> Store :=
  update (fun s =>
    {| patients := patients s;
       patientId := patientId s;
       session := session s;
       ports := ports s;
       selectedPortIdx := selectedPortIdx s;
       io := io s;
       isMonitoring := v;
       startedFromDevice := startedFromDevice s;
       loading := loading s;
       err := err s;
       realtime := realtime s |}).

Definition setStartedFromDevice (v : bool) : Store -> Store :=
  update (fun s =>
    {| patients := patients s;
       patientId := patientId s;
       session := session s;
       ports := ports s;
       selectedPortIdx := selectedPortIdx s;
       io := io s;
       isMonitoring := isMonitoring s;
       startedFromDevice := v;
       loading := loading s;
       err := err s;
       realtime := realtime s |}).

Definition setLoading (v : bool) : Store -> Store :=
  update (fun s =>
    {| patients := patients s;
       patientId := patientId s;
       session := session s;
       ports := ports s;
       selectedPortIdx := selectedPortIdx s;
       io := io s;
       isMonitoring := isMonitoring s;
       startedFromDevice := startedFromDevice s;
       loading := v;
       err := err s;
       realtime := realtime s |}).

Definition setErr (v : option jsstring) : Store -> Store :=
  update (fun s =>
    {| patients := patients s;
       patientId := patientId s;
       session := session s;
       ports := ports s;
       selectedPortIdx := selectedPortIdx s;
       io := io s;
       isMonitoring := isMonitoring s;
       startedFromDevice := startedFromDevice s;
       loading := loading s;
       err := v;
       realtime := realtime s |}).

(** [setRealtime] with an updater function, applied to the live value. *)
Definition setRealtime (f : list RealtimeRow -> list RealtimeRow) : Store -> Store :=
  update (fun s =>
    {| patients := patients s;
       patientId := patientId s;
       session := session s;
       ports := ports s;
       selectedPortIdx := selectedPortIdx s;
       io := io s;
       isMonitoring := isMonitoring s;
       startedFromDevice := startedFromDevice s;
       loading := loading s;
       err := err s;
       realtime := f (realtime s) |}).

Definition set_lastSentRef (v : Z) (st : Store) : Store :=
  {| state := state st;
     refs := {| lastSentRef := v; closeLoopRef := closeLoopRef (refs st) |} |}.

Definition set_closeLoopRef (v : bool) (st : Store) : Store :=
  {| state := state st;
     refs := {| lastSentRef := lastSentRef (refs st); closeLoopRef := v |} |}.

(** [a.slice(-n)]: the last [n] elements, all of [a] when it is shorter. *)
Definition slice_last {A} (n : nat) (a : list A) : list A :=
  skipn (length a - n) a.

(** The updater the loop passes to [setRealtime]. *)
Definition push_reading (reading : RealtimeRow) (prev : list RealtimeRow)
  : list RealtimeRow :=
  let up := prev ++ [reading] in
  slice_last 200 up.

(** The argument of [sessionService.addData]. *)
Record SessionData := {
  data_pulse : number;
  data_oxygenSaturation : number;
  data_temperatureC : number;
  data_systolic : number;
  data_diastolic : number
}.

Definition clamped (reading : RealtimeRow) : SessionData :=
  {| data_pulse := clamp (pulse reading) (num 20) (num 240);
     data_oxygenSaturation :=
       clamp (oxygenSaturation reading) (num 50) (num 100);
     data_temperatureC := clamp (temperatureC reading) (num 30) (num 45);
     data_systolic := clamp (systolic reading) (num 50) (num 260);
     data_diastolic := clamp (diastolic reading) (num 30) (num 200) |}.

(** Calls that leave the page.  [PortOpen] carries [ports[selectedPortIdx]],
    [None] for [undefined]. *)
Variant Effect :=
  | SessionCreate (patient : jsstring)
  | SessionClose (sessionId : jsstring)
  | AddData (sessionId : jsstring) (data : SessionData)
  | RequestPort
  | GetAuthorizedPorts
  | PortOpen (port : option SerialPort) (baudRate : Z)
  | PortClose
  | DeviceWrite (text : jsstring).

(** [e instanceof Error ? e.message : fallback] *)
Definition error_message (e : thrown) (fallback : jsstring) : jsstring :=
  match e with
  | ThrownError message => message
  | ThrownOther => fallback
  end.

(** How [await connected.reader.read()] settles. *)
Variant ReadResult :=
  | ReadValue (value : jsstring)
  | ReadDone
  | ReadThrows (e : thrown).

(** What one iteration of the loop takes from outside: the settled read,
    the clock as [parseLine] and [Date.now()] read it, and how the
    [addData] promise settles if the call is made. *)
Record Tick := {
  read : ReadResult;
  clock_iso : jsstring;
  clock_ms : Z;
  addData_result : completion unit
}.

Variant Control := Continue | Break.

Section Loop.
Context {rt : JsRuntime}.

(** The [catch (e)] clause of the loop body. *)
Definition read_failed (e : thrown) (st : Store)
  : Store * list Effect * Control :=
  if closeLoopRef (refs st) then (st, [], Break)
  else (setErr (Some (error_message e
                        (js "Error leyendo datos del dispositivo."))) st,
        [], Break).

(** The part of the body that runs once [parseLine] has accepted the
    line.  [render] holds the bindings [session] and [isMonitoring] of the
    render whose [handleConnect] launched the loop. *)
Definition accept (render : ReactState) (t : Tick) (reading : RealtimeRow)
    (st : Store) : Store * list Effect * Control :=
  let st1 :=
    match session render with
    | Some _ =>
        if negb (isMonitoring render)
        then setStartedFromDevice true (setIsMonitoring true st)
        else st
    | None => st
    end in
  let st2 := setRealtime (push_reading reading) st1 in
  let now := clock_ms t in
  match session render with
  | Some s =>
      if (now - lastSentRef (refs st2) >=? 1000)%Z then
        let st3 := set_lastSentRef now st2 in
        (* try { await sessionService.addData(..) } catch { } *)
        match try_catch (addData_result t) (fun _ => Normal tt) with
        | Normal _ => (st3, [AddData (id s) (clamped reading)], Continue)
        | Throw e =>
            let '(st4, _, c) := read_failed e st3 in
            (st4, [AddData (id s) (clamped reading)], c)
        end
      else (st2, [], Continue)
  | None => (st2, [], Continue)
  end.

(** One iteration of the [while] body, from the settled read on. *)
Definition loop_body (render : ReactState) (t : Tick) (st : Store)
  : Store * list Effect * Control :=
  match read t with
  | ReadThrows e => read_failed e st
  | ReadDone => (st, [], Break)
  | ReadValue value =>
      if is_empty value then (st, [], Continue)
      else
        match parseLine (clock_iso t) value with
        | Throw e => read_failed e st
        | Normal None => (st, [], Continue)
        | Normal (Some reading) => accept render t reading st
        end
  end.

(** [readLoop(connected)] over the reads that settle, with nothing else
    running in between: the state when the loop ends or waits for a read
    that has not settled, and the calls made. *)
Fixpoint readLoop (render : ReactState) (ticks : list Tick) (st : Store)
  : Store * list Effect :=
  if closeLoopRef (refs st) then (st, [])
  else
    match ticks with
    | [] => (st, [])
    | t :: rest =>
        let '(st1, calls, c) := loop_body render t st in
        match c with
        | Break => (st1, calls)
        | Continue =>
            let '(st2, calls') := readLoop render rest st1 in
            (st2, calls ++ calls')
        end
    end.

End Loop.

(** The derived flags of a render. *)
Definition is_some {A} (o : option A) : bool :=
  match o with Some _ => true | None => false end.

Definition isConnected (r : ReactState) : bool := is_some (io r).
Definition canCreateSession (r : ReactState) : bool :=
  negb (is_empty (patientId r)) && negb (is_some (session r)).
Definition canPickDevice (r : ReactState) : bool :=
  is_some (session r) && negb (isMonitoring r).
Definition canConnect (r : ReactState) : bool :=
  is_some (session r) && (0 <=? selectedPortIdx r)%Z && negb (isConnected r).
Definition canStart (r : ReactState) : bool :=
  is_some (session r) && isConnected r && negb (isMonitoring r).
Definition canStop (r : ReactState) : bool :=
  is_some (session r) && isMonitoring r.
Definition canReset (r : ReactState) : bool :=
  negb (isMonitoring r)
  && (is_some (session r) || negb (is_empty (patientId r))).

(** *** Async functions, suspended and resumed *)

(** An async function of the page that is suspended at an [await] of a
    call that leaves the page.  It is resumed when the promise settles;
    until then the page handles whatever else happens.  A task keeps the
    bindings of its closure that the rest of the function reads. *)
Variant Task :=
  | Finished
  (* useEffect, l.158: await patientService.findAll() *)
  | AwaitFindAll
  (* useEffect, l.173: await getAuthorizedPorts() *)
  | AwaitMountPorts
  (* handleCreateSession, l.193: await sessionService.create(..) *)
  | AwaitCreate
  (* handleRequestPort, l.205: await requestPort() *)
  | AwaitRequestPort
  (* handleRequestPort, l.206: await getAuthorizedPorts(); [p] is bound *)
  | AwaitPortList (p : SerialPort)
  (* handleConnect, l.219: await openPort(..); [readLoop] is the closure
     of the render [r] in which the control was used *)
  | AwaitOpenPort (r : ReactState)
  (* handleDisconnect, l.234: await io.close(); [resetting] when called
     from handleReset, l.264, which goes on when handleDisconnect returns *)
  | AwaitClose (resetting : bool)
  (* handleStart, l.245: await writeLine(io.writer, "1") *)
  | AwaitWriteStart
  (* handleStop, l.252: await writeLine(io.writer, "0"); [session] is
     bound *)
  | AwaitWriteStop (s : Session)
  (* handleStop, l.255: await sessionService.close(session.id) *)
  | AwaitSessionClose
  (* readLoop, l.278: await connected.reader.read(); [render] holds the
     bindings [session] and [isMonitoring] of the loop *)
  | AwaitRead (render : ReactState)
  (* readLoop, l.306: await sessionService.addData(..) *)
  | AwaitAddData (render : ReactState).

(** How an awaited promise settles. *)
Variant Outcome :=
  | FindAllSettled (data : completion (option (list Patient)))
  | PortsSettled (list : completion (list SerialPort))
  | CreateSettled (created : completion Session)
  | RequestPortSettled (picked : completion SerialPort)
  | OpenSettled (opened : completion SerialIO)
  | CloseSettled (closed : completion unit)
  | WriteSettled (written : completion unit)
  | SessionCloseSettled (closed : completion unit) (now_iso : jsstring)
  | ReadSettled (t : Tick)
  | AddDataSettled (result : completion unit).

(** What a handler has done when it returns or is suspended: the state
    written, the calls made, and the task it has become, if any. *)
Definition Started : Type := Store * list Effect * option Task.

(** [list.findIndex((x) => x === p)] *)
Fixpoint findIndex (p : SerialPort) (list : list SerialPort) : Z :=
  match list with
  | [] => -1
  | x :: rest =>
      if (port_object x =? port_object p)%N then 0
      else
        let idx := findIndex p rest in
        if (idx <? 0)%Z then -1 else idx + 1
  end.

(** The handlers, up to their first [await].  Each is a closure of the
    render [r] that was on screen when the control was used; it reads
    state through [r] and writes it through the setters. *)

Definition handleCreateSession (r : ReactState) (st : Store) : Started :=
  if is_empty (patientId r) then (st, [], None)
  else
    (setErr None (setLoading true st),
     [SessionCreate (patientId r)], Some AwaitCreate).

(** [requestPort] throws at once where Web Serial is missing, and the
    handler swallows it. *)
Definition handleRequestPort (supported : bool) (r : ReactState) (st : Store)
  : Started :=
  let st1 := setErr None st in
  if supported then (st1, [RequestPort], Some AwaitRequestPort)
  else (st1, [], None).

Definition handleConnect (r : ReactState) (st : Store) : Started :=
  if (selectedPortIdx r <? 0)%Z then (st, [], None)
  else
    (setErr None st,
     [PortOpen (nth_error (ports r) (Z.to_nat (selectedPortIdx r))) 115200],
     Some (AwaitOpenPort r)).

Definition handleDisconnect (r : ReactState) (st : Store) : Started :=
  match io r with
  | None => (st, [], None)
  | Some _ => (set_closeLoopRef true st, [PortClose], Some (AwaitClose false))
  end.

Definition handleStart (r : ReactState) (st : Store) : Started :=
  match io r, session r with
  | Some _, Some _ =>
      (setStartedFromDevice false (setErr None st),
       [DeviceWrite (Serial.writeLine (js "1"))], Some AwaitWriteStart)
  | _, _ => (st, [], None)
  end.

Definition handleStop (r : ReactState) (st : Store) : Started :=
  match io r, session r with
  | Some _, Some s =>
      (setErr None st,
       [DeviceWrite (Serial.writeLine (js "0"))], Some (AwaitWriteStop s))
  | _, _ => (st, [], None)
  end.

(** What [handleReset] does once [handleDisconnect] has returned. *)
Definition handleReset_rest (st : Store) : Store :=
  setSelectedPortIdx (-1)
    (setErr None
       (setPatientId []
          (setSession (fun _ => None)
             (setStartedFromDevice false
                (setRealtime (fun _ => []) st))))).

(** [handleReset]: with no connection in its render, [handleDisconnect]
    returns at once and the reset follows in the same turn; otherwise the
    handler waits, inside [handleDisconnect], for [io.close()]. *)
Definition handleReset (r : ReactState) (st : Store) : Started :=
  if isMonitoring r then (st, [], None)
  else
    match handleDisconnect r st with
    | (st1, calls, None) => (handleReset_rest st1, calls, None)
    | (st1, calls, Some _) => (st1, calls, Some (AwaitClose true))
    end.

Section Resume.
Context {rt : JsRuntime}.

(** The top of the [while]: the loop ends when asked to close, and
    otherwise asks for the next line. *)
Definition next_read (render : ReactState) (st : Store) : Task :=
  if closeLoopRef (refs st) then Finished else AwaitRead render.

(** The rest of a suspended function, from the settled promise to its next
    [await] or its end: the state written, the calls made, and the task it
    is then.  A promise that does not belong to the task resumes
    nothing. *)
Definition resume (task : Task) (o : Outcome) (st : Store)
  : Store * list Effect * Task :=
  match task, o with
  | AwaitFindAll, FindAllSettled (Normal data) =>
      (setPatients (match data with Some l => l | None => [] end) st,
       [], Finished)
  | AwaitFindAll, FindAllSettled (Throw e) =>
      (setErr (Some (error_message e
                       (js "No se pudieron cargar los pacientes."))) st,
       [], Finished)
  | AwaitMountPorts, PortsSettled (Normal list) =>
      (setPorts list st, [], Finished)
  | AwaitMountPorts, PortsSettled (Throw _) => (st, [], Finished)
  | AwaitCreate, CreateSettled created =>
      let st1 :=
        match created with
        | Normal s => setSession (fun _ => Some s) st
        | Throw e =>
            setErr (Some (error_message e
                      (js "Error creando la sesi" ++ [243%N] ++ js "n."))) st
        end in
      (setLoading false st1, [], Finished)
  | AwaitRequestPort, RequestPortSettled (Normal p) =>
      (st, [GetAuthorizedPorts], AwaitPortList p)
  | AwaitRequestPort, RequestPortSettled (Throw _) => (st, [], Finished)
  | AwaitPortList p, PortsSettled (Normal list) =>
      let idx := findIndex p list in
      (setSelectedPortIdx (if (0 <=? idx)%Z then idx else -1)
         (setPorts list st),
       [], Finished)
  | AwaitPortList _, PortsSettled (Throw _) => (st, [], Finished)
  | AwaitOpenPort r, OpenSettled (Normal connected) =>
      let st1 := set_closeLoopRef false (setIo (Some connected) st) in
      (* void readLoop(connected) *)
      (st1, [], next_read r st1)
  | AwaitOpenPort _, OpenSettled (Throw e) =>
      (setErr (Some (error_message e
                       (js "No se pudo abrir el puerto serial."))) st,
       [], Finished)
  | AwaitClose resetting, CloseSettled _ =>
      let st1 := setIo None st in
      (if resetting then handleReset_rest st1 else st1, [], Finished)
  | AwaitWriteStart, WriteSettled (Normal _) =>
      (setIsMonitoring true st, [], Finished)
  | AwaitWriteStart, WriteSettled (Throw _) => (st, [], Finished)
  | AwaitWriteStop s, WriteSettled (Normal _) =>
      (setIsMonitoring false st, [SessionClose (id s)], AwaitSessionClose)
  | AwaitWriteStop _, WriteSettled (Throw _) => (st, [], Finished)
  | AwaitSessionClose, SessionCloseSettled (Normal _) now_iso =>
      (setSession (fun cur =>
         match cur with
         | Some s0 => Some {| id := id s0; endedAt := Some now_iso |}
         | None => None
         end) st,
       [], Finished)
  | AwaitSessionClose, SessionCloseSettled (Throw _) _ => (st, [], Finished)
  | AwaitRead render, ReadSettled t =>
      let '(st1, calls, c) := loop_body render t st in
      (st1, calls,
       match c with
       | Break => Finished
       | Continue =>
           match calls with
           | [] => next_read render st1
           | _ :: _ => AwaitAddData render
           end
       end)
  | AwaitAddData render, AddDataSettled _ =>
      (* try { await .. } catch { }, then the next iteration *)
      (st, [], next_read render st)
  | _, _ => (st, [], task)
  end.

End Resume.

(** *** The page *)

(** The page between two events: whether the browser has Web Serial (what
    [isWebSerialSupported()] returns), the store, and the async functions
    started so far, in the order they were started. *)
Record Page := {
  webSerial : bool;
  store : Store;
  tasks : list Task
}.

(** The page after its first render and its two effects: the patient list
    is being fetched, and, where Web Serial exists, the authorized
    ports. *)
Definition initial_page (supported : bool) : Page :=
  {| webSerial := supported;
     store := initial_store;
     tasks := AwaitFindAll :: if supported then [AwaitMountPorts] else [] |}.

(** What can happen to the page: the operator uses a control, or the
    promise that task number [k] waits for settles. *)
Variant Event :=
  | SelectPatient (value : jsstring)
  | ClickCreateSession
  | SelectPort (index : Z)
  | ClickRequestPort
  | ClickConnect
  | ClickDisconnect
  | ClickStart
  | ClickStop
  | ClickReset
  | Settles (k : nat) (o : Outcome).

(** The values of the [option]s of the two [select]s. *)
Definition patient_options (r : ReactState) : list jsstring :=
  [] :: map patient_id (patients r).

Definition port_options (r : ReactState) : list Z :=
  (-1)%Z :: map Z.of_nat (seq 0 (length (ports r))).

Definition set_nth {A} (k : nat) (x : A) (l : list A) : list A :=
  firstn k l ++ x :: skipn (S k) l.

(** The page once a handler has returned or is suspended. *)
Definition started (p : Page) (res : Started) : Page * list Effect :=
  let '(st, calls, waiting) := res in
  ({| webSerial := webSerial p;
      store := st;
      tasks := tasks p ++ match waiting with
                          | Some task => [task]
                          | None => []
                          end |},
   calls).

Section PageSteps.
Context {rt : JsRuntime}.

(** A control that is disabled or not rendered ignores the event; otherwise
    the handler of the render on screen, which shows the current state,
    runs up to its first [await].  A promise that settles resumes its
    task. *)
Definition page_step (p : Page) (ev : Event) : Page * list Effect :=
  let st := store p in
  let r := state st in
  match ev with
  | SelectPatient value =>
      if is_some (session r) || loading r then (p, [])
      else if existsb (jsstring_eqb value) (patient_options r)
      then started p (setPatientId value st, [], None)
      else (p, [])
  | ClickCreateSession =>
      if negb (canCreateSession r) || loading r then (p, [])
      else started p (handleCreateSession r st)
  | SelectPort index =>
      if negb (canPickDevice r) then (p, [])
      else if existsb (Z.eqb index) (port_options r)
      then started p (setSelectedPortIdx index st, [], None)
      else (p, [])
  | ClickRequestPort =>
      if negb (canPickDevice r) || negb (webSerial p) then (p, [])
      else started p (handleRequestPort (webSerial p) r st)
  | ClickConnect =>
      if isConnected r || negb (canConnect r) then (p, [])
      else started p (handleConnect r st)
  | ClickDisconnect =>
      if negb (isConnected r) then (p, [])
      else started p (handleDisconnect r st)
  | ClickStart =>
      if isMonitoring r || negb (canStart r) then (p, [])
      else started p (handleStart r st)
  | ClickStop =>
      if negb (isMonitoring r) || negb (canStop r) then (p, [])
      else started p (handleStop r st)
  | ClickReset =>
      if negb (canReset r) then (p, [])
      else started p (handleReset r st)
  | Settles k o =>
      match nth_error (tasks p) k with
      | None => (p, [])
      | Some task =>
          let '(st1, calls, task1) := resume task o st in
          ({| webSerial := webSerial p;
              store := st1;
              tasks := set_nth k task1 (tasks p) |},
           calls)
      end
  end.

Fixpoint page_run (p : Page) (evs : list Event) : Page * list Effect :=
  match evs with
  | [] => (p, [])
  | ev :: rest =>
      let '(p1, calls) := page_step p ev in
      let '(p2, calls') := page_run p1 rest in
      (p2, calls ++ calls')
  end.

End PageSteps.

(** *** What the page shows of the buffer *)

(** [toPct]: the position of a value on its bar, in percent. *)
Definition toPct_pulse (v : number) : number :=
  clamp (num_mul (num_div (num_sub v (num 40))
                          (num_sub (num 180) (num 40)))
                 (num 100))
        (num 0) (num 100).

Definition toPct_spo2 (v : number) : number :=
  clamp v (num 0) (num 100).

Definition toPct_temp (v : number) : number :=
  clamp (num_mul (num_div (num_sub v (num 35))
                          (num_sub (num 40) (num 35)))
                 (num 100))
        (num 0) (num 100).

Definition toPct_sys (v : number) : number :=
  clamp (num_mul (num_div (num_sub v (num 80))
                          (num_sub (num 180) (num 80)))
                 (num 100))
        (num 0) (num 100).

(** [realtime.at(-1) ?? null] *)
Definition last_reading (rows : list RealtimeRow) : option RealtimeRow :=
  match rows with
  | [] => None
  | r :: rest => Some (last rest r)
  end.

(** [by(k)] of the [series] memo: the values of one metric over the last
    50 readings, those that are finite Numbers. *)
Definition by_metric (k : RealtimeRow -> number) (rows : list RealtimeRow)
  : list number :=
  let lastN := slice_last 50 rows in
  filter Number_isFinite (map k lastN).

(** [realtime.slice(-20)], the rows of the ticker. *)
Definition ticker (rows : list RealtimeRow) : list RealtimeRow :=
  slice_last 20 rows.

(** The value a [BadgeCell] prints: [null] stands for the dash. *)
Definition BadgeCell_value (val : number) : option number :=
  if Number_isFinite val then Some val else None.

End Monitoring.

(* ===================================================================== *)
(** ** Vocabulary of the properties                                       *)
(* ===================================================================== *)

(** *** Text made of terminated lines *)

Variant terminator := LF_only | CR_LF.

Definition terminator_text (t : terminator) : jsstring :=
  match t with
  | LF_only => [LF]
  | CR_LF => [CR; LF]
  end.

(** A source line: its content and the terminator that ends it. *)
Definition source_line : Type := jsstring * terminator.

Definition line_text (l : source_line) : jsstring :=
  fst l ++ terminator_text (snd l).

(** The text of [lines] followed by an unterminated [fragment]. *)
Definition stream_text (lines : list source_line) (fragment : jsstring)
  : jsstring :=
  concat (map line_text lines) ++ fragment.

Definition has_LF (s : jsstring) : bool := existsb (N.eqb LF) s.

Fixpoint ends_with_CR (s : jsstring) : bool :=
  match s with
  | [] => false
  | [c] => (c =? CR)%N
  | _ :: r => ends_with_CR r
  end.

(** The content of a line holds no LF, and a line ended by a bare LF does
    not end in CR (the CR would belong to the terminator). *)
Definition well_formed_line (l : source_line) : bool :=
  negb (has_LF (fst l))
  && match snd l with
     | LF_only => negb (ends_with_CR (fst l))
     | CR_LF => true
     end.

(** Line framing as the specification states it: one emitted line per
    source line. *)
Definition one_line_per_source_line (chunks : list jsstring)
    (lines : list source_line) (fragment : jsstring) : Prop :=
  forallb well_formed_line lines = true ->
  has_LF fragment = false ->
  concat chunks = stream_text lines fragment ->
  Serial.emitted chunks = map fst lines.

(** *** Readings and objects *)

(** The five values of a reading, without its timestamp. *)
Definition values (r : Monitoring.RealtimeRow)
  : number * number * number * number * number :=
  (Monitoring.pulse r, Monitoring.oxygenSaturation r,
   Monitoring.temperatureC r, Monitoring.systolic r,
   Monitoring.diastolic r).

(** What a completed call of [parseLine] carries, timestamp apart. *)
Definition parsed_values (c : completion (option Monitoring.RealtimeRow))
  : completion (option (number * number * number * number * number)) :=
  match c with
  | Normal o => Normal (option_map values o)
  | Throw e => Throw e
  end.

(** The two spellings of each field, in the order [parseLine] tries them. *)
Definition aliases : list (string * string) :=
  [("pulse", "bpm"); ("spo2", "oxygenSaturation"); ("temp", "temperatureC");
   ("sys", "systolic"); ("dia", "diastolic")]%string.

(** The object of a message written with the first spellings, and with the
    second spellings. *)
Definition first_spellings (a b c d e : number) : jsval :=
  JObj [(js "pulse", JNum a); (js "spo2", JNum b); (js "temp", JNum c);
        (js "sys", JNum d); (js "dia", JNum e)].

Definition second_spellings (a b c d e : number) : jsval :=
  JObj [(js "bpm", JNum a); (js "oxygenSaturation", JNum b);
        (js "temperatureC", JNum c); (js "systolic", JNum d);
        (js "diastolic", JNum e)].

Section FieldVocabulary.
Context {rt : JsRuntime}.

(** The field resolves and coerces to a finite Number. *)
Definition field_finite (obj : jsval) (names : string * string) : bool :=
  match Monitoring.field obj (fst names) (snd names) with
  | Normal n => Number_isFinite n
  | Throw _ => false
  end.

(** The five field reads of [parseLine] and its finiteness test, as one
    function of the parsed object. *)
Definition reading_of (ts : jsstring) (obj : jsval)
  : completion (option Monitoring.RealtimeRow) :=
  pulse <- Monitoring.field obj "pulse" "bpm" ;;
  spo2 <- Monitoring.field obj "spo2" "oxygenSaturation" ;;
  temp <- Monitoring.field obj "temp" "temperatureC" ;;
  sys <- Monitoring.field obj "sys" "systolic" ;;
  dia <- Monitoring.field obj "dia" "diastolic" ;;
  if negb (forallb Number_isFinite [pulse; spo2; temp; sys; dia])
  then Normal None
  else Normal (Some {| Monitoring.timestamp := ts; Monitoring.pulse := pulse;
                       Monitoring.oxygenSaturation := spo2;
                       Monitoring.temperatureC := temp;
                       Monitoring.systolic := sys;
                       Monitoring.diastolic := dia |}).

End FieldVocabulary.

(** Neither spelling of the field is a member of the object. *)
Definition field_missing (members : list (jsstring * jsval))
    (names : string * string) : bool :=
  negb (has_own_property members (js (fst names)))
  && negb (has_own_property members (js (snd names))).

(** *** Example messages *)

(** A key or a string of a message, between double quotes. *)
Definition quoted (s : string) : jsstring := [34%N] ++ js s ++ [34%N].

(** [{"pulse":70,"spo2":97,"temp":36.5,"sys":120,"dia":80}] *)
Definition message_first : jsstring :=
  js "{" ++ quoted "pulse" ++ js ":70," ++ quoted "spo2" ++ js ":97,"
  ++ quoted "temp" ++ js ":36.5," ++ quoted "sys" ++ js ":120,"
  ++ quoted "dia" ++ js ":80}".

(** [{"bpm":70,"oxygenSaturation":97,"temperatureC":36.5,"systolic":120,
      "diastolic":80}] *)
Definition message_second : jsstring :=
  js "{" ++ quoted "bpm" ++ js ":70," ++ quoted "oxygenSaturation"
  ++ js ":97," ++ quoted "temperatureC" ++ js ":36.5,"
  ++ quoted "systolic" ++ js ":120," ++ quoted "diastolic" ++ js ":80}".

(** [{"pulse":70,"spo2":97,"temp":36.5,"sys":120}]: no diastolic value. *)
Definition message_without_dia : jsstring :=
  js "{" ++ quoted "pulse" ++ js ":70," ++ quoted "spo2" ++ js ":97,"
  ++ quoted "temp" ++ js ":36.5," ++ quoted "sys" ++ js ":120}".

(** [{"pulse":"high","spo2":97,"temp":36.5,"sys":120,"dia":80}] *)
Definition message_text_pulse : jsstring :=
  js "{" ++ quoted "pulse" ++ js ":" ++ quoted "high" ++ js ","
  ++ quoted "spo2" ++ js ":97," ++ quoted "temp" ++ js ":36.5,"
  ++ quoted "sys" ++ js ":120," ++ quoted "dia" ++ js ":80}".

(** [{"pulse":70,] cut short, then closed: no JSON text. *)
Definition message_malformed : jsstring :=
  js "{" ++ quoted "pulse" ++ js ":70,}".

(** [{"pulse":300,"spo2":97,"temp":36.5,"sys":120,"dia":80}] *)
Definition message_pulse_300 : jsstring :=
  js "{" ++ quoted "pulse" ++ js ":300," ++ quoted "spo2" ++ js ":97,"
  ++ quoted "temp" ++ js ":36.5," ++ quoted "sys" ++ js ":120,"
  ++ quoted "dia" ++ js ":80}".

(** *** The order of Numbers *)

(** A Number other than [NaN] is placed by its class (negative infinity,
    negative, zero, positive, positive infinity), then its exponent, then
    its significand; both zeros share one place. *)
Definition key (x : number) : Z * Z * Z :=
  match x with
  | S754_infinity true => (-2, 0, 0)
  | S754_finite true m e => (-1, - e, - Zpos m)
  | S754_zero _ => (0, 0, 0)
  | S754_finite false m e => (1, e, Zpos m)
  | S754_infinity false => (2, 0, 0)
  | S754_nan => (3, 0, 0)
  end%Z.

Definition key_lt (k1 k2 : Z * Z * Z) : Prop :=
  let '(a1, b1, c1) := k1 in
  let '(a2, b2, c2) := k2 in
  (a1 < a2 \/ (a1 = a2 /\ (b1 < b2 \/ (b1 = b2 /\ c1 < c2))))%Z.

(** A finite Number other than zero. *)
Definition is_finite_nonzero (x : number) : bool :=
  match x with
  | S754_finite _ _ _ => true
  | _ => false
  end.

(** [v] is [x] brought into the range from [lo] to [hi]. *)
Definition clamps_to (lo hi x v : number) : Prop :=
  num_leb lo v = true /\ num_leb v hi = true
  /\ (num_leb lo x = true -> num_leb x hi = true -> v = x)
  /\ (num_ltb x lo = true -> v = lo)
  /\ (num_ltb hi x = true -> v = hi).

(** *** Calls of the loop *)

(** The number of [addData] calls among [calls]. *)
Definition forwards (calls : list Monitoring.Effect) : nat :=
  length (filter (fun call =>
                    match call with
                    | Monitoring.AddData _ _ => true
                    | _ => false
                    end) calls).

Section TickVocabulary.
Context {rt : JsRuntime}.

(** The read settles with a line that [parseLine] accepts. *)
Definition tick_accepted (t : Monitoring.Tick) : bool :=
  match Monitoring.read t with
  | Monitoring.ReadValue value =>
      match Monitoring.parseLine (Monitoring.clock_iso t) value with
      | Normal (Some _) => true
      | _ => false
      end
  | _ => false
  end.

End TickVocabulary.

(** A tick that delivers [line] when the clock reads [ms]. *)
Definition line_at (ms : Z) (line : jsstring) : Monitoring.Tick :=
  {| Monitoring.read := Monitoring.ReadValue line;
     Monitoring.clock_iso := js "2025-01-01T00:00:00.000Z";
     Monitoring.clock_ms := ms;
     Monitoring.addData_result := Normal tt |}.

(** *** Arrival and processing *)

(** A line that waits in the reader: when it arrived (ms), its text, and
    the time the [addData] call takes to settle if the loop makes one for
    it. *)
Record Arrival := {
  arrived_ms : Z;
  arrived_line : jsstring;
  response_ms : Z
}.

Section Timing.
Context {rt : JsRuntime}.

(** [parseLine] accepts the line. *)
Definition line_accepted (line : jsstring) : bool :=
  tick_accepted (line_at 0 line).

(** The reads as the loop sees them.  The loop asks for a line ([await
    connected.reader.read()], l.278) when it is done with the one before,
    and it is done with a reading it forwards when [addData] has settled
    ([await sessionService.addData(..)], l.306): a line is processed, and
    [Date.now()] read for it, at the later of its arrival and the moment
    the loop is free, [free] for the first line.  The steps of an
    iteration themselves take no time. *)
Fixpoint reads_of (render : Monitoring.ReactState) (free : Z)
    (lines : list Arrival) (st : Monitoring.Store) : list Monitoring.Tick :=
  match lines with
  | [] => []
  | a :: rest =>
      let now := Z.max free (arrived_ms a) in
      let t := line_at now (arrived_line a) in
      let '(st1, calls, _) := Monitoring.loop_body render t st in
      let free1 :=
        match calls with
        | [] => now
        | _ :: _ => (now + response_ms a)%Z
        end in
      t :: reads_of render free1 rest st1
  end.

(** The throttle as the specification states it, on arrival times: a burst
    of ten accepted readings that arrive within 200 ms from [w] on, the
    loop waiting for a line by then and the last forward at least 1000 ms
    before, makes one call. *)
Definition one_forward_per_arrival_burst (render : Monitoring.ReactState)
    (lines : list Arrival) (st : Monitoring.Store) (w : Z) : Prop :=
  Monitoring.session render <> None ->
  Monitoring.closeLoopRef (Monitoring.refs st) = false ->
  length lines = 10 ->
  forallb (fun a => line_accepted (arrived_line a)) lines = true ->
  Forall (fun a => (w <= arrived_ms a <= w + 200)%Z) lines ->
  (Monitoring.lastSentRef (Monitoring.refs st) + 1000 <= w)%Z ->
  forwards (snd (Monitoring.readLoop render (reads_of render w lines st) st))
  = 1.

End Timing.

(** Ten lines that arrive 20 ms apart from 5000 ms on, each [addData] call
    taking [response] ms. *)
Definition burst_of_ten (response : Z) : list Arrival :=
  map (fun k => {| arrived_ms := 5000 + 20 * Z.of_nat k;
                   arrived_line := message_first;
                   response_ms := response |})
      (seq 0 10).

(** The patient, the port and the session of the examples. *)
Definition patient_p1 : Monitoring.Patient :=
  {| Monitoring.patient_id := js "p1"; Monitoring.fullname := js "Ana" |}.

Definition port_a : Monitoring.SerialPort :=
  {| Monitoring.port_object := 1 |}.

Definition session_s1 : Monitoring.Session :=
  {| Monitoring.id := js "s1"; Monitoring.endedAt := None |}.

(** A render with a session and nothing else set. *)
Definition render_with_session (monitoring : bool) : Monitoring.ReactState :=
  {| Monitoring.patients := [patient_p1];
     Monitoring.patientId := js "p1";
     Monitoring.session :=
       Some {| Monitoring.id := js "s1"; Monitoring.endedAt := None |};
     Monitoring.ports := [port_a];
     Monitoring.selectedPortIdx := 0;
     Monitoring.io := Some {| Monitoring.port_index := 0 |};
     Monitoring.isMonitoring := monitoring;
     Monitoring.startedFromDevice := false;
     Monitoring.loading := false;
     Monitoring.err := None;
     Monitoring.realtime := [] |}.

Definition store_of (r : Monitoring.ReactState) (lastSent : Z)
  : Monitoring.Store :=
  {| Monitoring.state := r;
     Monitoring.refs := {| Monitoring.lastSentRef := lastSent;
                           Monitoring.closeLoopRef := false |} |}.

(** A reading whose pulse is [n] and whose other values are fixed. *)
Definition reading_numbered (n : nat) : Monitoring.RealtimeRow :=
  {| Monitoring.timestamp := js "t";
     Monitoring.pulse := num (Z.of_nat n);
     Monitoring.oxygenSaturation := num 97;
     Monitoring.temperatureC := num 36;
     Monitoring.systolic := num 120;
     Monitoring.diastolic := num 80 |}.

(** *** A session started by the operator *)

(** The two effects of the first render settle: one patient, one
    authorized port. *)
Definition page_loads : list Monitoring.Event :=
  [Monitoring.Settles 0
     (Monitoring.FindAllSettled (Normal (Some [patient_p1])));
   Monitoring.Settles 1 (Monitoring.PortsSettled (Normal [port_a]))].

(** The operator picks the patient, creates the session, picks and opens
    the port; every awaited call succeeds before the next control is
    used.  The tasks are numbered in the order they start: 2 is the
    session creation, 3 the port opening and then the read loop. *)
Definition operator_connects : list Monitoring.Event :=
  page_loads
  ++ [Monitoring.SelectPatient (js "p1");
      Monitoring.ClickCreateSession;
      Monitoring.Settles 2 (Monitoring.CreateSettled (Normal session_s1));
      Monitoring.SelectPort 0;
      Monitoring.ClickConnect;
      Monitoring.Settles 3
        (Monitoring.OpenSettled (Normal {| Monitoring.port_index := 0 |}))].

(** Then the operator presses the start control, and the write to the
    device succeeds (task 4). *)
Definition operator_starts : list Monitoring.Event :=
  operator_connects
  ++ [Monitoring.ClickStart;
      Monitoring.Settles 4 (Monitoring.WriteSettled (Normal tt))].

(** *** More vocabulary: lines written and read back *)

Definition has_CR (s : jsstring) : bool := existsb (N.eqb CR) s.

(** [segments.join("\n")] *)
Fixpoint join_LF (segments : list jsstring) : jsstring :=
  match segments with
  | [] => []
  | [s] => s
  | s :: rest => s ++ [LF] ++ join_LF rest
  end.

(** A line that [writeLine] and the splitter carry unchanged: not empty,
    without LF, not ending in CR. *)
Definition plain_line (line : jsstring) : bool :=
  negb (is_empty line) && negb (has_LF line) && negb (ends_with_CR line).

(** The text is empty or starts with a character that is no white space. *)
Definition starts_clean (s : jsstring) : bool :=
  match s with
  | [] => true
  | c :: _ => negb (is_js_whitespace c)
  end.

(** *** More vocabulary: closing *)

(** The events that are releases, console output apart. *)
Definition is_release (ev : OpenPort.CloseEvent) : bool :=
  match ev with
  | OpenPort.ConsoleError => false
  | _ => true
  end.

Definition throws {A} (c : completion A) : bool :=
  match c with
  | Throw _ => true
  | Normal _ => false
  end.

(** The number of releases that fail. *)
Definition failures (o : OpenPort.Outcomes) : nat :=
  length (filter (fun b : bool => b)
            [throws (OpenPort.releaseLock_result o);
             throws (OpenPort.cancel_result o);
             throws (OpenPort.port_close_result o);
             throws (OpenPort.readableClosed_result o);
             throws (OpenPort.writableClosed_result o)]).

(** *** More vocabulary: runs of the loop and of the page *)

(** The five values of the reading are finite. *)
Definition reading_finite (r : Monitoring.RealtimeRow) : bool :=
  forallb Number_isFinite
    [Monitoring.pulse r; Monitoring.oxygenSaturation r;
     Monitoring.temperatureC r; Monitoring.systolic r;
     Monitoring.diastolic r].

(** What the loop has no business with: the patient list, the patient,
    the session, the port list, the port selection, the connection, the
    loading flag and the close request. *)
Definition frame (st : Monitoring.Store)
  : list Monitoring.Patient * jsstring * option Monitoring.Session
    * list Monitoring.SerialPort * Z * option Monitoring.SerialIO
    * bool * bool :=
  (Monitoring.patients (Monitoring.state st),
   Monitoring.patientId (Monitoring.state st),
   Monitoring.session (Monitoring.state st),
   Monitoring.ports (Monitoring.state st),
   Monitoring.selectedPortIdx (Monitoring.state st),
   Monitoring.io (Monitoring.state st),
   Monitoring.loading (Monitoring.state st),
   Monitoring.closeLoopRef (Monitoring.refs st)).

Definition read_throws (t : Monitoring.Tick) : bool :=
  match Monitoring.read t with
  | Monitoring.ReadThrows _ => true
  | _ => false
  end.

Section RunVocabulary.
Context {rt : JsRuntime}.

(** The reading the tick brings, if its line is accepted. *)
Definition tick_reading (t : Monitoring.Tick)
  : option Monitoring.RealtimeRow :=
  match Monitoring.read t with
  | Monitoring.ReadValue value =>
      match Monitoring.parseLine (Monitoring.clock_iso t) value with
      | Normal (Some r) => Some r
      | _ => None
      end
  | _ => None
  end.

(** The read is the end of the stream or a failure. *)
Definition tick_ends_loop (t : Monitoring.Tick) : bool :=
  match Monitoring.read t with
  | Monitoring.ReadValue _ => false
  | _ => true
  end.

(** The accepted readings of the reads up to the first one that ends the
    loop, in the order of the reads. *)
Fixpoint processed_readings (ticks : list Monitoring.Tick)
  : list Monitoring.RealtimeRow :=
  match ticks with
  | [] => []
  | t :: rest =>
      if tick_ends_loop t then []
      else
        match tick_reading t with
        | Some r => r :: processed_readings rest
        | None => processed_readings rest
        end
  end.

End RunVocabulary.

(** *** More vocabulary: the page and its tasks *)

(** The render whose [readLoop] the task runs, or will launch. *)
Definition loop_render (task : Monitoring.Task)
  : option Monitoring.ReactState :=
  match task with
  | Monitoring.AwaitOpenPort r => Some r
  | Monitoring.AwaitRead r => Some r
  | Monitoring.AwaitAddData r => Some r
  | _ => None
  end.

(** The render of a loop that waits for a line. *)
Definition reading_loop (task : Monitoring.Task)
  : option Monitoring.ReactState :=
  match task with
  | Monitoring.AwaitRead r => Some r
  | _ => None
  end.

(** The event is the promise of task [k] settling. *)
Definition settles_task (k : nat) (ev : Monitoring.Event) : bool :=
  match ev with
  | Monitoring.Settles j _ => Nat.eqb j k
  | _ => false
  end.

(** The events of a stop: the control, and the write to the device and
    the closing of the session settling. *)
Definition stop_event (ev : Monitoring.Event) : bool :=
  match ev with
  | Monitoring.ClickStop => true
  | Monitoring.Settles _ (Monitoring.WriteSettled _) => true
  | Monitoring.Settles _ (Monitoring.SessionCloseSettled _ _) => true
  | _ => false
  end.

Definition is_create (task : Monitoring.Task) : bool :=
  match task with
  | Monitoring.AwaitCreate => true
  | _ => false
  end.

Definition is_findAll (task : Monitoring.Task) : bool :=
  match task with
  | Monitoring.AwaitFindAll => true
  | _ => false
  end.

(** The number of tasks of one kind. *)
Definition count (kind : Monitoring.Task -> bool)
    (tasks : list Monitoring.Task) : nat :=
  length (filter kind tasks).

(** The patient selected is one of the options of the list. *)
Definition patient_listed (r : Monitoring.ReactState) : bool :=
  existsb (jsstring_eqb (Monitoring.patientId r))
          (Monitoring.patient_options r).

(** What holds of the page whatever the order of events: a bounded buffer
    of finite readings; the loading flag set exactly while the one
    creation call is pending; every loop, and every port opening that
    will launch one, a closure of a render in which the connect control
    was enabled; a port selection of at least -1; the selected patient
    among the options; and the patient list empty until it is fetched,
    once. *)
Definition page_ok (p : Monitoring.Page) : Prop :=
  let s := Monitoring.state (Monitoring.store p) in
  length (Monitoring.realtime s) <= 200
  /\ forallb reading_finite (Monitoring.realtime s) = true
  /\ count is_create (Monitoring.tasks p) = Nat.b2n (Monitoring.loading s)
  /\ (forall task render,
        In task (Monitoring.tasks p) ->
        loop_render task = Some render ->
        Monitoring.canConnect render = true)
  /\ (-1 <= Monitoring.selectedPortIdx s)%Z
  /\ patient_listed s = true
  /\ count is_findAll (Monitoring.tasks p) <= 1
  /\ (count is_findAll (Monitoring.tasks p) = 1 ->
      Monitoring.patients s = []).

(** The render on screen when the operator, with the session created and
    the port picked, uses the connect control. *)
Definition render_before_connect : Monitoring.ReactState :=
  {| Monitoring.patients := [patient_p1];
     Monitoring.patientId := js "p1";
     Monitoring.session := Some session_s1;
     Monitoring.ports := [port_a];
     Monitoring.selectedPortIdx := 0;
     Monitoring.io := None;
     Monitoring.isMonitoring := false;
     Monitoring.startedFromDevice := false;
     Monitoring.loading := false;
     Monitoring.err := None;
     Monitoring.realtime := [] |}.

(** The operator picks the patient, creates the session, picks the port
    and uses the connect control; the port is still being opened
    (task 3). *)
Definition operator_opens : list Monitoring.Event :=
  page_loads
  ++ [Monitoring.SelectPatient (js "p1");
      Monitoring.ClickCreateSession;
      Monitoring.Settles 2 (Monitoring.CreateSettled (Normal session_s1));
      Monitoring.SelectPort 0;
      Monitoring.ClickConnect].

(** The operator picks the patient and uses the create control; the
    session is still being created (task 2). *)
Definition operator_creates : list Monitoring.Event :=
  page_loads
  ++ [Monitoring.SelectPatient (js "p1"); Monitoring.ClickCreateSession].

(** *** More vocabulary: percentages *)


(** [{"bpm":72,"spo2":98,"temp":36.6,"sys":118,"dia":76}], the example of
    the wire protocol: spellings of both kinds in one message. *)
Definition message_mixed : jsstring :=
  js "{" ++ quoted "bpm" ++ js ":72," ++ quoted "spo2" ++ js ":98,"
  ++ quoted "temp" ++ js ":36.6," ++ quoted "sys" ++ js ":118,"
  ++ quoted "dia" ++ js ":76}".

(* ===================================================================== *)
(** * Properties                                                          *)
(* ===================================================================== *)


(** ** Running the definitions *)

Example split_crlf_and_lf :
  Serial.split (js "a" ++ [CR; LF] ++ js "b" ++ [LF] ++ js "c")
  = [js "a"; js "b"; js "c"].
Proof. reflexivity. Qed.

(** A CR that no LF follows is content; the CR of a CR LF is not. *)
Example split_lone_cr :
  Serial.split ([CR; CR; LF] ++ js "x" ++ [CR]) = [[CR]; js "x" ++ [CR]].
Proof. reflexivity. Qed.

(** A terminator cut in two by a chunk boundary. *)
Example emitted_across_chunks :
  Serial.emitted [js "ab" ++ [CR]; [LF] ++ js "cd"; [LF; LF] ++ js "e"]
  = [js "ab"; js "cd"].
Proof. reflexivity. Qed.

Example writeLine_adds_newline :
  Serial.writeLine (js "1") = js "1" ++ [LF]
  /\ Serial.writeLine (js "1" ++ [LF]) = js "1" ++ [LF].
Proof. split; reflexivity. Qed.

(** The reference engine rounds decimals to the nearest binary64 value:
    [0.1], the largest finite value, and a tie at [2^53 + 1]. *)
Example engine_rounding :
  Engine.StringToNumber (js "0.1") = S754_finite false 7205759403792794 (-56)
  /\ Engine.StringToNumber (js "1.7976931348623157e308")
     = S754_finite false 9007199254740991 971
  /\ Engine.StringToNumber (js "1.7976931348623159e308") = pos_inf
  /\ Engine.StringToNumber (js "9007199254740993")
     = S754_finite false 4503599627370496 1.
Proof. vm_compute. repeat split. Qed.

Example engine_parses_message :
  Engine.JSON_parse message_first
  = Normal (first_spellings (num 70) (num 97) (num_decimal false 365 (-1))
                            (num 120) (num 80)).
Proof. vm_compute. reflexivity. Qed.

(** [null] is not a missing value for [Number]: it coerces to [0]. *)
Example null_coerces_to_zero :
  Monitoring.field
    (JObj [(js "pulse", JNull); (js "bpm", JNull)]) "pulse" "bpm"
  = Normal pos_zero.
Proof. reflexivity. Qed.

Example clamp_300 :
  Monitoring.clamp (num 300) (num 20) (num 240) = num 240
  /\ Monitoring.clamp (num 10) (num 20) (num 240) = num 20
  /\ Monitoring.clamp (num 72) (num 20) (num 240) = num 72.
Proof. vm_compute. repeat split. Qed.

(** ** The line splitter *)

#[local] Arguments N.eqb : simpl never.

Section SplitFacts.

(** The equations of [split], one per branch. *)
Lemma split_cons_LF (c : code_unit) (r : jsstring) :
  (c =? LF)%N = true -> Serial.split (c :: r) = [] :: Serial.split r.
Proof. intros H. simpl. now rewrite H. Qed.

Lemma split_single (c : code_unit) :
  (c =? LF)%N = false -> Serial.split [c] = [[c]].
Proof. intros H. simpl. now rewrite H. Qed.

Lemma split_cons_CRLF (c d : code_unit) (r : jsstring) :
  (c =? LF)%N = false -> ((c =? CR) && (d =? LF))%N = true ->
  Serial.split (c :: d :: r) = [] :: Serial.split r.
Proof. intros H1 H2. cbn [Serial.split]. now rewrite H1, H2. Qed.

Lemma split_cons_other (c d : code_unit) (r : jsstring) :
  (c =? LF)%N = false -> ((c =? CR) && (d =? LF))%N = false ->
  Serial.split (c :: d :: r) = Serial.push_front c (Serial.split (d :: r)).
Proof.
  intros H1 H2.
  change (Serial.split (c :: d :: r))
    with (if (c =? LF)%N then [] :: Serial.split (d :: r)
          else if ((c =? CR) && (d =? LF))%N then [] :: Serial.split r
               else Serial.push_front c (Serial.split (d :: r))).
  now rewrite H1, H2.
Qed.

Lemma has_LF_cons (c : code_unit) (s : jsstring) :
  has_LF (c :: s) = ((c =? LF)%N || has_LF s).
Proof. unfold has_LF. simpl. now rewrite N.eqb_sym. Qed.

Lemma split_not_nil (s : jsstring) : Serial.split s <> [].
Proof.
  destruct s as [|c r]; [discriminate|].
  destruct (c =? LF)%N eqn:Hc.
  - rewrite split_cons_LF by assumption. discriminate.
  - destruct r as [|d r'].
    + rewrite split_single by assumption. discriminate.
    + destruct ((c =? CR) && (d =? LF))%N eqn:Hcd.
      * rewrite split_cons_CRLF by assumption. discriminate.
      * rewrite split_cons_other by assumption.
        unfold Serial.push_front.
        destruct (Serial.split (d :: r')); discriminate.
Qed.

Lemma push_front_app (c : code_unit) (xs ys : list jsstring) :
  xs <> [] ->
  Serial.push_front c (xs ++ ys) = Serial.push_front c xs ++ ys.
Proof. destruct xs; [congruence | reflexivity]. Qed.

(** A text without LF is a single segment, and only such a text is. *)
Lemma split_no_LF (s : jsstring) :
  has_LF s = false -> Serial.split s = [s].
Proof.
  induction s as [|c r IH]; [reflexivity|].
  rewrite has_LF_cons. intros H. apply orb_false_elim in H as [Hc Hr].
  destruct r as [|d r']; [now apply split_single|].
  rewrite split_cons_other, IH; trivial.
  rewrite has_LF_cons in Hr. apply orb_false_elim in Hr as [Hd _].
  now rewrite Hd, andb_false_r.
Qed.

Lemma split_one_segment (s x : jsstring) :
  Serial.split s = [x] -> has_LF s = false.
Proof.
  revert x. induction s as [|c r IH]; intros x Hs; [reflexivity|].
  rewrite has_LF_cons.
  destruct (c =? LF)%N eqn:Hc.
  - rewrite split_cons_LF in Hs by assumption.
    pose proof (split_not_nil r). inversion Hs. congruence.
  - destruct r as [|d r']; [reflexivity|].
    destruct ((c =? CR) && (d =? LF))%N eqn:Hcd.
    + rewrite split_cons_CRLF in Hs by assumption.
      pose proof (split_not_nil r'). inversion Hs. congruence.
    + rewrite split_cons_other in Hs by assumption.
      destruct (Serial.split (d :: r')) as [|y [|z zs]] eqn:Hr.
      * now apply split_not_nil in Hr.
      * simpl. now apply (IH y).
      * discriminate.
Qed.

(** Splitting commutes with cutting the text anywhere: the segments that
    are complete in the first part stay, the open one is continued. *)
Lemma split_app (a b : jsstring) :
  Serial.split (a ++ b)
  = removelast (Serial.split a)
    ++ Serial.split (last (Serial.split a) [] ++ b).
Proof.
  remember (length a) as n eqn:Hn.
  revert a Hn. induction n as [n IH] using lt_wf_ind. intros a Hn.
  destruct a as [|c r]; [reflexivity|].
  destruct (c =? LF)%N eqn:Hc.
  - change ((c :: r) ++ b) with (c :: (r ++ b)).
    rewrite !split_cons_LF by assumption.
    rewrite (IH (length r) ltac:(simpl in Hn; lia) r eq_refl).
    pose proof (split_not_nil r) as Hne.
    destruct (Serial.split r) as [|x xs]; [congruence | reflexivity].
  - destruct r as [|d r'].
    + rewrite split_single by assumption. reflexivity.
    + destruct ((c =? CR) && (d =? LF))%N eqn:Hcd.
      * change ((c :: d :: r') ++ b) with (c :: d :: (r' ++ b)).
        rewrite !split_cons_CRLF by assumption.
        rewrite (IH (length r') ltac:(simpl in Hn; lia) r' eq_refl).
        pose proof (split_not_nil r') as Hne.
        destruct (Serial.split r') as [|x xs]; [congruence | reflexivity].
      * change ((c :: d :: r') ++ b) with (c :: d :: (r' ++ b)).
        rewrite !split_cons_other by assumption.
        change (d :: r' ++ b) with ((d :: r') ++ b).
        rewrite (IH (length (d :: r')) ltac:(simpl in *; lia)
                    (d :: r') eq_refl).
        destruct (Serial.split (d :: r')) as [|x [|y ys]] eqn:Hs.
        -- now apply split_not_nil in Hs.
        -- (* no terminator in [d :: r']: the open segment is the text *)
           pose proof (split_one_segment _ _ Hs) as Hnl.
           rewrite (split_no_LF _ Hnl) in Hs. inversion Hs; subst x.
           cbn [removelast last app Serial.push_front].
           change (c :: (d :: r') ++ b) with (c :: d :: (r' ++ b)).
           now rewrite split_cons_other by assumption.
        -- change (removelast (Serial.push_front c (x :: y :: ys)))
             with (Serial.push_front c (removelast (x :: y :: ys))).
           change (last (Serial.push_front c (x :: y :: ys)) [])
             with (last (x :: y :: ys) []).
           rewrite push_front_app; [reflexivity|].
           simpl. destruct ys; discriminate.
Qed.

Lemma last_split_no_LF (s : jsstring) :
  has_LF (last (Serial.split s) []) = false.
Proof.
  remember (length s) as n eqn:Hn.
  revert s Hn. induction n as [n IH] using lt_wf_ind. intros s Hn.
  destruct s as [|c r]; [reflexivity|].
  destruct (c =? LF)%N eqn:Hc.
  - rewrite split_cons_LF by assumption.
    pose proof (split_not_nil r) as Hne.
    destruct (Serial.split r) as [|x xs] eqn:Hs; [congruence|].
    change (last ([] :: x :: xs) []) with (last (x :: xs) []).
    rewrite <- Hs. apply (IH (length r)); simpl in Hn; [lia | reflexivity].
  - destruct r as [|d r'].
    + rewrite split_single by assumption. cbn [last].
      now rewrite has_LF_cons, Hc.
    + destruct ((c =? CR) && (d =? LF))%N eqn:Hcd.
      * rewrite split_cons_CRLF by assumption.
        pose proof (split_not_nil r') as Hne.
        destruct (Serial.split r') as [|x xs] eqn:Hs; [congruence|].
        change (last ([] :: x :: xs) []) with (last (x :: xs) []).
        rewrite <- Hs.
        apply (IH (length r')); simpl in Hn; [lia | reflexivity].
      * rewrite split_cons_other by assumption.
        pose proof (IH (length (d :: r')) ltac:(simpl in *; lia)
                       (d :: r') eq_refl) as IHr.
        destruct (Serial.split (d :: r')) as [|x [|y ys]] eqn:Hs.
        -- now apply split_not_nil in Hs.
        -- cbn [Serial.push_front last] in *.
           now rewrite has_LF_cons, Hc.
        -- exact IHr.
Qed.

End SplitFacts.

Section TransformerFacts.

Lemma last_app_nonempty (A : Type) (xs ys : list A) (d : A) :
  ys <> [] -> last (xs ++ ys) d = last ys d.
Proof.
  intros Hys. induction xs as [|x xs IH]; [reflexivity|].
  simpl. rewrite IH.
  destruct (xs ++ ys) eqn:E; [|reflexivity].
  apply app_eq_nil in E as [_ E]. congruence.
Qed.

Lemma transform_eq (carry chunk : jsstring) :
  Serial.LineBreakTransformer.transform carry chunk
  = (Serial.enqueued (removelast (Serial.split (carry ++ chunk))),
     last (Serial.split (carry ++ chunk)) []).
Proof. reflexivity. Qed.

(** Feeding the chunks one by one is splitting their concatenation: the
    chunk boundaries do not show. *)
Lemma transform_all_concat (chunks : list jsstring) (carry : jsstring) :
  has_LF carry = false ->
  Serial.transform_all carry chunks
  = (Serial.enqueued
       (removelast (Serial.split (carry ++ concat chunks))),
     last (Serial.split (carry ++ concat chunks)) []).
Proof.
  revert carry. induction chunks as [|chunk rest IH]; intros carry Hc.
  - simpl. rewrite app_nil_r, split_no_LF by assumption. reflexivity.
  - cbn [Serial.transform_all concat]. rewrite transform_eq.
    rewrite IH by apply last_split_no_LF.
    rewrite (app_assoc carry chunk (concat rest)).
    rewrite (split_app (carry ++ chunk) (concat rest)).
    set (open := last (Serial.split (carry ++ chunk)) []).
    pose proof (split_not_nil (open ++ concat rest)) as Hne.
    rewrite removelast_app by assumption.
    rewrite last_app_nonempty by assumption.
    unfold Serial.enqueued. now rewrite filter_app.
Qed.

Lemma ends_with_CR_cons (c d : code_unit) (s : jsstring) :
  ends_with_CR (c :: d :: s) = ends_with_CR (d :: s).
Proof. reflexivity. Qed.

(** A well-formed line at the front of a text is its first segment. *)
Lemma split_line (body : jsstring) (t : terminator) (rest : jsstring) :
  well_formed_line (body, t) = true ->
  Serial.split (body ++ terminator_text t ++ rest)
  = body :: Serial.split rest.
Proof.
  unfold well_formed_line. cbn [fst snd].
  induction body as [|c b IH]; intros Hwf.
  - destruct t; reflexivity.
  - apply andb_prop in Hwf as [Hlf Ht].
    apply negb_true_iff in Hlf. rewrite has_LF_cons in Hlf.
    apply orb_false_elim in Hlf as [Hc Hb].
    assert (IHb : Serial.split (b ++ terminator_text t ++ rest)
                  = b :: Serial.split rest).
    { apply IH. rewrite Hb. simpl.
      destruct t; [|reflexivity].
      destruct b as [|d b']; [reflexivity|].
      now rewrite ends_with_CR_cons in Ht. }
    destruct b as [|d b'].
    + (* the terminator follows *)
      destruct t.
      * cbn [app terminator_text]. cbn [ends_with_CR] in Ht.
        apply negb_true_iff in Ht.
        rewrite split_cons_other; [| assumption | now rewrite Ht].
        cbn [app terminator_text] in IHb. now rewrite IHb.
      * cbn [app terminator_text].
        rewrite split_cons_other;
          [| assumption | now rewrite andb_false_r].
        cbn [app terminator_text] in IHb. now rewrite IHb.
    + rewrite has_LF_cons in Hb. apply orb_false_elim in Hb as [Hd _].
      change ((c :: d :: b') ++ terminator_text t ++ rest)
        with (c :: d :: (b' ++ terminator_text t ++ rest)).
      rewrite split_cons_other;
        [| assumption | now rewrite Hd, andb_false_r].
      change (d :: b' ++ terminator_text t ++ rest)
        with ((d :: b') ++ terminator_text t ++ rest).
      now rewrite IHb.
Qed.

Lemma split_stream_text (lines : list source_line) (fragment : jsstring) :
  forallb well_formed_line lines = true ->
  has_LF fragment = false ->
  Serial.split (stream_text lines fragment) = map fst lines ++ [fragment].
Proof.
  intros Hwf Hfrag. unfold stream_text.
  induction lines as [|[body t] lines IH].
  - simpl. now apply split_no_LF.
  - cbn [forallb] in Hwf. apply andb_prop in Hwf as [Hl Hls].
    cbn [map concat fst]. unfold line_text at 1. cbn [fst snd].
    rewrite <- !app_assoc. rewrite split_line by assumption.
    now rewrite IH.
Qed.

(** What the reader sees of a text of terminated lines and a fragment,
    whatever the chunking. *)
Lemma emitted_stream_text (chunks : list jsstring)
    (lines : list source_line) (fragment : jsstring) :
  forallb well_formed_line lines = true ->
  has_LF fragment = false ->
  concat chunks = stream_text lines fragment ->
  Serial.transform_all [] chunks
  = (Serial.enqueued (map fst lines), fragment).
Proof.
  intros Hwf Hfrag Htext.
  rewrite transform_all_concat by reflexivity.
  cbn [app]. rewrite Htext, split_stream_text by assumption.
  now rewrite removelast_last, last_last.
Qed.

Lemma enqueued_nonempty (lines : list jsstring) :
  Forall (fun line => 1 <= length line) (Serial.enqueued lines).
Proof.
  apply Forall_forall. intros line Hin.
  apply filter_In in Hin as [_ Hlen].
  apply negb_true_iff, Nat.eqb_neq in Hlen. lia.
Qed.

Lemma transform_all_nonempty (chunks : list jsstring) (carry : jsstring) :
  Forall (fun line => 1 <= length line)
         (fst (Serial.transform_all carry chunks)).
Proof.
  revert carry. induction chunks as [|chunk rest IH]; intros carry.
  - constructor.
  - cbn [Serial.transform_all]. rewrite transform_eq.
    specialize (IH (last (Serial.split (carry ++ chunk)) [])).
    destruct (Serial.transform_all _ rest) as [out2 carry2].
    cbn [fst] in *. apply Forall_app. split; [apply enqueued_nonempty | exact IH].
Qed.

Lemma enqueued_all_nonempty (lines : list jsstring) :
  forallb (fun line => negb (is_empty line)) lines = true ->
  Serial.enqueued lines = lines.
Proof.
  induction lines as [|l ls IH]; [reflexivity|].
  cbn [forallb]. intros H. apply andb_prop in H as [Hl Hls].
  unfold Serial.enqueued in *. cbn [filter].
  destruct l; [discriminate|]. cbn. now rewrite IH.
Qed.

End TransformerFacts.

(** C1 (as amended).  For every chunking of a text made of K terminated
    lines (each ended by LF or CR LF, a line ended by a bare LF not ending
    in CR) followed by an unterminated fragment, the reader gets exactly
    the non-empty ones among the K line contents, in order and without
    their terminators; the fragment stays in [carry] and [flush] drops it
    without emitting anything.  When none of the K lines is empty the
    reader gets exactly K lines. *)
Theorem line_framing_nonempty_lines (chunks : list jsstring) (lines : list source_line)
    (fragment : jsstring) :
  forallb well_formed_line lines = true ->
  has_LF fragment = false ->
  concat chunks = stream_text lines fragment ->
  Serial.emitted chunks = Serial.enqueued (map fst lines)
  /\ snd (Serial.transform_all [] chunks) = fragment
  /\ Serial.LineBreakTransformer.flush fragment = ([], [])
  /\ (forallb (fun l => negb (is_empty (fst l))) lines = true ->
      Serial.emitted chunks = map fst lines
      /\ length (Serial.emitted chunks) = length lines).
Proof.
  intros Hwf Hfrag Htext.
  pose proof (emitted_stream_text chunks lines fragment Hwf Hfrag Htext)
    as Hrun.
  assert (Hem : Serial.emitted chunks = Serial.enqueued (map fst lines)).
  { unfold Serial.emitted, Serial.LineBreakTransformer.initial_carry. rewrite Hrun. cbn. apply app_nil_r. }
  repeat split.
  - exact Hem.
  - now rewrite Hrun.
  - rewrite Hem. apply enqueued_all_nonempty.
    rewrite forallb_forall in *. intros x Hx.
    apply in_map_iff in Hx as [l [<- Hl]]. auto.
  - rewrite Hem, enqueued_all_nonempty, length_map; [reflexivity|].
    rewrite forallb_forall in *. intros x Hx.
    apply in_map_iff in Hx as [l [<- Hl]]. auto.
Qed.

Lemma line_framing_nonempty_lines_witness :
  Serial.emitted [js "ab" ++ [CR]; [LF] ++ js "cd"; [LF; LF] ++ js "e"]
  = [js "ab"; js "cd"]
  /\ snd (Serial.transform_all []
            [js "ab" ++ [CR]; [LF] ++ js "cd"; [LF; LF] ++ js "e"])
     = js "e".
Proof.
  destruct (line_framing_nonempty_lines
              [js "ab" ++ [CR]; [LF] ++ js "cd"; [LF; LF] ++ js "e"]
              [(js "ab", CR_LF); (js "cd", LF_only); ([], LF_only)]
              (js "e") eq_refl eq_refl eq_refl)
    as [H1 [H2 _]].
  split; [exact H1 | exact H2].
Defined.

(** C1 as stated fails: the text ["a\n\nb\n"] holds three terminated lines,
    the second one empty, and the reader gets two. *)
Lemma line_framing_counterexample :
  ~ one_line_per_source_line
      [js "a" ++ [LF; LF] ++ js "b" ++ [LF]]
      [(js "a", LF_only); ([], LF_only); (js "b", LF_only)]
      [].
Proof.
  unfold one_line_per_source_line. intros H.
  specialize (H eq_refl eq_refl eq_refl). discriminate H.
Qed.

(** C9.  No emitted line is empty, whatever the chunks; a text made of
    line terminators only (blank lines) gives the reader nothing. *)
Theorem no_empty_line_emitted :
  (forall chunks : list jsstring,
      Forall (fun line => 1 <= length line) (Serial.emitted chunks))
  /\ (forall (chunks : list jsstring) (terminators : list terminator),
         concat chunks = concat (map terminator_text terminators) ->
         Serial.emitted chunks = []).
Proof.
  split.
  - intros chunks. unfold Serial.emitted, Serial.LineBreakTransformer.initial_carry.
    pose proof (transform_all_nonempty chunks []) as H.
    destruct (Serial.transform_all [] chunks) as [out carry].
    cbn in *. now rewrite app_nil_r.
  - intros chunks terminators Htext.
    set (lines := map (fun t => ([], t) : source_line) terminators).
    assert (Hwf : forallb well_formed_line lines = true).
    { apply forallb_forall. intros l Hl.
      apply in_map_iff in Hl as [t [<- _]]. now destruct t. }
    assert (Hst : concat chunks = stream_text lines []).
    { rewrite Htext. unfold stream_text, lines.
      rewrite app_nil_r, map_map. reflexivity. }
    pose proof (emitted_stream_text chunks lines [] Hwf eq_refl Hst) as Hrun.
    unfold Serial.emitted, Serial.LineBreakTransformer.initial_carry. rewrite Hrun. cbn. rewrite app_nil_r.
    unfold lines. rewrite map_map. cbn [fst].
    clear. induction terminators; [reflexivity | assumption].
Qed.

Lemma no_empty_line_emitted_witness :
  Serial.emitted [[LF; CR]; [LF; LF]] = [].
Proof.
  apply (proj2 no_empty_line_emitted _ [LF_only; CR_LF; LF_only]).
  reflexivity.
Defined.

(** ** More on the adapter: writing, chunking, closing *)

Section AdapterFacts.

Lemma has_LF_false_In (s : jsstring) (x : code_unit) :
  has_LF s = false -> In x s -> (x =? LF)%N = false.
Proof.
  induction s as [|c r IH]; [contradiction|].
  rewrite has_LF_cons. intros H. apply orb_false_elim in H as [Hc Hr].
  intros [<- | Hin]; [assumption | now apply IH].
Qed.

Lemma endsWith_LF_no_LF (s : jsstring) :
  has_LF s = false -> endsWith s [LF] = false.
Proof.
  intros H. unfold endsWith. cbn [rev app].
  destruct (rev s) as [|x xs] eqn:E; [reflexivity|].
  cbn [startsWith].
  rewrite (has_LF_false_In s x H); [reflexivity|].
  apply in_rev. rewrite E. now left.
Qed.

Lemma endsWith_app_LF (s : jsstring) : endsWith (s ++ [LF]) [LF] = true.
Proof.
  unfold endsWith. rewrite rev_app_distr. cbn [rev app startsWith].
  rewrite N.eqb_refl. now destruct (rev s).
Qed.

Lemma writeLine_ends_with_LF (line : jsstring) :
  endsWith (Serial.writeLine line) [LF] = true.
Proof.
  unfold Serial.writeLine.
  destruct (endsWith line [LF]) eqn:E; [assumption | apply endsWith_app_LF].
Qed.

Lemma writeLine_plain (line : jsstring) :
  has_LF line = false -> Serial.writeLine line = line ++ [LF].
Proof.
  intros H. unfold Serial.writeLine. now rewrite endsWith_LF_no_LF.
Qed.

(** Every segment of a split is free of LF. *)
Lemma split_segments_no_LF (s : jsstring) :
  Forall (fun seg => has_LF seg = false) (Serial.split s).
Proof.
  remember (length s) as n eqn:Hn.
  revert s Hn. induction n as [n IH] using lt_wf_ind. intros s Hn.
  destruct s as [|c r]; [repeat constructor|].
  destruct (c =? LF)%N eqn:Hc.
  - rewrite split_cons_LF by assumption. constructor; [reflexivity|].
    apply (IH (length r)); [simpl in Hn; lia | reflexivity].
  - destruct r as [|d r'].
    + rewrite split_single by assumption. constructor; [|constructor].
      now rewrite has_LF_cons, Hc.
    + destruct ((c =? CR) && (d =? LF))%N eqn:Hcd.
      * rewrite split_cons_CRLF by assumption. constructor; [reflexivity|].
        apply (IH (length r')); [simpl in Hn; lia | reflexivity].
      * rewrite split_cons_other by assumption.
        pose proof (IH (length (d :: r')) ltac:(simpl in *; lia)
                       (d :: r') eq_refl) as IHr.
        destruct (Serial.split (d :: r')) as [|x xs] eqn:Hs.
        -- now apply split_not_nil in Hs.
        -- inversion IHr; subst. cbn [Serial.push_front].
           constructor; [|assumption]. now rewrite has_LF_cons, Hc.
Qed.

Lemma Forall_removelast (A : Type) (P : A -> Prop) (l : list A) :
  Forall P l -> Forall P (removelast l).
Proof.
  induction l as [|x l IH]; [trivial|].
  intros H. inversion H; subst. cbn [removelast].
  destruct l; [constructor | constructor; auto].
Qed.

Lemma Forall_filter_keep (A : Type) (P : A -> Prop) (f : A -> bool)
    (l : list A) :
  Forall P l -> Forall P (filter f l).
Proof.
  intros H. apply Forall_forall. intros x Hx.
  apply filter_In in Hx as [Hx _]. rewrite Forall_forall in H. auto.
Qed.

Lemma join_push_front (c : code_unit) (segs : list jsstring) :
  segs <> [] ->
  join_LF (Serial.push_front c segs) = c :: join_LF segs.
Proof.
  destruct segs as [|x [|y ys]]; [congruence | reflexivity | reflexivity].
Qed.

Lemma join_cons_nonempty (x : jsstring) (rest : list jsstring) :
  rest <> [] -> join_LF (x :: rest) = x ++ [LF] ++ join_LF rest.
Proof. destruct rest; [congruence | reflexivity]. Qed.

Lemma has_CR_cons (c : code_unit) (s : jsstring) :
  has_CR (c :: s) = ((c =? CR)%N || has_CR s).
Proof. unfold has_CR. simpl. now rewrite N.eqb_sym. Qed.

Lemma join_split_no_CR (s : jsstring) :
  has_CR s = false -> join_LF (Serial.split s) = s.
Proof.
  induction s as [|c r IH]; [reflexivity|].
  rewrite has_CR_cons. intros H. apply orb_false_elim in H as [Hc Hr].
  destruct (c =? LF)%N eqn:Hlf.
  - rewrite split_cons_LF by assumption.
    rewrite join_cons_nonempty by apply split_not_nil.
    rewrite IH by assumption. apply N.eqb_eq in Hlf. now subst c.
  - destruct r as [|d r'].
    + now rewrite split_single by assumption.
    + rewrite split_cons_other; [| assumption | now rewrite Hc].
      rewrite join_push_front by apply split_not_nil.
      now rewrite IH.
Qed.

End AdapterFacts.

(** X1.  The text [writeLine] hands to the writer always ends in a line
    feed, and writing is idempotent.  Lines that are not empty, hold no
    line feed and do not end in a carriage return come back unchanged and
    in order from a new [LineBreakTransformer], however the written text is
    cut into chunks. *)
Theorem writeLine_read_back :
  (forall line : jsstring,
      endsWith (Serial.writeLine line) [LF] = true
      /\ Serial.writeLine (Serial.writeLine line) = Serial.writeLine line)
  /\ (forall (lines chunks : list jsstring),
         forallb plain_line lines = true ->
         concat chunks = concat (map Serial.writeLine lines) ->
         Serial.emitted chunks = lines).
Proof.
  split.
  - intros line. split; [apply writeLine_ends_with_LF|].
    unfold Serial.writeLine at 1.
    now rewrite writeLine_ends_with_LF.
  - intros lines chunks Hplain Htext.
    set (src := map (fun l => (l, LF_only) : source_line) lines).
    assert (Hwf : forallb well_formed_line src = true).
    { apply forallb_forall. intros l Hl.
      apply in_map_iff in Hl as [x [<- Hx]].
      rewrite forallb_forall in Hplain. specialize (Hplain x Hx).
      unfold plain_line in Hplain. unfold well_formed_line. cbn [fst snd].
      apply andb_prop in Hplain as [Hp Hcr].
      apply andb_prop in Hp as [_ Hlf]. now rewrite Hlf, Hcr. }
    assert (Hst : concat chunks = stream_text src []).
    { rewrite Htext. unfold stream_text, src. rewrite app_nil_r, map_map.
      f_equal. apply map_ext_in. intros l Hl. unfold line_text. cbn [fst snd].
      apply writeLine_plain.
      rewrite forallb_forall in Hplain. specialize (Hplain l Hl).
      unfold plain_line in Hplain.
      apply andb_prop in Hplain as [Hp _]. apply andb_prop in Hp as [_ Hlf].
      now apply negb_true_iff in Hlf. }
    pose proof (emitted_stream_text chunks src [] Hwf eq_refl Hst) as Hrun.
    unfold Serial.emitted, Serial.LineBreakTransformer.initial_carry.
    rewrite Hrun. cbn [fst Serial.LineBreakTransformer.flush].
    rewrite app_nil_r. unfold src. rewrite map_map. cbn [fst].
    rewrite map_id. apply enqueued_all_nonempty.
    apply forallb_forall. intros l Hl.
    rewrite forallb_forall in Hplain. specialize (Hplain l Hl).
    unfold plain_line in Hplain.
    apply andb_prop in Hplain as [Hp _]. now apply andb_prop in Hp as [Hne _].
Qed.

Lemma writeLine_read_back_witness :
  Serial.emitted [js "1" ++ [LF] ++ js "0"; [LF]] = [js "1"; js "0"].
Proof.
  apply (proj2 writeLine_read_back [js "1"; js "0"]); reflexivity.
Defined.

(** X2.  What the reader gets depends on the text only, not on how it
    arrives: two chunk sequences with the same concatenation give the same
    lines and leave the same [carry]. *)
Theorem chunking_does_not_matter (chunks1 chunks2 : list jsstring) :
  concat chunks1 = concat chunks2 ->
  Serial.emitted chunks1 = Serial.emitted chunks2
  /\ snd (Serial.transform_all [] chunks1)
     = snd (Serial.transform_all [] chunks2).
Proof.
  intros H. unfold Serial.emitted, Serial.LineBreakTransformer.initial_carry.
  rewrite !transform_all_concat by reflexivity. cbn [app fst snd].
  now rewrite H.
Qed.

Lemma chunking_does_not_matter_witness :
  Serial.emitted [js "ab"; [CR]; [LF] ++ js "c"; [LF]]
  = Serial.emitted [js "ab" ++ [CR; LF] ++ js "c" ++ [LF]].
Proof.
  apply (chunking_does_not_matter
           [js "ab"; [CR]; [LF] ++ js "c"; [LF]]
           [js "ab" ++ [CR; LF] ++ js "c" ++ [LF]]).
  reflexivity.
Defined.

(** X3.  No line feed ever gets through: whatever the chunks, no emitted
    line holds one, and neither does the [carry] kept for the next chunk. *)
Theorem line_feed_never_emitted (chunks : list jsstring) :
  Forall (fun line => has_LF line = false) (Serial.emitted chunks)
  /\ has_LF (snd (Serial.transform_all [] chunks)) = false.
Proof.
  unfold Serial.emitted, Serial.LineBreakTransformer.initial_carry.
  rewrite transform_all_concat by reflexivity. cbn [app fst snd].
  split; [|apply last_split_no_LF].
  rewrite app_nil_r. unfold Serial.enqueued.
  apply Forall_filter_keep, Forall_removelast, split_segments_no_LF.
Qed.

(** X4.  The split loses nothing but the terminators: for a text without
    carriage returns, joining the segments with line feeds gives the text
    back. *)
Theorem split_then_join (s : jsstring) :
  has_CR s = false -> join_LF (Serial.split s) = s.
Proof. apply join_split_no_CR. Qed.

Lemma split_then_join_witness :
  join_LF (Serial.split (js "a" ++ [LF; LF] ++ js "b" ++ [LF]))
  = js "a" ++ [LF; LF] ++ js "b" ++ [LF].
Proof.
  apply (split_then_join (js "a" ++ [LF; LF] ++ js "b" ++ [LF])).
  reflexivity.
Defined.

(** X5.  [close] is best effort: however the five releases settle, it
    completes without throwing, attempts every release exactly once, in
    the order writer lock, reader cancel, port close, readable pipe,
    writable pipe, and logs one error per release that failed. *)
Theorem close_attempts_every_release (o : OpenPort.Outcomes) :
  snd (OpenPort.close o) = Normal tt
  /\ filter is_release (fst (OpenPort.close o))
     = [OpenPort.WriterReleaseLock; OpenPort.ReaderCancel;
        OpenPort.PortClose; OpenPort.AwaitReadableClosed;
        OpenPort.AwaitWritableClosed]
  /\ length (filter (fun ev => negb (is_release ev))
                    (fst (OpenPort.close o)))
     = failures o.
Proof.
  destruct o as [[[]|e1] [[]|e2] [[]|e3] [[]|e4] [[]|e5]];
    repeat split; reflexivity.
Qed.

(** ** The parser *)

Section ParserFacts.
Context {rt : JsRuntime}.

Import Monitoring.

Lemma parseLine_unshaped (ts line : jsstring) :
  startsWith (trim line) (js "{") && endsWith (trim line) (js "}") = false ->
  parseLine ts line = Normal None.
Proof.
  intros H. unfold parseLine. cbv zeta.
  destruct (is_empty (trim line)); [reflexivity|].
  apply andb_false_iff in H as [-> | ->]; cbn; [reflexivity|].
  now rewrite orb_true_r.
Qed.

Lemma parseLine_shaped (ts line : jsstring) :
  startsWith (trim line) (js "{") && endsWith (trim line) (js "}") = true ->
  parseLine ts line
  = try_catch (obj <- JSON_parse (trim line) ;; reading_of ts obj)
              (fun _ => Normal None).
Proof.
  intros H. apply andb_prop in H as [Hs He].
  unfold parseLine. cbv zeta. rewrite Hs, He.
  destruct (trim line); [discriminate Hs | reflexivity].
Qed.

(** [parseLine] completes normally on every input. *)
Lemma parseLine_never_throws (ts line : jsstring) :
  exists r, parseLine ts line = Normal r.
Proof.
  destruct (startsWith (trim line) (js "{") && endsWith (trim line) (js "}"))
    eqn:Hshape.
  - rewrite parseLine_shaped by assumption.
    destruct (obj <- JSON_parse (trim line) ;; reading_of ts obj) as [r|e];
      cbn; eauto.
  - rewrite parseLine_unshaped by assumption. eauto.
Qed.

Lemma parseLine_bad_json (ts line : jsstring) (e : thrown) :
  JSON_parse (trim line) = Throw e -> parseLine ts line = Normal None.
Proof.
  intros H.
  destruct (startsWith (trim line) (js "{") && endsWith (trim line) (js "}"))
    eqn:Hshape.
  - rewrite parseLine_shaped by assumption. now rewrite H.
  - now apply parseLine_unshaped.
Qed.

(** When the line is accepted, the object was parsed and each of the five
    fields resolved to a finite Number, which the reading carries. *)
Lemma reading_of_Some (ts : jsstring) (obj : jsval) (r : RealtimeRow) :
  reading_of ts obj = Normal (Some r) ->
  field obj "pulse" "bpm" = Normal (pulse r)
  /\ field obj "spo2" "oxygenSaturation" = Normal (oxygenSaturation r)
  /\ field obj "temp" "temperatureC" = Normal (temperatureC r)
  /\ field obj "sys" "systolic" = Normal (systolic r)
  /\ field obj "dia" "diastolic" = Normal (diastolic r)
  /\ forallb Number_isFinite
       [pulse r; oxygenSaturation r; temperatureC r; systolic r; diastolic r]
     = true
  /\ timestamp r = ts.
Proof.
  unfold reading_of.
  destruct (field obj "pulse" "bpm") as [p|]; [|discriminate].
  destruct (field obj "spo2" "oxygenSaturation") as [s|]; [|discriminate].
  destruct (field obj "temp" "temperatureC") as [t|]; [|discriminate].
  destruct (field obj "sys" "systolic") as [y|]; [|discriminate].
  destruct (field obj "dia" "diastolic") as [d|]; [|discriminate].
  cbn [bind].
  destruct (forallb Number_isFinite [p; s; t; y; d]) eqn:Hfin;
    cbn [negb]; [|discriminate].
  intros H. inversion H; subst r. cbn. auto 10.
Qed.

Lemma reading_of_all_finite (ts : jsstring) (obj : jsval)
    (p s t y d : number) :
  field obj "pulse" "bpm" = Normal p ->
  field obj "spo2" "oxygenSaturation" = Normal s ->
  field obj "temp" "temperatureC" = Normal t ->
  field obj "sys" "systolic" = Normal y ->
  field obj "dia" "diastolic" = Normal d ->
  reading_of ts obj
  = if forallb Number_isFinite [p; s; t; y; d]
    then Normal (Some {| timestamp := ts; pulse := p; oxygenSaturation := s;
                         temperatureC := t; systolic := y; diastolic := d |})
    else Normal None.
Proof.
  intros Hp Hs Ht Hy Hd. unfold reading_of.
  rewrite Hp, Hs, Ht, Hy, Hd. cbn [bind].
  now destruct (forallb Number_isFinite [p; s; t; y; d]).
Qed.

Lemma parseLine_Some (ts line : jsstring) (r : RealtimeRow) :
  parseLine ts line = Normal (Some r) ->
  startsWith (trim line) (js "{") && endsWith (trim line) (js "}") = true
  /\ exists obj, JSON_parse (trim line) = Normal obj
                 /\ reading_of ts obj = Normal (Some r).
Proof.
  intros H.
  destruct (startsWith (trim line) (js "{") && endsWith (trim line) (js "}"))
    eqn:Hshape.
  - split; [reflexivity|].
    rewrite parseLine_shaped in H by assumption.
    destruct (JSON_parse (trim line)) as [obj|e]; [|discriminate].
    exists obj. split; [reflexivity|].
    cbn [bind] in H.
    destruct (reading_of ts obj) as [o|e]; cbn in H; congruence.
  - rewrite parseLine_unshaped in H by assumption. discriminate.
Qed.

(** A field that does not resolve to a finite Number rejects the object. *)
Lemma reading_of_rejects (ts : jsstring) (obj : jsval) :
  existsb (fun names => negb (field_finite obj names)) aliases = true ->
  reading_of ts obj = Normal None \/ exists e, reading_of ts obj = Throw e.
Proof.
  unfold aliases, field_finite, reading_of. cbn [existsb fst snd].
  destruct (field obj "pulse" "bpm") as [p|]; [|cbn; eauto].
  destruct (field obj "spo2" "oxygenSaturation") as [s|]; [|cbn; eauto].
  destruct (field obj "temp" "temperatureC") as [t|]; [|cbn; eauto].
  destruct (field obj "sys" "systolic") as [y|]; [|cbn; eauto].
  destruct (field obj "dia" "diastolic") as [d|]; [|cbn; eauto].
  cbn [bind forallb].
  intros H. left.
  destruct (Number_isFinite p), (Number_isFinite s), (Number_isFinite t),
    (Number_isFinite y), (Number_isFinite d); cbn in *;
    reflexivity || discriminate.
Qed.

(** A field neither spelling of which is a member is [NaN]. *)
Lemma field_of_missing (members : list (jsstring * jsval))
    (names : string * string) :
  field_missing members names = true ->
  field (JObj members) (fst names) (snd names) = Normal NaN.
Proof.
  unfold field_missing. intros H. apply andb_prop in H as [H1 H2].
  apply negb_true_iff in H1, H2.
  assert (Hnone : forall key, has_own_property members key = false ->
                              own_property members key = JUndefined).
  { clear. intros key. induction members as [|[k v] rest IH];
      [reflexivity|].
    unfold has_own_property in *. cbn [existsb fst own_property].
    intros H. apply orb_false_elim in H as [Hk Hrest].
    unfold has_own_property. now rewrite Hrest, Hk. }
  unfold field, coalesce, get. cbn [bind].
  rewrite (Hnone _ H1). cbn [nullish bind].
  rewrite (Hnone _ H2). reflexivity.
Qed.

(** The clock only shows in the timestamp. *)
Lemma reading_of_clock (ts ts' : jsstring) (obj : jsval) :
  parsed_values (reading_of ts obj) = parsed_values (reading_of ts' obj).
Proof.
  unfold reading_of.
  destruct (field obj "pulse" "bpm") as [p|]; [|reflexivity].
  destruct (field obj "spo2" "oxygenSaturation") as [s|]; [|reflexivity].
  destruct (field obj "temp" "temperatureC") as [t|]; [|reflexivity].
  destruct (field obj "sys" "systolic") as [y|]; [|reflexivity].
  destruct (field obj "dia" "diastolic") as [d|]; [|reflexivity].
  cbn [bind].
  now destruct (forallb Number_isFinite [p; s; t; y; d]).
Qed.

Lemma parseLine_clock (ts ts' line : jsstring) :
  parsed_values (parseLine ts line) = parsed_values (parseLine ts' line).
Proof.
  destruct (startsWith (trim line) (js "{") && endsWith (trim line) (js "}"))
    eqn:Hshape.
  - rewrite !parseLine_shaped by assumption.
    destruct (JSON_parse (trim line)) as [obj|e]; [|reflexivity].
    cbn [bind].
    pose proof (reading_of_clock ts ts' obj) as H.
    destruct (reading_of ts obj), (reading_of ts' obj); cbn in *;
      congruence.
  - now rewrite !parseLine_unshaped by assumption.
Qed.

End ParserFacts.

(** C2.  Each field is read under its first spelling and, only when that
    is absent or [null], under its second one; the reading of an accepted
    line carries the five fields resolved that way.  Hence a message
    written with the first spellings and one written with the second
    spellings, holding the same five Numbers, are both rejected or both
    accepted, with equal values in all five fields; when accepted, each
    reading carries the five Numbers and the timestamp of its own call. *)
Theorem alias_fallback_priority {rt : JsRuntime} :
  (forall (obj : jsval) (first second : string) (v : jsval),
      get obj (js first) = Normal v -> nullish v = false ->
      Monitoring.field obj first second = Number v)
  /\ (forall (obj : jsval) (first second : string) (v : jsval),
         get obj (js first) = Normal v -> nullish v = true ->
         Monitoring.field obj first second
         = (w <- get obj (js second) ;; Number w))
  /\ (forall (ts line : jsstring) (r : Monitoring.RealtimeRow),
         Monitoring.parseLine ts line = Normal (Some r) ->
         exists obj,
           JSON_parse (trim line) = Normal obj
           /\ Monitoring.field obj "pulse" "bpm"
              = Normal (Monitoring.pulse r)
           /\ Monitoring.field obj "spo2" "oxygenSaturation"
              = Normal (Monitoring.oxygenSaturation r)
           /\ Monitoring.field obj "temp" "temperatureC"
              = Normal (Monitoring.temperatureC r)
           /\ Monitoring.field obj "sys" "systolic"
              = Normal (Monitoring.systolic r)
           /\ Monitoring.field obj "dia" "diastolic"
              = Normal (Monitoring.diastolic r))
  /\ (forall (a b c d e : number) (ts1 ts2 line1 line2 : jsstring),
         startsWith (trim line1) (js "{") && endsWith (trim line1) (js "}")
         = true ->
         startsWith (trim line2) (js "{") && endsWith (trim line2) (js "}")
         = true ->
         JSON_parse (trim line1) = Normal (first_spellings a b c d e) ->
         JSON_parse (trim line2) = Normal (second_spellings a b c d e) ->
         parsed_values (Monitoring.parseLine ts1 line1)
         = parsed_values (Monitoring.parseLine ts2 line2)
         /\ (forallb Number_isFinite [a; b; c; d; e] = true ->
             Monitoring.parseLine ts1 line1
             = Normal (Some {| Monitoring.timestamp := ts1;
                               Monitoring.pulse := a;
                               Monitoring.oxygenSaturation := b;
                               Monitoring.temperatureC := c;
                               Monitoring.systolic := d;
                               Monitoring.diastolic := e |})
             /\ Monitoring.parseLine ts2 line2
                = Normal (Some {| Monitoring.timestamp := ts2;
                                  Monitoring.pulse := a;
                                  Monitoring.oxygenSaturation := b;
                                  Monitoring.temperatureC := c;
                                  Monitoring.systolic := d;
                                  Monitoring.diastolic := e |}))).
Proof.
  split; [|split; [|split]].
  - intros obj first second v Hget Hv.
    unfold Monitoring.field, coalesce. rewrite Hget. cbn [bind].
    now rewrite Hv.
  - intros obj first second v Hget Hv.
    unfold Monitoring.field, coalesce. rewrite Hget. cbn [bind].
    rewrite Hv. destruct (get obj (js second)); reflexivity.
  - intros ts line r H.
    apply parseLine_Some in H as [_ [obj [Hobj Hr]]].
    apply reading_of_Some in Hr as (Hp & Hs & Ht & Hy & Hd & _).
    exists obj. auto 10.
  - intros a b c d e ts1 ts2 line1 line2 Hs1 Hs2 Hp1 Hp2.
    rewrite (parseLine_shaped ts1 line1 Hs1), (parseLine_shaped ts2 line2 Hs2).
    rewrite Hp1, Hp2. cbn [bind].
    rewrite (reading_of_all_finite ts1 (first_spellings a b c d e) a b c d e)
      by reflexivity.
    rewrite (reading_of_all_finite ts2 (second_spellings a b c d e) a b c d e)
      by reflexivity.
    destruct (forallb Number_isFinite [a; b; c; d; e]); cbn.
    + split; [reflexivity|]. intros _. split; reflexivity.
    + split; [reflexivity|]. discriminate.
Qed.

(** C3.  A line one of whose five fields is missing, or does not coerce to
    a finite Number, gives no reading; an accepted line has all five fields
    coerced to finite Numbers, and these are the values of its reading. *)
Theorem five_fields_all_or_nothing {rt : JsRuntime} (ts line : jsstring) :
  (forall obj : jsval,
      JSON_parse (trim line) = Normal obj ->
      existsb (fun names => negb (field_finite obj names)) aliases = true ->
      Monitoring.parseLine ts line = Normal None)
  /\ (forall members : list (jsstring * jsval),
         JSON_parse (trim line) = Normal (JObj members) ->
         existsb (field_missing members) aliases = true ->
         Monitoring.parseLine ts line = Normal None)
  /\ (forall r : Monitoring.RealtimeRow,
         Monitoring.parseLine ts line = Normal (Some r) ->
         exists obj,
           JSON_parse (trim line) = Normal obj
           /\ forallb (field_finite obj) aliases = true
           /\ forallb Number_isFinite
                [Monitoring.pulse r; Monitoring.oxygenSaturation r;
                 Monitoring.temperatureC r; Monitoring.systolic r;
                 Monitoring.diastolic r] = true).
Proof.
  assert (Hreject : forall obj : jsval,
      JSON_parse (trim line) = Normal obj ->
      existsb (fun names => negb (field_finite obj names)) aliases = true ->
      Monitoring.parseLine ts line = Normal None).
  { intros obj Hobj Hbad.
    destruct (startsWith (trim line) (js "{")
              && endsWith (trim line) (js "}")) eqn:Hshape.
    - rewrite parseLine_shaped by assumption. rewrite Hobj. cbn [bind].
      destruct (reading_of_rejects ts obj Hbad) as [-> | [e ->]];
        reflexivity.
    - now apply parseLine_unshaped. }
  split; [exact Hreject | split].
  - intros members Hobj Hmiss. apply (Hreject _ Hobj).
    apply existsb_exists in Hmiss as [names [Hin Hm]].
    apply existsb_exists. exists names. split; [assumption|].
    unfold field_finite. now rewrite (field_of_missing members names Hm).
  - intros r H.
    apply parseLine_Some in H as [_ [obj [Hobj Hr]]].
    apply reading_of_Some in Hr as (Hp & Hs & Ht & Hy & Hd & Hfin & _).
    exists obj. split; [assumption|]. split; [|assumption].
    unfold aliases, field_finite. cbn [forallb fst snd].
    rewrite Hp, Hs, Ht, Hy, Hd. cbn [forallb] in Hfin. exact Hfin.
Qed.

(** C4.  [parseLine] completes normally on every line (it returns a
    reading or [null] and lets no exception out), and its result depends
    on the clock through the timestamp only; a line whose trimmed text
    does not start with an opening and end with a closing brace gives
    [null]; so does a line on which [JSON.parse] throws. *)
Theorem parseLine_total_never_throws {rt : JsRuntime} (ts line : jsstring) :
  (exists r, Monitoring.parseLine ts line = Normal r)
  /\ (forall ts' : jsstring,
         parsed_values (Monitoring.parseLine ts' line)
         = parsed_values (Monitoring.parseLine ts line))
  /\ (startsWith (trim line) (js "{") && endsWith (trim line) (js "}")
      = false ->
      Monitoring.parseLine ts line = Normal None)
  /\ (forall e : thrown,
         JSON_parse (trim line) = Throw e ->
         Monitoring.parseLine ts line = Normal None).
Proof.
  split; [apply parseLine_never_throws | split; [|split]].
  - intros ts'. apply parseLine_clock.
  - apply parseLine_unshaped.
  - apply parseLine_bad_json.
Qed.

Lemma alias_fallback_priority_witness :
  Monitoring.parseLine (js "t1") message_first
  = Normal (Some {| Monitoring.timestamp := js "t1";
                    Monitoring.pulse := num 70;
                    Monitoring.oxygenSaturation := num 97;
                    Monitoring.temperatureC := num_decimal false 365 (-1);
                    Monitoring.systolic := num 120;
                    Monitoring.diastolic := num 80 |})
  /\ Monitoring.parseLine (js "t2") message_second
     = Normal (Some {| Monitoring.timestamp := js "t2";
                       Monitoring.pulse := num 70;
                       Monitoring.oxygenSaturation := num 97;
                       Monitoring.temperatureC := num_decimal false 365 (-1);
                       Monitoring.systolic := num 120;
                       Monitoring.diastolic := num 80 |}).
Proof.
  destruct (@alias_fallback_priority reference_engine) as (_ & _ & _ & H).
  apply (H (num 70) (num 97) (num_decimal false 365 (-1)) (num 120) (num 80)
           (js "t1") (js "t2") message_first message_second).
  - vm_compute. reflexivity.
  - vm_compute. reflexivity.
  - vm_compute. reflexivity.
  - vm_compute. reflexivity.
  - vm_compute. reflexivity.
Defined.

Lemma five_fields_all_or_nothing_witness :
  Monitoring.parseLine (js "t") message_without_dia = Normal None
  /\ Monitoring.parseLine (js "t") message_text_pulse = Normal None.
Proof.
  split.
  - destruct (@five_fields_all_or_nothing reference_engine (js "t") message_without_dia)
      as (_ & H & _).
    apply (H [(js "pulse", JNum (num 70)); (js "spo2", JNum (num 97));
              (js "temp", JNum (num_decimal false 365 (-1)));
              (js "sys", JNum (num 120))]).
    + vm_compute. reflexivity.
    + vm_compute. reflexivity.
  - destruct (@five_fields_all_or_nothing reference_engine (js "t") message_text_pulse)
      as (H & _ & _).
    apply (H (JObj [(js "pulse", JStr (js "high"));
                    (js "spo2", JNum (num 97));
                    (js "temp", JNum (num_decimal false 365 (-1)));
                    (js "sys", JNum (num 120)); (js "dia", JNum (num 80))])).
    + vm_compute. reflexivity.
    + vm_compute. reflexivity.
Defined.

Lemma parseLine_total_never_throws_witness :
  Monitoring.parseLine (js "t") (js "boot ok") = Normal None
  /\ Monitoring.parseLine (js "t") message_malformed = Normal None.
Proof.
  split.
  - destruct (@parseLine_total_never_throws reference_engine (js "t")
                (js "boot ok")) as (_ & _ & H & _).
    apply H. vm_compute. reflexivity.
  - destruct (@parseLine_total_never_throws reference_engine (js "t")
                message_malformed) as (_ & _ & _ & H).
    apply (H Engine.SyntaxError). vm_compute. reflexivity.
Defined.

(** ** More on the parser: white space *)

Section TrimFacts.

Lemma trim_start_clean (s : jsstring) : starts_clean (trim_start s) = true.
Proof.
  induction s as [|c r IH]; [reflexivity|].
  cbn [trim_start]. destruct (is_js_whitespace c) eqn:E; [assumption|].
  cbn [starts_clean]. now rewrite E.
Qed.

Lemma trim_start_id (s : jsstring) :
  starts_clean s = true -> trim_start s = s.
Proof.
  destruct s as [|c r]; [reflexivity|]. cbn [starts_clean trim_start].
  intros H. apply negb_true_iff in H. now rewrite H.
Qed.

Lemma trim_start_space_app (w s : jsstring) :
  forallb is_js_whitespace w = true -> trim_start (w ++ s) = trim_start s.
Proof.
  induction w as [|c w IH]; [reflexivity|].
  cbn [forallb]. intros H. apply andb_prop in H as [Hc Hw].
  cbn [app trim_start]. rewrite Hc. now apply IH.
Qed.

(** What [trim_start] removes is white space. *)
Lemma trim_start_prefix (s : jsstring) :
  exists w, forallb is_js_whitespace w = true /\ s = w ++ trim_start s.
Proof.
  induction s as [|c r [w [Hw Hs]]]; [exists []; split; reflexivity|].
  cbn [trim_start]. destruct (is_js_whitespace c) eqn:E.
  - exists (c :: w). cbn [forallb app]. rewrite E, Hw. split; [reflexivity|].
    now f_equal.
  - exists []. split; reflexivity.
Qed.

Lemma trim_start_app_clean (s w : jsstring) :
  trim_start s <> [] -> trim_start (s ++ w) = trim_start s ++ w.
Proof.
  induction s as [|c r IH]; [intros H; now contradiction H|].
  cbn [app trim_start]. destruct (is_js_whitespace c); [exact IH | reflexivity].
Qed.

Lemma trim_start_all_space (s : jsstring) :
  trim_start s = [] -> forallb is_js_whitespace s = true.
Proof.
  induction s as [|c r IH]; [reflexivity|].
  cbn [trim_start forallb]. destruct (is_js_whitespace c); [exact IH|].
  discriminate.
Qed.

(** The trimmed text starts and ends with a character that is no white
    space, so trimming it again changes nothing. *)
Lemma trim_idempotent (s : jsstring) : trim (trim s) = trim s.
Proof.
  unfold trim.
  set (a := trim_start s).
  set (b := trim_start (rev a)).
  assert (Hb : starts_clean b = true) by apply trim_start_clean.
  assert (Hrb : starts_clean (rev b) = true).
  { destruct (trim_start_prefix (rev a)) as [w [Hw Ha]]. fold b in Ha.
    assert (Ha' : a = rev b ++ rev w).
    { rewrite <- (rev_involutive a), Ha. apply rev_app_distr. }
    pose proof (trim_start_clean s) as Hclean. fold a in Hclean.
    destruct (rev b) as [|x xs] eqn:E; [reflexivity|].
    rewrite Ha' in Hclean. exact Hclean. }
  rewrite (trim_start_id (rev b) Hrb), rev_involutive.
  now rewrite (trim_start_id b Hb).
Qed.

Lemma trim_space_before (w s : jsstring) :
  forallb is_js_whitespace w = true -> trim (w ++ s) = trim s.
Proof. intros H. unfold trim. now rewrite trim_start_space_app. Qed.

Lemma forallb_rev (A : Type) (f : A -> bool) (l : list A) :
  forallb f (rev l) = forallb f l.
Proof.
  induction l as [|x l IH]; [reflexivity|].
  cbn [rev forallb]. rewrite forallb_app, IH. cbn [forallb].
  rewrite andb_true_r. apply andb_comm.
Qed.

Lemma trim_space_after (s w : jsstring) :
  forallb is_js_whitespace w = true -> trim (s ++ w) = trim s.
Proof.
  intros H. unfold trim.
  destruct (trim_start s) as [|c s'] eqn:E.
  - pose proof (trim_start_all_space s E) as Hs.
    destruct (trim_start_prefix (s ++ w)) as [u [Hu Hsw]].
    assert (Hall : forallb is_js_whitespace (s ++ w) = true)
      by (rewrite forallb_app, Hs, H; reflexivity).
    assert (Hnil : trim_start (s ++ w) = []).
    { destruct (trim_start (s ++ w)) as [|x xs] eqn:Ex; [reflexivity|].
      pose proof (trim_start_clean (s ++ w)) as Hc. rewrite Ex in Hc.
      cbn [starts_clean] in Hc. rewrite Hsw, forallb_app in Hall.
      apply andb_prop in Hall as [_ Hall]. cbn [forallb] in Hall.
      apply andb_prop in Hall as [Hx _]. now rewrite Hx in Hc. }
    now rewrite Hnil.
  - rewrite trim_start_app_clean by (rewrite E; discriminate).
    rewrite E, rev_app_distr.
    rewrite trim_start_space_app; [reflexivity|].
    now rewrite forallb_rev.
Qed.

End TrimFacts.

(** X6.  White space around a line does not matter to the parser: with
    any white space (blanks, tabs, a carriage return the splitter left)
    before and after, the line is parsed as without it; the trimmed line
    is parsed as the line. *)
Theorem parseLine_ignores_surrounding_space {rt : JsRuntime}
    (ts line before after : jsstring) :
  forallb is_js_whitespace before = true ->
  forallb is_js_whitespace after = true ->
  Monitoring.parseLine ts (before ++ line ++ after)
  = Monitoring.parseLine ts line
  /\ Monitoring.parseLine ts (trim line) = Monitoring.parseLine ts line.
Proof.
  intros Hb Ha. split.
  - unfold Monitoring.parseLine.
    now rewrite trim_space_before, trim_space_after.
  - unfold Monitoring.parseLine. now rewrite trim_idempotent.
Qed.

Lemma parseLine_ignores_surrounding_space_witness :
  Monitoring.parseLine (js "t") (js "  " ++ message_first ++ [CR])
  = Monitoring.parseLine (js "t") message_first.
Proof.
  apply (@parseLine_ignores_surrounding_space reference_engine (js "t")
           message_first (js "  ") [CR]); reflexivity.
Defined.

(** ** Numbers and [clamp] *)

Section NumberFacts.

Lemma num_ltb_key (x y : number) :
  is_nan x = false -> is_nan y = false ->
  (num_ltb x y = true <-> key_lt (key x) (key y)).
Proof.
  unfold num_ltb, SFltb, key_lt.
  destruct x as [sx|sx| |sx mx ex], y as [sy|sy| |sy my ey];
    try discriminate; intros _ _; cbn [SFcompare key];
    try (destruct sx); try (destruct sy);
    try (split; [discriminate | lia]);
    try (split; [reflexivity | lia]);
    try (split; intros; [lia | reflexivity]).
  - (* both negative *)
    rewrite Pos.compare_cont_spec. cbn [Pos.switch_Eq].
    destruct (Z.compare_spec ex ey) as [He|He|He];
      [ destruct (Pos.compare_spec mx my) as [Hm|Hm|Hm]; cbn [CompOpp] | | ];
      (split; [try discriminate; intros _; lia | try reflexivity; lia]).
  - (* both positive *)
    rewrite Pos.compare_cont_spec. cbn [Pos.switch_Eq].
    destruct (Z.compare_spec ex ey) as [He|He|He];
      [ destruct (Pos.compare_spec mx my) as [Hm|Hm|Hm] | | ];
      (split; [try discriminate; intros _; lia | try reflexivity; lia]).
Qed.

Lemma num_leb_key (x y : number) :
  is_nan x = false -> is_nan y = false ->
  (num_leb x y = true <-> ~ key_lt (key y) (key x)).
Proof.
  unfold num_leb, SFleb, key_lt.
  destruct x as [sx|sx| |sx mx ex], y as [sy|sy| |sy my ey];
    try discriminate; intros _ _; cbn [SFcompare key];
    try (destruct sx); try (destruct sy);
    try (split; [discriminate | lia]);
    try (split; [reflexivity | lia]);
    try (split; intros; [lia | reflexivity]).
  - rewrite Pos.compare_cont_spec. cbn [Pos.switch_Eq].
    destruct (Z.compare_spec ex ey) as [He|He|He];
      [ destruct (Pos.compare_spec mx my) as [Hm|Hm|Hm]; cbn [CompOpp] | | ];
      (split; [try discriminate; intros _; lia | try reflexivity; lia]).
  - rewrite Pos.compare_cont_spec. cbn [Pos.switch_Eq].
    destruct (Z.compare_spec ex ey) as [He|He|He];
      [ destruct (Pos.compare_spec mx my) as [Hm|Hm|Hm] | | ];
      (split; [try discriminate; intros _; lia | try reflexivity; lia]).
Qed.

End NumberFacts.

Section ClampFacts.

Lemma key_eq (k1 k2 : Z * Z * Z) :
  ~ key_lt k1 k2 -> ~ key_lt k2 k1 -> k1 = k2.
Proof.
  destruct k1 as [[a1 b1] c1], k2 as [[a2 b2] c2]. unfold key_lt.
  intros H1 H2.
  assert (a1 = a2) by lia. assert (b1 = b2) by lia. assert (c1 = c2) by lia.
  congruence.
Qed.

Lemma key_lt_trans (k1 k2 k3 : Z * Z * Z) :
  key_lt k1 k2 -> key_lt k2 k3 -> key_lt k1 k3.
Proof.
  destruct k1 as [[a1 b1] c1], k2 as [[a2 b2] c2], k3 as [[a3 b3] c3].
  unfold key_lt. lia.
Qed.

Lemma key_lt_asym (k1 k2 : Z * Z * Z) : key_lt k1 k2 -> ~ key_lt k2 k1.
Proof.
  destruct k1 as [[a1 b1] c1], k2 as [[a2 b2] c2]. unfold key_lt. lia.
Qed.

Lemma key_lt_irrefl (k : Z * Z * Z) : ~ key_lt k k.
Proof. destruct k as [[a b] c]. unfold key_lt. lia. Qed.

(** Only a finite Number other than zero has the place of one. *)
Lemma key_inj_finite (x y : number) :
  is_finite_nonzero y = true -> key x = key y -> x = y.
Proof.
  destruct y as [| | |sy my ey]; try discriminate. intros _.
  destruct x as [sx|sx| |sx mx ex]; try (destruct sx); destruct sy;
    cbn [key]; intros H; inversion H; try lia; subst.
  - f_equal; lia.
  - reflexivity.
Qed.

Lemma finite_nonzero_not_nan (x : number) :
  is_finite_nonzero x = true -> is_nan x = false.
Proof. now destruct x. Qed.

(** [clamp] between two finite bounds, as a choice between three values. *)
Lemma clamp_cases (n lo hi : number) :
  is_finite_nonzero lo = true -> is_finite_nonzero hi = true ->
  is_nan n = false ->
  Monitoring.clamp n lo hi
  = let y := if num_ltb n hi then n else hi in
    if num_ltb lo y then y else lo.
Proof.
  intros Hlo Hhi Hn.
  destruct lo as [| | |sl ml el]; try discriminate.
  destruct hi as [| | |sh mh eh]; try discriminate.
  unfold Monitoring.clamp, Math_max, Math_min.
  cbn [Math_min_from is_nan is_neg_zero is_pos_zero andb].
  rewrite Hn, andb_false_r.
  replace (num_ltb (S754_finite sh mh eh) pos_inf) with true
    by (now destruct sh).
  cbn [Math_max_from is_nan is_neg_zero is_pos_zero andb].
  replace (num_ltb neg_inf (S754_finite sl ml el)) with true
    by (now destruct sl).
  cbv zeta.
  destruct (num_ltb n (S754_finite sh mh eh)).
  - rewrite Hn, andb_false_r. reflexivity.
  - reflexivity.
Qed.

Lemma clamp_clamps (n lo hi : number) :
  is_finite_nonzero lo = true -> is_finite_nonzero hi = true ->
  num_leb lo hi = true ->
  is_nan n = false ->
  clamps_to lo hi n (Monitoring.clamp n lo hi).
Proof.
  intros Hlo Hhi Hle Hn.
  pose proof (finite_nonzero_not_nan lo Hlo) as Nlo.
  pose proof (finite_nonzero_not_nan hi Hhi) as Nhi.
  rewrite clamp_cases by assumption. cbv zeta.
  apply (num_leb_key lo hi Nlo Nhi) in Hle.
  unfold clamps_to.
  destruct (num_ltb n hi) eqn:Hnh.
  - apply (num_ltb_key n hi Hn Nhi) in Hnh.
    destruct (num_ltb lo n) eqn:Hln.
    + apply (num_ltb_key lo n Nlo Hn) in Hln.
      split; [|split; [|split; [|split]]].
      * apply (num_leb_key lo n Nlo Hn). now apply key_lt_asym.
      * apply (num_leb_key n hi Hn Nhi). now apply key_lt_asym.
      * reflexivity.
      * intros H. apply (num_ltb_key n lo Hn Nlo) in H.
        now apply key_lt_asym in H.
      * intros H. apply (num_ltb_key hi n Nhi Hn) in H.
        now apply key_lt_asym in H.
    + assert (Hln' : ~ key_lt (key lo) (key n)).
      { intros H. apply (num_ltb_key lo n Nlo Hn) in H. congruence. }
      split; [|split; [|split; [|split]]].
      * apply (num_leb_key lo lo Nlo Nlo). apply key_lt_irrefl.
      * now apply (num_leb_key lo hi Nlo Nhi).
      * intros H _. apply (num_leb_key lo n Nlo Hn) in H.
        symmetry. apply key_inj_finite; [assumption|].
        now apply key_eq.
      * reflexivity.
      * intros H. apply (num_ltb_key hi n Nhi Hn) in H.
        now apply key_lt_asym in H.
  - assert (Hnh' : ~ key_lt (key n) (key hi)).
    { intros H. apply (num_ltb_key n hi Hn Nhi) in H. congruence. }
    destruct (num_ltb lo hi) eqn:Hlh.
    + apply (num_ltb_key lo hi Nlo Nhi) in Hlh.
      split; [|split; [|split; [|split]]].
      * apply (num_leb_key lo hi Nlo Nhi). now apply key_lt_asym.
      * apply (num_leb_key hi hi Nhi Nhi). apply key_lt_irrefl.
      * intros _ H. apply (num_leb_key n hi Hn Nhi) in H.
        symmetry. apply key_inj_finite; [assumption|].
        now apply key_eq.
      * intros H. apply (num_ltb_key n lo Hn Nlo) in H.
        exfalso. apply Hnh'. now apply (key_lt_trans _ (key lo)).
      * reflexivity.
    + assert (Hlh' : ~ key_lt (key lo) (key hi)).
      { intros H. apply (num_ltb_key lo hi Nlo Nhi) in H. congruence. }
      assert (Heq : lo = hi).
      { apply key_inj_finite; [assumption|]. now apply key_eq. }
      subst hi.
      split; [|split; [|split; [|split]]].
      * apply (num_leb_key lo lo Nlo Nlo). apply key_lt_irrefl.
      * apply (num_leb_key lo lo Nlo Nlo). apply key_lt_irrefl.
      * intros H1 H2. apply (num_leb_key lo n Nlo Hn) in H1.
        apply (num_leb_key n lo Hn Nlo) in H2.
        symmetry. apply key_inj_finite; [assumption|].
        now apply key_eq.
      * reflexivity.
      * reflexivity.
Qed.

(** The five ranges of the loop. *)
Lemma clamped_in_range (reading : Monitoring.RealtimeRow) :
  forallb Number_isFinite
    [Monitoring.pulse reading; Monitoring.oxygenSaturation reading;
     Monitoring.temperatureC reading; Monitoring.systolic reading;
     Monitoring.diastolic reading] = true ->
  let data := Monitoring.clamped reading in
  clamps_to (num 20) (num 240) (Monitoring.pulse reading)
            (Monitoring.data_pulse data)
  /\ clamps_to (num 50) (num 100) (Monitoring.oxygenSaturation reading)
               (Monitoring.data_oxygenSaturation data)
  /\ clamps_to (num 30) (num 45) (Monitoring.temperatureC reading)
               (Monitoring.data_temperatureC data)
  /\ clamps_to (num 50) (num 260) (Monitoring.systolic reading)
               (Monitoring.data_systolic data)
  /\ clamps_to (num 30) (num 200) (Monitoring.diastolic reading)
               (Monitoring.data_diastolic data).
Proof.
  intros Hfin. cbn [forallb] in Hfin.
  assert (Hnan : forall x, Number_isFinite x = true -> is_nan x = false)
    by (now destruct x).
  repeat (apply andb_prop in Hfin as [? Hfin]).
  cbv zeta. unfold Monitoring.clamped.
  cbn [Monitoring.data_pulse Monitoring.data_oxygenSaturation
       Monitoring.data_temperatureC Monitoring.data_systolic
       Monitoring.data_diastolic].
  repeat apply conj; apply clamp_clamps; auto.
Qed.

End ClampFacts.

(** ** More on [clamp]: the percentages of the bars *)

Section PercentFacts.




End PercentFacts.



Example toPct_samples :
  Monitoring.toPct_pulse (num 110) = num 50
  /\ Monitoring.toPct_temp (num 40) = num 100
  /\ Monitoring.toPct_sys (num 60) = num 0
  /\ Monitoring.toPct_spo2 (num 98) = num 98.
Proof. vm_compute. repeat split. Qed.

(** ** The session buffer *)

Section BufferFacts.
Import Monitoring.

Lemma slice_last_length (A : Type) (n : nat) (a : list A) :
  length (slice_last n a) <= n.
Proof. unfold slice_last. rewrite length_skipn. lia. Qed.

Lemma slice_last_short (A : Type) (n : nat) (a : list A) :
  length a <= n -> slice_last n a = a.
Proof.
  intros H. unfold slice_last.
  replace (length a - n) with 0 by lia. reflexivity.
Qed.

Lemma slice_last_suffix (A : Type) (n : nat) (a : list A) :
  a = firstn (length a - n) a ++ slice_last n a.
Proof. unfold slice_last. now rewrite firstn_skipn. Qed.

(** Cutting to the last [n] before appending changes nothing once the
    result is cut again. *)
Lemma slice_last_app (A : Type) (n : nat) (a b : list A) :
  slice_last n (slice_last n a ++ b) = slice_last n (a ++ b).
Proof.
  unfold slice_last.
  rewrite !length_app, length_skipn.
  destruct (Nat.le_gt_cases (length a) n) as [Hle|Hgt].
  - replace (length a - n) with 0 by lia.
    now rewrite Nat.sub_0_r.
  - replace (length a - (length a - n) + length b - n) with (length b) by lia.
    replace (length a + length b - n)
      with ((length a - n) + length b) by lia.
    rewrite Nat.add_comm, <- skipn_skipn.
    f_equal. rewrite skipn_app.
    replace (length a - n - length a) with 0 by lia. reflexivity.
Qed.

Lemma push_all (readings buf : list RealtimeRow) :
  fold_left (fun b r => push_reading r b) readings (slice_last 200 buf)
  = slice_last 200 (buf ++ readings).
Proof.
  revert buf. induction readings as [|r rs IH]; intros buf.
  - cbn. now rewrite app_nil_r.
  - cbn [fold_left]. unfold push_reading at 2. cbv zeta.
    rewrite slice_last_app, IH, <- app_assoc. reflexivity.
Qed.

End BufferFacts.

(** C5.  The buffer after an append holds at most 200 readings; it is a
    suffix of the old buffer followed by the new reading, so the order is
    kept and what is dropped is dropped from the front; nothing is dropped
    while fewer than 200 are held.  Appending any readings to the empty
    buffer leaves the last 200 of them; appending 250 leaves the last 200,
    which are the readings after the first 50.  The loop appends each
    accepted reading this way. *)
Theorem ring_buffer_last_200 :
  (forall (reading : Monitoring.RealtimeRow) (prev : list Monitoring.RealtimeRow),
      length (Monitoring.push_reading reading prev) <= 200
      /\ (exists evicted,
             prev ++ [reading]
             = evicted ++ Monitoring.push_reading reading prev)
      /\ (length prev < 200 ->
          Monitoring.push_reading reading prev = prev ++ [reading]))
  /\ (forall readings : list Monitoring.RealtimeRow,
         fold_left (fun b r => Monitoring.push_reading r b) readings []
         = Monitoring.slice_last 200 readings)
  /\ (forall readings : list Monitoring.RealtimeRow,
         length readings = 250 ->
         fold_left (fun b r => Monitoring.push_reading r b) readings []
         = skipn 50 readings
         /\ length (fold_left (fun b r => Monitoring.push_reading r b)
                              readings []) = 200)
  /\ (forall (render : Monitoring.ReactState) (t : Monitoring.Tick)
             (reading : Monitoring.RealtimeRow) (st : Monitoring.Store),
         Monitoring.realtime
           (Monitoring.state
              (fst (fst (Monitoring.accept render t reading st))))
         = Monitoring.push_reading reading
             (Monitoring.realtime (Monitoring.state st))).
Proof.
  split; [|split; [|split]].
  - intros reading prev. unfold Monitoring.push_reading. cbv zeta.
    split; [apply slice_last_length | split].
    + eexists. apply slice_last_suffix.
    + intros H. apply slice_last_short. rewrite length_app. cbn. lia.
  - intros readings.
    change (@nil Monitoring.RealtimeRow) with
      (Monitoring.slice_last 200 (@nil Monitoring.RealtimeRow)) at 1.
    now rewrite push_all.
  - intros readings Hlen.
    change (@nil Monitoring.RealtimeRow) with
      (Monitoring.slice_last 200 (@nil Monitoring.RealtimeRow)).
    rewrite push_all. cbn [app]. unfold Monitoring.slice_last.
    rewrite Hlen. cbn [Nat.sub]. split; [reflexivity|].
    rewrite length_skipn, Hlen. reflexivity.
  - intros render t reading st. unfold Monitoring.accept. cbv zeta.
    destruct (Monitoring.session render) as [s|].
    + destruct (negb (Monitoring.isMonitoring render));
        destruct (_ >=? 1000)%Z; try reflexivity;
        destruct (Monitoring.addData_result t); reflexivity.
    + reflexivity.
Qed.

Lemma ring_buffer_last_200_witness :
  fold_left (fun b r => Monitoring.push_reading r b)
            (map reading_numbered (seq 0 250)) []
  = map reading_numbered (seq 50 200).
Proof.
  destruct ring_buffer_last_200 as (_ & _ & H & _).
  destruct (H (map reading_numbered (seq 0 250))) as [Heq _].
  - vm_compute. reflexivity.
  - rewrite Heq. rewrite skipn_map, skipn_seq. reflexivity.
Defined.

(** ** The read loop *)

Section LoopFacts.
Context {rt : JsRuntime}.
Import Monitoring.

(** What accepting a reading does, field by field. *)
Lemma accept_continues (render : ReactState) (t : Tick)
    (reading : RealtimeRow) (st : Store) :
  snd (accept render t reading st) = Continue.
Proof.
  unfold accept. cbv zeta.
  destruct (session render) as [s|]; [|reflexivity].
  destruct (_ >=? 1000)%Z; [|reflexivity].
  destruct (addData_result t); reflexivity.
Qed.

Lemma accept_calls (render : ReactState) (t : Tick)
    (reading : RealtimeRow) (st : Store) :
  snd (fst (accept render t reading st))
  = match session render with
    | Some s =>
        if (1000 <=? clock_ms t - lastSentRef (refs st))%Z
        then [AddData (id s) (clamped reading)]
        else []
    | None => []
    end.
Proof.
  unfold accept. cbv zeta.
  destruct (session render) as [s|]; [|reflexivity].
  destruct (negb (isMonitoring render));
    cbn -[Z.geb Z.leb Z.sub]; rewrite Z.geb_leb;
    (destruct (1000 <=? _)%Z;
     [destruct (addData_result t); reflexivity | reflexivity]).
Qed.

Lemma accept_refs (render : ReactState) (t : Tick)
    (reading : RealtimeRow) (st : Store) :
  refs (fst (fst (accept render t reading st)))
  = match session render with
    | Some s =>
        if (1000 <=? clock_ms t - lastSentRef (refs st))%Z
        then {| lastSentRef := clock_ms t;
                closeLoopRef := closeLoopRef (refs st) |}
        else refs st
    | None => refs st
    end.
Proof.
  unfold accept. cbv zeta.
  destruct (session render) as [s|]; [|reflexivity].
  destruct (negb (isMonitoring render));
    cbn -[Z.geb Z.leb Z.sub]; rewrite Z.geb_leb;
    (destruct (1000 <=? _)%Z;
     [destruct (addData_result t); reflexivity | reflexivity]).
Qed.

Lemma accept_realtime (render : ReactState) (t : Tick)
    (reading : RealtimeRow) (st : Store) :
  realtime (state (fst (fst (accept render t reading st))))
  = push_reading reading (realtime (state st)).
Proof.
  unfold accept. cbv zeta.
  destruct (session render) as [s|]; [|reflexivity].
  destruct (negb (isMonitoring render));
    destruct (_ >=? 1000)%Z; try reflexivity;
    destruct (addData_result t); reflexivity.
Qed.

Lemma accept_flags (render : ReactState) (t : Tick)
    (reading : RealtimeRow) (st : Store) :
  let st' := fst (fst (accept render t reading st)) in
  if is_some (session render) && negb (isMonitoring render)
  then isMonitoring (state st') = true
       /\ startedFromDevice (state st') = true
  else isMonitoring (state st') = isMonitoring (state st)
       /\ startedFromDevice (state st') = startedFromDevice (state st).
Proof.
  unfold accept. cbv zeta.
  destruct (session render) as [s|]; [|split; reflexivity].
  cbn [is_some andb].
  destruct (negb (isMonitoring render));
    destruct (_ >=? 1000)%Z; try (split; reflexivity);
    destruct (addData_result t); split; reflexivity.
Qed.

(** The body on a line that the parser accepts. *)
Lemma loop_body_accepted (render : ReactState) (t : Tick)
    (value : jsstring) (reading : RealtimeRow) (st : Store) :
  read t = ReadValue value ->
  parseLine (clock_iso t) value = Normal (Some reading) ->
  loop_body render t st = accept render t reading st.
Proof.
  intros Hread Hparse. unfold loop_body. rewrite Hread.
  destruct value as [|c v].
  - (* the empty line is not accepted *)
    rewrite parseLine_unshaped in Hparse by reflexivity. discriminate.
  - cbn [is_empty]. now rewrite Hparse.
Qed.

Lemma tick_accepted_inv (t : Tick) :
  tick_accepted t = true ->
  exists value reading,
    read t = ReadValue value
    /\ parseLine (clock_iso t) value = Normal (Some reading).
Proof.
  unfold tick_accepted.
  destruct (read t) as [value| |] eqn:Hread; try discriminate.
  destruct (parseLine (clock_iso t) value) as [[reading|]|] eqn:Hparse;
    try discriminate.
  intros _. exists value, reading. split; [reflexivity | assumption].
Qed.

(** A run of accepted lines none of which comes 1000 ms after the last
    forward makes no call. *)
Lemma readLoop_quiet (render : ReactState) (ticks : list Tick) (st : Store) :
  forallb tick_accepted ticks = true ->
  Forall (fun t => (clock_ms t - lastSentRef (refs st) < 1000)%Z) ticks ->
  snd (readLoop render ticks st) = [].
Proof.
  revert st. induction ticks as [|t rest IH]; intros st Hacc Hwin.
  - cbn. now destruct (closeLoopRef (refs st)).
  - cbn [readLoop]. destruct (closeLoopRef (refs st)); [reflexivity|].
    cbn [forallb] in Hacc. apply andb_prop in Hacc as [Ht Hrest].
    apply tick_accepted_inv in Ht as (value & reading & Hread & Hparse).
    rewrite (loop_body_accepted render t value reading st Hread Hparse).
    inversion Hwin as [|? ? Ht Hwin']; subst.
    pose proof (accept_continues render t reading st) as Hc.
    pose proof (accept_calls render t reading st) as Hcalls.
    pose proof (accept_refs render t reading st) as Hrefs.
    destruct (accept render t reading st) as [[st1 calls] c].
    cbn [fst snd] in *. subst c.
    assert (Hno : (1000 <=? clock_ms t - lastSentRef (refs st))%Z = false)
      by (apply Z.leb_gt; lia).
    rewrite Hno in Hcalls, Hrefs.
    assert (Hrefs' : refs st1 = refs st)
      by (destruct (session render); assumption).
    assert (Hcalls' : calls = [])
      by (destruct (session render); assumption).
    specialize (IH st1 Hrest). rewrite Hrefs' in IH.
    specialize (IH Hwin').
    destruct (readLoop render rest st1) as [st2 calls2].
    cbn [snd] in *. now rewrite Hcalls', IH.
Qed.

End LoopFacts.

Section LoopClaims.
Import Monitoring.

Lemma last_push_reading (reading d : RealtimeRow) (prev : list RealtimeRow) :
  last (push_reading reading prev) d = reading.
Proof.
  unfold push_reading, slice_last. cbv zeta.
  rewrite length_app. cbn [length].
  rewrite skipn_app.
  replace (length prev + 1 - 200 - length prev) with 0 by lia.
  cbn [skipn]. apply last_last.
Qed.

Lemma push_reading_snoc (reading : RealtimeRow) (prev : list RealtimeRow) :
  push_reading reading prev = slice_last 199 prev ++ [reading].
Proof.
  unfold push_reading, slice_last. cbv zeta.
  rewrite length_app. cbn [length].
  rewrite skipn_app.
  replace (length prev + 1 - 200 - length prev) with 0 by lia.
  cbn [skipn]. f_equal. f_equal. lia.
Qed.

Lemma forwards_app (xs ys : list Effect) :
  forwards (xs ++ ys) = forwards xs + forwards ys.
Proof. unfold forwards. now rewrite filter_app, length_app. Qed.

End LoopClaims.


(** ** More on the loop: what a run changes *)

Section RunFacts.
Context {rt : JsRuntime}.
Import Monitoring.

Lemma accept_frame (render : ReactState) (t : Tick)
    (reading : RealtimeRow) (st : Store) :
  frame (fst (fst (accept render t reading st))) = frame st
  /\ err (state (fst (fst (accept render t reading st)))) = err (state st).
Proof.
  unfold accept. cbv zeta.
  destruct (session render) as [s|]; [|split; reflexivity].
  destruct (negb (isMonitoring render));
    destruct (_ >=? 1000)%Z; try (split; reflexivity);
    destruct (addData_result t); split; reflexivity.
Qed.

Lemma read_failed_summary (e : thrown) (st : Store) :
  frame (fst (fst (read_failed e st))) = frame st
  /\ refs (fst (fst (read_failed e st))) = refs st
  /\ realtime (state (fst (fst (read_failed e st)))) = realtime (state st)
  /\ isMonitoring (state (fst (fst (read_failed e st))))
     = isMonitoring (state st)
  /\ startedFromDevice (state (fst (fst (read_failed e st))))
     = startedFromDevice (state st)
  /\ snd (fst (read_failed e st)) = []
  /\ snd (read_failed e st) = Break.
Proof.
  unfold read_failed. destruct (closeLoopRef (refs st)); repeat split.
Qed.

Lemma parseLine_finite (ts line : jsstring) (r : RealtimeRow) :
  parseLine ts line = Normal (Some r) -> reading_finite r = true.
Proof.
  intros H. apply parseLine_Some in H as [_ [obj [_ Hr]]].
  now apply reading_of_Some in Hr as (_ & _ & _ & _ & _ & Hfin & _).
Qed.

(** One iteration, whatever the read: the frame stays; the buffer stays
    or takes one finite reading; monitoring stays or is switched on by a
    loop that has a session; the refs stay, or one call is made to the
    loop's session, 1000 ms or more after the last, and the last-sent
    time becomes the clock reading. *)
Lemma loop_body_summary (render : ReactState) (t : Tick) (st : Store) :
  let st' := fst (fst (loop_body render t st)) in
  let calls := snd (fst (loop_body render t st)) in
  frame st' = frame st
  /\ realtime (state st')
     = match tick_reading t with
       | Some r => push_reading r (realtime (state st))
       | None => realtime (state st)
       end
  /\ (isMonitoring (state st') = isMonitoring (state st)
      \/ (is_some (session render) = true
          /\ isMonitoring (state st') = true))
  /\ ((calls = [] /\ refs st' = refs st)
      \/ (exists s data,
             session render = Some s
             /\ calls = [AddData (id s) data]
             /\ (1000 <= clock_ms t - lastSentRef (refs st))%Z
             /\ refs st' = {| lastSentRef := clock_ms t;
                              closeLoopRef := closeLoopRef (refs st) |}))
  /\ snd (loop_body render t st)
     = (if tick_ends_loop t then Break else Continue)
  /\ (read_throws t = false -> err (state st') = err (state st)).
Proof.
  cbv zeta. unfold loop_body, tick_reading, tick_ends_loop, read_throws.
  destruct (read t) as [value| |e].
  - destruct (parseLine_never_throws (clock_iso t) value) as [o Ho].
    destruct value as [|c v].
    + rewrite parseLine_unshaped by reflexivity.
      cbn [is_empty fst snd]. repeat split; auto.
    + cbn [is_empty]. rewrite Ho. destruct o as [reading|].
      * destruct (accept_frame render t reading st) as [Hf He].
        pose proof (accept_flags render t reading st) as Hflags.
        cbv zeta in Hflags.
        rewrite accept_realtime, accept_calls, accept_refs, accept_continues.
        split; [assumption|]. split; [reflexivity|].
        split.
        { destruct (session render) as [s|]; cbn [is_some andb] in *.
          - destruct (negb (isMonitoring render)).
            + right. split; [reflexivity | apply Hflags].
            + left. apply Hflags.
          - left. apply Hflags. }
        split; [|split; [reflexivity | intros _; assumption]].
        destruct (session render) as [s|]; [|left; split; reflexivity].
        destruct (1000 <=? _)%Z eqn:E; [|left; split; reflexivity].
        right. exists s, (clamped reading). apply Z.leb_le in E.
        repeat split; assumption.
      * cbn [fst snd]. repeat split; auto.
  - cbn [fst snd]. repeat split; auto.
  - destruct (read_failed_summary e st)
      as (Hf & Hr & Hb & Hm & _ & Hc & Hk).
    rewrite Hf, Hr, Hb, Hm, Hc, Hk. repeat split; auto. discriminate.
Qed.

(** A run keeps the frame. *)
Lemma readLoop_frame (render : ReactState) (ticks : list Tick) (st : Store) :
  frame (fst (readLoop render ticks st)) = frame st.
Proof.
  revert st. induction ticks as [|t rest IH]; intros st.
  - cbn. now destruct (closeLoopRef (refs st)).
  - cbn [readLoop]. destruct (closeLoopRef (refs st)); [reflexivity|].
    pose proof (loop_body_summary render t st) as (Hf & _).
    destruct (loop_body render t st) as [[st1 calls] c].
    cbn [fst snd] in *. destruct c; [|assumption].
    specialize (IH st1).
    destruct (readLoop render rest st1) as [st2 calls2].
    cbn [fst] in *. congruence.
Qed.

Lemma readLoop_err (render : ReactState) (ticks : list Tick) (st : Store) :
  forallb (fun t => negb (read_throws t)) ticks = true ->
  err (state (fst (readLoop render ticks st))) = err (state st).
Proof.
  revert st. induction ticks as [|t rest IH]; intros st Hno.
  - cbn. now destruct (closeLoopRef (refs st)).
  - cbn [readLoop]. destruct (closeLoopRef (refs st)); [reflexivity|].
    cbn [forallb] in Hno. apply andb_prop in Hno as [Ht Hrest].
    apply negb_true_iff in Ht.
    pose proof (loop_body_summary render t st)
      as (_ & _ & _ & _ & _ & He).
    specialize (He Ht).
    destruct (loop_body render t st) as [[st1 calls] c].
    cbn [fst snd] in *. destruct c; [|assumption].
    specialize (IH st1 Hrest).
    destruct (readLoop render rest st1) as [st2 calls2].
    cbn [fst] in *. congruence.
Qed.

(** A run all of whose clock readings come less than 1000 ms after the
    last forward makes no call. *)
Lemma readLoop_no_call (render : ReactState) (ticks : list Tick)
    (st : Store) :
  Forall (fun t => (clock_ms t - lastSentRef (refs st) < 1000)%Z) ticks ->
  snd (readLoop render ticks st) = [].
Proof.
  revert st. induction ticks as [|t rest IH]; intros st Hwin.
  - cbn. now destruct (closeLoopRef (refs st)).
  - cbn [readLoop]. destruct (closeLoopRef (refs st)); [reflexivity|].
    inversion Hwin as [|? ? Ht Hrest]; subst.
    pose proof (loop_body_summary render t st)
      as (_ & _ & _ & Hcalls & _).
    destruct (loop_body render t st) as [[st1 calls] c].
    cbn [fst snd] in *.
    destruct Hcalls as [[-> Hrefs] | (s & data & _ & _ & Hge & _)]; [|lia].
    destruct c; [|reflexivity].
    specialize (IH st1). rewrite Hrefs in IH. specialize (IH Hrest).
    destruct (readLoop render rest st1) as [st2 calls2].
    cbn [snd] in *. now subst.
Qed.

Lemma readLoop_at_most_one (render : ReactState) (ticks : list Tick)
    (st : Store) (w : Z) :
  Forall (fun t => (w <= clock_ms t < w + 1000)%Z) ticks ->
  forwards (snd (readLoop render ticks st)) <= 1.
Proof.
  revert st. induction ticks as [|t rest IH]; intros st Hwin.
  - cbn. destruct (closeLoopRef (refs st)); cbn; lia.
  - cbn [readLoop]. destruct (closeLoopRef (refs st)); [cbn; lia|].
    inversion Hwin as [|? ? Ht Hrest]; subst.
    pose proof (loop_body_summary render t st)
      as (_ & _ & _ & Hcalls & _).
    destruct (loop_body render t st) as [[st1 calls] c].
    cbn [fst snd] in *.
    destruct Hcalls as [[-> Hrefs] | (s & data & _ & -> & _ & Hrefs)].
    + destruct c; [|cbn; lia].
      specialize (IH st1 Hrest).
      destruct (readLoop render rest st1) as [st2 calls2].
      cbn [snd app] in *. exact IH.
    + destruct c; [|cbn; lia].
      assert (Hq : snd (readLoop render rest st1) = []).
      { apply readLoop_no_call. rewrite Hrefs. cbn [lastSentRef].
        eapply Forall_impl; [|exact Hrest]. cbn beta. intros u Hu. lia. }
      destruct (readLoop render rest st1) as [st2 calls2].
      cbn [snd] in *. subst calls2. cbn. lia.
Qed.

Lemma readLoop_realtime (render : ReactState) (ticks : list Tick)
    (st : Store) :
  closeLoopRef (refs st) = false ->
  realtime (state (fst (readLoop render ticks st)))
  = fold_left (fun b r => push_reading r b) (processed_readings ticks)
              (realtime (state st)).
Proof.
  revert st. induction ticks as [|t rest IH]; intros st Hflag.
  - cbn. now rewrite Hflag.
  - cbn [readLoop processed_readings]. rewrite Hflag.
    pose proof (loop_body_summary render t st)
      as (Hf & Hbuf & _ & _ & Hc & _).
    destruct (loop_body render t st) as [[st1 calls] c].
    cbn [fst snd] in *. subst c.
    destruct (tick_ends_loop t) eqn:Hend.
    + cbn [fst fold_left]. rewrite Hbuf.
      unfold tick_reading, tick_ends_loop in *.
      now destruct (read t).
    + assert (Hflag1 : closeLoopRef (refs st1) = false).
      { unfold frame in Hf. inversion Hf. congruence. }
      specialize (IH st1 Hflag1).
      destruct (readLoop render rest st1) as [st2 calls2].
      cbn [fst] in *. rewrite IH, Hbuf.
      now destruct (tick_reading t).
Qed.

End RunFacts.

(** ** Arrival and processing *)

Section TimingFacts.
Context {rt : JsRuntime}.
Import Monitoring.

(** Whether a line is accepted does not depend on the clock in
    milliseconds. *)
Lemma tick_accepted_line_at (ms : Z) (line : jsstring) :
  tick_accepted (line_at ms line) = line_accepted line.
Proof. reflexivity. Qed.

Lemma reads_of_cons (render : ReactState) (free : Z) (a : Arrival)
    (rest : list Arrival) (st : Store) :
  reads_of render free (a :: rest) st
  = line_at (Z.max free (arrived_ms a)) (arrived_line a)
    :: reads_of render
         (match snd (fst (loop_body render
                            (line_at (Z.max free (arrived_ms a))
                                     (arrived_line a)) st)) with
          | [] => Z.max free (arrived_ms a)
          | _ :: _ => Z.max free (arrived_ms a) + response_ms a
          end%Z)
         rest
         (fst (fst (loop_body render
                      (line_at (Z.max free (arrived_ms a))
                               (arrived_line a)) st))).
Proof.
  cbn [reads_of].
  destruct (loop_body render _ st) as [[st1 calls] c]. reflexivity.
Qed.

(** An accepted line that is processed less than 1000 ms after the last
    forward is not forwarded and leaves the refs alone. *)
Lemma loop_body_too_early (render : ReactState) (ms : Z) (line : jsstring)
    (st : Store) :
  line_accepted line = true ->
  (ms - lastSentRef (refs st) < 1000)%Z ->
  snd (fst (loop_body render (line_at ms line) st)) = []
  /\ refs (fst (fst (loop_body render (line_at ms line) st))) = refs st.
Proof.
  intros Hacc Hlt. rewrite <- (tick_accepted_line_at ms) in Hacc.
  apply tick_accepted_inv in Hacc as (value & reading & Hread & Hparse).
  rewrite (loop_body_accepted render _ value reading st Hread Hparse).
  rewrite accept_calls, accept_refs. cbn [line_at clock_ms].
  assert (Hno : (1000 <=? ms - lastSentRef (refs st))%Z = false)
    by (apply Z.leb_gt; lia).
  rewrite Hno. destruct (session render); split; reflexivity.
Qed.

(** An accepted line that is processed 1000 ms or more after the last
    forward, by a loop with a session, is forwarded, and the last-sent
    time becomes the time of processing. *)
Lemma loop_body_due (render : ReactState) (ms : Z) (line : jsstring)
    (st : Store) :
  session render <> None ->
  line_accepted line = true ->
  (lastSentRef (refs st) + 1000 <= ms)%Z ->
  forwards (snd (fst (loop_body render (line_at ms line) st))) = 1
  /\ (exists call, snd (fst (loop_body render (line_at ms line) st)) = [call])
  /\ refs (fst (fst (loop_body render (line_at ms line) st)))
     = {| lastSentRef := ms; closeLoopRef := closeLoopRef (refs st) |}
  /\ snd (loop_body render (line_at ms line) st) = Continue.
Proof.
  intros Hs Hacc Hge. rewrite <- (tick_accepted_line_at ms) in Hacc.
  apply tick_accepted_inv in Hacc as (value & reading & Hread & Hparse).
  rewrite (loop_body_accepted render _ value reading st Hread Hparse).
  rewrite accept_calls, accept_refs, accept_continues.
  cbn [line_at clock_ms].
  assert (Hyes : (1000 <=? ms - lastSentRef (refs st))%Z = true)
    by (apply Z.leb_le; lia).
  rewrite Hyes. destruct (session render) as [s|]; [|congruence].
  repeat split. eexists. reflexivity.
Qed.

(** Lines that arrive, and find the loop free, less than 1000 ms after the
    last forward are all processed less than 1000 ms after it. *)
Lemma reads_of_quiet (render : ReactState) (lines : list Arrival) :
  forall (st : Store) (free : Z),
    forallb (fun a => line_accepted (arrived_line a)) lines = true ->
    (free - lastSentRef (refs st) < 1000)%Z ->
    Forall (fun a => (arrived_ms a - lastSentRef (refs st) < 1000)%Z)
           lines ->
    forallb tick_accepted (reads_of render free lines st) = true
    /\ Forall (fun t => (clock_ms t - lastSentRef (refs st) < 1000)%Z)
              (reads_of render free lines st).
Proof.
  induction lines as [|a rest IH]; intros st free Hacc Hfree Harr.
  - split; [reflexivity | constructor].
  - cbn [forallb] in Hacc. apply andb_prop in Hacc as [Ha Hrest].
    inversion Harr as [|? ? Ha' Harr']; subst.
    rewrite reads_of_cons.
    destruct (loop_body_too_early render (Z.max free (arrived_ms a))
                (arrived_line a) st Ha) as [Hcalls Hrefs]; [lia|].
    rewrite Hcalls.
    destruct (IH (fst (fst (loop_body render
                              (line_at (Z.max free (arrived_ms a))
                                       (arrived_line a)) st)))
                 (Z.max free (arrived_ms a)) Hrest) as [H1 H2].
    + rewrite Hrefs. lia.
    + rewrite Hrefs. assumption.
    + rewrite Hrefs in H2. split.
      * cbn [forallb]. rewrite tick_accepted_line_at, Ha. exact H1.
      * constructor; [cbn [line_at clock_ms]; lia | exact H2].
Qed.

(** When every response takes 1000 ms or more, every accepted line is
    forwarded in its turn. *)
Lemma reads_of_all_forwarded (render : ReactState) (lines : list Arrival) :
  forall (st : Store) (free : Z),
    session render <> None ->
    closeLoopRef (refs st) = false ->
    forallb (fun a => line_accepted (arrived_line a)) lines = true ->
    Forall (fun a => (1000 <= response_ms a)%Z) lines ->
    Forall (fun a => (lastSentRef (refs st) + 1000
                      <= Z.max free (arrived_ms a))%Z) lines ->
    forwards (snd (readLoop render (reads_of render free lines st) st))
    = length lines.
Proof.
  induction lines as [|a rest IH]; intros st free Hs Hflag Hacc Hresp Hdue.
  - cbn. now rewrite Hflag.
  - cbn [forallb] in Hacc. apply andb_prop in Hacc as [Ha Hrest].
    inversion Hresp as [|? ? Hr Hresp']; subst.
    inversion Hdue as [|? ? Hd Hdue']; subst.
    rewrite reads_of_cons. cbn [readLoop]. rewrite Hflag.
    destruct (loop_body_due render (Z.max free (arrived_ms a))
                (arrived_line a) st Hs Ha Hd)
      as (Hone & [call Hcall] & Hrefs & Hc).
    specialize (IH (fst (fst (loop_body render
                                (line_at (Z.max free (arrived_ms a))
                                         (arrived_line a)) st)))
                   (Z.max free (arrived_ms a) + response_ms a)%Z Hs).
    rewrite Hcall in *.
    destruct (loop_body render _ st) as [[st1 calls] c].
    cbn [fst snd] in *. subst c calls.
    rewrite Hrefs in IH. cbn [closeLoopRef lastSentRef] in IH.
    specialize (IH Hflag Hrest Hresp').
    assert (Hnext : Forall (fun a0 =>
              (Z.max free (arrived_ms a) + 1000
               <= Z.max (Z.max free (arrived_ms a) + response_ms a)
                        (arrived_ms a0))%Z) rest).
    { apply Forall_forall. intros a0 _. lia. }
    specialize (IH Hnext).
    destruct (readLoop render _ st1) as [st2 calls2].
    cbn [snd] in *. rewrite forwards_app, IH, Hone. reflexivity.
Qed.

End TimingFacts.
(** C6.  An accepted reading is forwarded exactly when the loop has a
    session and the clock, read when the reading is processed, shows at
    least 1000 ms more than the last-sent time; the last-sent time is then
    set to the clock reading in the same step, however the [addData]
    promise settles, and is left alone otherwise.  Hence a burst of
    accepted readings (ten, or any number) that are processed within a
    window of 200 ms that starts at least 1000 ms after the last forward
    makes exactly one [addData] call.  The loop waits for the response of
    a forward before it reads the next line, so a burst that arrives
    within 200 ms makes exactly one call when the responses take less than
    1000 ms, and one call for each of its readings when they take 1000 ms
    or more. *)
Theorem throttle_one_forward_per_burst {rt : JsRuntime} :
  (forall (render : Monitoring.ReactState) (t : Monitoring.Tick)
          (reading : Monitoring.RealtimeRow) (st : Monitoring.Store),
      let elapsed :=
        (Monitoring.clock_ms t
         - Monitoring.lastSentRef (Monitoring.refs st))%Z in
      let result := Monitoring.accept render t reading st in
      (forwards (snd (fst result)) = 1
       /\ Monitoring.session render <> None /\ (1000 <= elapsed)%Z
       /\ Monitoring.lastSentRef (Monitoring.refs (fst (fst result)))
          = Monitoring.clock_ms t)
      \/ (forwards (snd (fst result)) = 0
          /\ (Monitoring.session render = None \/ (elapsed < 1000)%Z)
          /\ Monitoring.lastSentRef (Monitoring.refs (fst (fst result)))
             = Monitoring.lastSentRef (Monitoring.refs st)))
  /\ (forall (render : Monitoring.ReactState) (first : Monitoring.Tick)
             (rest : list Monitoring.Tick) (st : Monitoring.Store) (w : Z),
         Monitoring.session render <> None ->
         Monitoring.closeLoopRef (Monitoring.refs st) = false ->
         forallb tick_accepted (first :: rest) = true ->
         Forall (fun t => (w <= Monitoring.clock_ms t <= w + 200)%Z)
                (first :: rest) ->
         (Monitoring.lastSentRef (Monitoring.refs st) + 1000 <= w)%Z ->
         forwards (snd (Monitoring.readLoop render (first :: rest) st)) = 1)
  /\ (forall (render : Monitoring.ReactState) (first : Arrival)
             (rest : list Arrival) (st : Monitoring.Store) (w free : Z),
         Monitoring.session render <> None ->
         Monitoring.closeLoopRef (Monitoring.refs st) = false ->
         forallb (fun a => line_accepted (arrived_line a)) (first :: rest)
         = true ->
         Forall (fun a => (w <= arrived_ms a <= w + 200)%Z) (first :: rest) ->
         Forall (fun a => (response_ms a < 1000)%Z) (first :: rest) ->
         (free <= w + 200)%Z ->
         (Monitoring.lastSentRef (Monitoring.refs st) + 1000 <= w)%Z ->
         forwards
           (snd (Monitoring.readLoop render
                   (reads_of render free (first :: rest) st) st))
         = 1)
  /\ (forall (render : Monitoring.ReactState) (lines : list Arrival)
             (st : Monitoring.Store) (w free : Z),
         Monitoring.session render <> None ->
         Monitoring.closeLoopRef (Monitoring.refs st) = false ->
         forallb (fun a => line_accepted (arrived_line a)) lines = true ->
         Forall (fun a => (w <= arrived_ms a)%Z) lines ->
         Forall (fun a => (1000 <= response_ms a)%Z) lines ->
         (Monitoring.lastSentRef (Monitoring.refs st) + 1000 <= w)%Z ->
         forwards
           (snd (Monitoring.readLoop render
                   (reads_of render free lines st) st))
         = length lines).
Proof.
  split; [|split; [|split]].
  - intros render t reading st elapsed result. subst elapsed result.
    rewrite accept_calls, accept_refs.
    destruct (Monitoring.session render) as [s|].
    + destruct (1000 <=? _)%Z eqn:E.
      * left. apply Z.leb_le in E. repeat split; [discriminate | assumption].
      * right. apply Z.leb_gt in E. repeat split. now right.
    + right. repeat split. now left.
  - intros render first rest st w Hs Hflag Hacc Hwin Hlast.
    cbn [Monitoring.readLoop]. rewrite Hflag.
    cbn [forallb] in Hacc. apply andb_prop in Hacc as [Hfirst Hrest].
    apply tick_accepted_inv in Hfirst as (value & reading & Hread & Hparse).
    rewrite (loop_body_accepted render first value reading st Hread Hparse).
    inversion Hwin as [|? ? Hf Hwin']; subst.
    pose proof (accept_continues render first reading st) as Hc.
    pose proof (accept_calls render first reading st) as Hcalls.
    pose proof (accept_refs render first reading st) as Hrefs.
    destruct (Monitoring.accept render first reading st) as [[st1 calls] c].
    cbn [fst snd] in *. subst c.
    destruct (Monitoring.session render) as [s|]; [|congruence].
    assert (Hyes : (1000 <=? Monitoring.clock_ms first
                    - Monitoring.lastSentRef (Monitoring.refs st))%Z = true)
      by (apply Z.leb_le; lia).
    rewrite Hyes in Hcalls, Hrefs.
    assert (Hquiet : snd (Monitoring.readLoop render rest st1) = []).
    { apply readLoop_quiet; [assumption|].
      rewrite Hrefs. cbn [Monitoring.lastSentRef].
      eapply Forall_impl; [|exact Hwin']. cbn beta. intros t Ht. lia. }
    destruct (Monitoring.readLoop render rest st1) as [st2 calls2].
    cbn [snd] in *. subst calls calls2. reflexivity.
  - intros render first rest st w free Hs Hflag Hacc Hwin Hresp Hfree Hlast.
    cbn [forallb] in Hacc. apply andb_prop in Hacc as [Hfirst Hrest].
    inversion Hwin as [|? ? Hf Hwin']; subst.
    inversion Hresp as [|? ? Hr Hresp']; subst.
    rewrite reads_of_cons. cbn [Monitoring.readLoop]. rewrite Hflag.
    destruct (loop_body_due render (Z.max free (arrived_ms first))
                (arrived_line first) st Hs Hfirst)
      as (Hone & [call Hcall] & Hrefs & Hc); [lia|].
    destruct (reads_of_quiet render rest
                (fst (fst (Monitoring.loop_body render
                             (line_at (Z.max free (arrived_ms first))
                                      (arrived_line first)) st)))
                (Z.max free (arrived_ms first) + response_ms first)%Z Hrest)
      as [Hacc' Hquiet].
    + rewrite Hrefs. cbn [Monitoring.lastSentRef]. lia.
    + rewrite Hrefs. cbn [Monitoring.lastSentRef].
      eapply Forall_impl; [|exact Hwin']. cbn beta. intros a Ha. lia.
    + pose proof (readLoop_quiet render _ _ Hacc' Hquiet) as Hnone.
      rewrite Hcall in *.
      destruct (Monitoring.loop_body render _ st) as [[st1 calls] c].
      cbn [fst snd] in *. subst c calls.
      destruct (Monitoring.readLoop render _ st1) as [st2 calls2].
      cbn [snd] in *. subst calls2. rewrite app_nil_r. exact Hone.
  - intros render lines st w free Hs Hflag Hacc Hwin Hresp Hlast.
    apply reads_of_all_forwarded; try assumption.
    eapply Forall_impl; [|exact Hwin]. cbn beta. intros a Ha. lia.
Qed.

Lemma throttle_one_forward_per_burst_witness :
  forwards
    (snd (Monitoring.readLoop (render_with_session true)
            (map (fun k => line_at (5000 + 20 * Z.of_nat k) message_first)
                 (seq 0 10))
            (store_of (render_with_session true) 4000)))
  = 1
  /\ forwards
       (snd (Monitoring.readLoop (render_with_session true)
               (reads_of (render_with_session true) 5000 (burst_of_ten 300)
                         (store_of (render_with_session true) 4000))
               (store_of (render_with_session true) 4000)))
     = 1
  /\ forwards
       (snd (Monitoring.readLoop (render_with_session true)
               (reads_of (render_with_session true) 5000 (burst_of_ten 1200)
                         (store_of (render_with_session true) 4000))
               (store_of (render_with_session true) 4000)))
     = 10.
Proof.
  destruct (@throttle_one_forward_per_burst reference_engine)
    as (_ & Hclock & Hfast & Hslow).
  split; [|split].
  - apply (Hclock (render_with_session true)
             (line_at 5000 message_first)
             (map (fun k => line_at (5000 + 20 * Z.of_nat k) message_first)
                  (seq 1 9))
             (store_of (render_with_session true) 4000) 5000%Z).
    + discriminate.
    + reflexivity.
    + vm_compute. reflexivity.
    + repeat constructor; cbn; lia.
    + cbn. lia.
  - apply (Hfast (render_with_session true)
             {| arrived_ms := 5000; arrived_line := message_first;
                response_ms := 300 |}
             (map (fun k => {| arrived_ms := 5000 + 20 * Z.of_nat k;
                               arrived_line := message_first;
                               response_ms := 300 |})
                  (seq 1 9))
             (store_of (render_with_session true) 4000) 5000%Z 5000%Z).
    + discriminate.
    + reflexivity.
    + vm_compute. reflexivity.
    + repeat constructor; cbn; lia.
    + repeat constructor; cbn; lia.
    + lia.
    + cbn. lia.
  - apply (Hslow (render_with_session true) (burst_of_ten 1200)
             (store_of (render_with_session true) 4000) 5000%Z 5000%Z).
    + discriminate.
    + reflexivity.
    + vm_compute. reflexivity.
    + repeat constructor; cbn; lia.
    + repeat constructor; cbn; lia.
    + cbn. lia.
Defined.

(** C6 as stated fails: ten accepted readings arrive within 200 ms, from
    5000 ms on, the last forward at 4000 ms; each [addData] call takes
    1200 ms, and the loop makes ten calls, at 5000, 6200, 7400 ms and so
    on. *)
Lemma throttle_burst_counterexample :
  ~ @one_forward_per_arrival_burst reference_engine
      (render_with_session true) (burst_of_ten 1200)
      (store_of (render_with_session true) 4000) 5000.
Proof.
  unfold one_forward_per_arrival_burst. intros H.
  assert (Hten : forwards
            (snd (Monitoring.readLoop (render_with_session true)
                    (reads_of (render_with_session true) 5000
                              (burst_of_ten 1200)
                              (store_of (render_with_session true) 4000))
                    (store_of (render_with_session true) 4000)))
          = 10) by (vm_compute; reflexivity).
  rewrite H in Hten.
  - discriminate Hten.
  - discriminate.
  - reflexivity.
  - reflexivity.
  - vm_compute. reflexivity.
  - repeat constructor; cbn; lia.
  - cbn. lia.
Qed.

(** C7.  When the loop processes an accepted line, the payload of every
    [addData] call it makes is the reading with each field clamped to its
    range (pulse 20 to 240, saturation 50 to 100, temperature 30 to 45,
    systolic 50 to 260, diastolic 30 to 200): inside the range, equal to
    the parsed value when that lies inside, and the nearer bound otherwise.
    The live buffer after the step is the last 200 of the old buffer
    followed by the parsed reading, unclamped, which is its last element.
    And the call is made: a loop with a session that processes the line
    1000 ms or more after the last forward makes exactly one call, for its
    session, with the clamped reading. *)
Theorem forward_clamped_buffer_raw {rt : JsRuntime}
    (render : Monitoring.ReactState) (t : Monitoring.Tick)
    (value : jsstring) (reading : Monitoring.RealtimeRow)
    (st : Monitoring.Store) :
  Monitoring.read t = Monitoring.ReadValue value ->
  Monitoring.parseLine (Monitoring.clock_iso t) value
  = Normal (Some reading) ->
  (forall (sid : jsstring) (data : Monitoring.SessionData),
      In (Monitoring.AddData sid data)
         (snd (fst (Monitoring.loop_body render t st))) ->
      data = Monitoring.clamped reading
      /\ clamps_to (num 20) (num 240) (Monitoring.pulse reading)
                   (Monitoring.data_pulse data)
      /\ clamps_to (num 50) (num 100) (Monitoring.oxygenSaturation reading)
                   (Monitoring.data_oxygenSaturation data)
      /\ clamps_to (num 30) (num 45) (Monitoring.temperatureC reading)
                   (Monitoring.data_temperatureC data)
      /\ clamps_to (num 50) (num 260) (Monitoring.systolic reading)
                   (Monitoring.data_systolic data)
      /\ clamps_to (num 30) (num 200) (Monitoring.diastolic reading)
                   (Monitoring.data_diastolic data))
  /\ last (Monitoring.realtime
             (Monitoring.state
                (fst (fst (Monitoring.loop_body render t st)))))
          reading
     = reading
  /\ (exists older : list Monitoring.RealtimeRow,
         Monitoring.realtime
           (Monitoring.state (fst (fst (Monitoring.loop_body render t st))))
         = older ++ [reading]
         /\ older
            = Monitoring.slice_last 199
                (Monitoring.realtime (Monitoring.state st)))
  /\ (forall s : Monitoring.Session,
         Monitoring.session render = Some s ->
         (1000 <= Monitoring.clock_ms t
                  - Monitoring.lastSentRef (Monitoring.refs st))%Z ->
         snd (fst (Monitoring.loop_body render t st))
         = [Monitoring.AddData (Monitoring.id s)
              (Monitoring.clamped reading)]
         /\ clamps_to (num 20) (num 240) (Monitoring.pulse reading)
              (Monitoring.data_pulse (Monitoring.clamped reading))
         /\ clamps_to (num 50) (num 100)
              (Monitoring.oxygenSaturation reading)
              (Monitoring.data_oxygenSaturation
                 (Monitoring.clamped reading))
         /\ clamps_to (num 30) (num 45) (Monitoring.temperatureC reading)
              (Monitoring.data_temperatureC (Monitoring.clamped reading))
         /\ clamps_to (num 50) (num 260) (Monitoring.systolic reading)
              (Monitoring.data_systolic (Monitoring.clamped reading))
         /\ clamps_to (num 30) (num 200) (Monitoring.diastolic reading)
              (Monitoring.data_diastolic (Monitoring.clamped reading))).
Proof.
  intros Hread Hparse.
  rewrite (loop_body_accepted render t value reading st Hread Hparse).
  assert (Hrange :
    clamps_to (num 20) (num 240) (Monitoring.pulse reading)
      (Monitoring.data_pulse (Monitoring.clamped reading))
    /\ clamps_to (num 50) (num 100) (Monitoring.oxygenSaturation reading)
         (Monitoring.data_oxygenSaturation (Monitoring.clamped reading))
    /\ clamps_to (num 30) (num 45) (Monitoring.temperatureC reading)
         (Monitoring.data_temperatureC (Monitoring.clamped reading))
    /\ clamps_to (num 50) (num 260) (Monitoring.systolic reading)
         (Monitoring.data_systolic (Monitoring.clamped reading))
    /\ clamps_to (num 30) (num 200) (Monitoring.diastolic reading)
         (Monitoring.data_diastolic (Monitoring.clamped reading))).
  { apply clamped_in_range.
    apply parseLine_Some in Hparse as [_ [obj [_ Hr]]].
    now apply reading_of_Some in Hr as (_ & _ & _ & _ & _ & Hfin & _). }
  split; [|split; [|split]].
  - intros sid data Hin.
    rewrite accept_calls in Hin.
    assert (Hdata : data = Monitoring.clamped reading).
    { destruct (Monitoring.session render) as [s|]; [|contradiction].
      destruct (1000 <=? _)%Z; [|contradiction].
      destruct Hin as [Heq|[]]. now inversion Heq. }
    split; [assumption|]. subst data. exact Hrange.
  - rewrite accept_realtime. apply last_push_reading.
  - rewrite accept_realtime. eexists. split; [|reflexivity].
    apply push_reading_snoc.
  - intros s Hs Hge. rewrite accept_calls, Hs.
    apply Z.leb_le in Hge. rewrite Hge. split; [reflexivity | exact Hrange].
Qed.

Lemma forward_clamped_buffer_raw_witness :
  snd (fst (Monitoring.loop_body (render_with_session true)
              (line_at 5000 message_pulse_300)
              (store_of (render_with_session true) 0)))
  = [Monitoring.AddData (js "s1")
       {| Monitoring.data_pulse := num 240;
          Monitoring.data_oxygenSaturation := num 97;
          Monitoring.data_temperatureC := num_decimal false 365 (-1);
          Monitoring.data_systolic := num 120;
          Monitoring.data_diastolic := num 80 |}]
  /\ map Monitoring.pulse
       (Monitoring.realtime
          (Monitoring.state
             (fst (fst (Monitoring.loop_body (render_with_session true)
                          (line_at 5000 message_pulse_300)
                          (store_of (render_with_session true) 0))))))
     = [num 300].
Proof.
  assert (Hparse : Monitoring.parseLine (js "2025-01-01T00:00:00.000Z")
                     message_pulse_300
                   = Normal (Some {| Monitoring.timestamp :=
                                       js "2025-01-01T00:00:00.000Z";
                                     Monitoring.pulse := num 300;
                                     Monitoring.oxygenSaturation := num 97;
                                     Monitoring.temperatureC :=
                                       num_decimal false 365 (-1);
                                     Monitoring.systolic := num 120;
                                     Monitoring.diastolic := num 80 |}))
    by (vm_compute; reflexivity).
  destruct (@forward_clamped_buffer_raw reference_engine
              (render_with_session true) (line_at 5000 message_pulse_300)
              message_pulse_300 _
              (store_of (render_with_session true) 0) eq_refl Hparse)
    as (_ & _ & (older & Hbuf & Holder) & Hcall).
  destruct (Hcall session_s1 eq_refl) as [Hcalls _]; [cbn; lia|].
  split.
  - rewrite Hcalls. vm_compute. reflexivity.
  - rewrite Hbuf, Holder. vm_compute. reflexivity.
Defined.

Section NoSessionFacts.
Context {rt : JsRuntime}.
Import Monitoring.



End NoSessionFacts.



(** ** Autostart *)

Section AutostartFacts.
Context {rt : JsRuntime}.
Import Monitoring.

(** A loop launched from a render with a session and without monitoring
    sets both flags on an accepted reading. *)
Lemma autostart_sets_flags (render : ReactState) (t : Tick)
    (value : jsstring) (reading : RealtimeRow) (st : Store) :
  session render <> None -> isMonitoring render = false ->
  read t = ReadValue value ->
  parseLine (clock_iso t) value = Normal (Some reading) ->
  isMonitoring (state (fst (fst (loop_body render t st)))) = true
  /\ startedFromDevice (state (fst (fst (loop_body render t st)))) = true.
Proof.
  intros Hs Hm Hread Hparse.
  rewrite (loop_body_accepted render t value reading st Hread Hparse).
  pose proof (accept_flags render t reading st) as H. cbv zeta in H.
  rewrite Hm in H. destruct (session render); [exact H | congruence].
Qed.

(** A loop launched from a render in which monitoring was on leaves both
    flags alone. *)
Lemma autostart_skipped (render : ReactState) (t : Tick)
    (value : jsstring) (reading : RealtimeRow) (st : Store) :
  isMonitoring render = true ->
  read t = ReadValue value ->
  parseLine (clock_iso t) value = Normal (Some reading) ->
  isMonitoring (state (fst (fst (loop_body render t st))))
  = isMonitoring (state st)
  /\ startedFromDevice (state (fst (fst (loop_body render t st))))
     = startedFromDevice (state st).
Proof.
  intros Hm Hread Hparse.
  rewrite (loop_body_accepted render t value reading st Hread Hparse).
  pose proof (accept_flags render t reading st) as H. cbv zeta in H.
  rewrite Hm, andb_false_r in H. exact H.
Qed.

End AutostartFacts.

(** X7.  The loop keeps to its own state: over any reads, a run leaves
    the patient, the session, the port selection, the connection, the
    loading flag and the close request as they were, and it touches the
    error message only when a read fails. *)
Theorem readLoop_keeps_frame {rt : JsRuntime}
    (render : Monitoring.ReactState) (ticks : list Monitoring.Tick)
    (st : Monitoring.Store) :
  frame (fst (Monitoring.readLoop render ticks st)) = frame st
  /\ (forallb (fun t => negb (read_throws t)) ticks = true ->
      Monitoring.err (Monitoring.state (fst (Monitoring.readLoop render ticks st)))
      = Monitoring.err (Monitoring.state st)).
Proof. split; [apply readLoop_frame | apply readLoop_err]. Qed.

Lemma readLoop_keeps_frame_witness :
  Monitoring.err
    (Monitoring.state
       (fst (Monitoring.readLoop (render_with_session false)
               [line_at 5000 (js "boot ok"); line_at 5100 message_malformed;
                line_at 5200 message_first]
               (store_of (render_with_session false) 0))))
  = None.
Proof.
  apply (proj2 (@readLoop_keeps_frame reference_engine
                  (render_with_session false)
                  [line_at 5000 (js "boot ok");
                   line_at 5100 message_malformed;
                   line_at 5200 message_first]
                  (store_of (render_with_session false) 0))).
  reflexivity.
Defined.

(** X8.  The throttle bounds the rate for any input: over reads of any
    kind whose clock readings lie in a window shorter than 1000 ms, a run
    makes at most one [addData] call, whatever the last-sent time was. *)
Theorem at_most_one_forward_per_second {rt : JsRuntime}
    (render : Monitoring.ReactState) (ticks : list Monitoring.Tick)
    (st : Monitoring.Store) (w : Z) :
  Forall (fun t => (w <= Monitoring.clock_ms t < w + 1000)%Z) ticks ->
  forwards (snd (Monitoring.readLoop render ticks st)) <= 1.
Proof. apply readLoop_at_most_one. Qed.

Lemma at_most_one_forward_per_second_witness :
  forwards
    (snd (Monitoring.readLoop (render_with_session true)
            [line_at 5999 message_first; line_at 5000 (js "noise");
             line_at 5500 message_second]
            (store_of (render_with_session true) 0)))
  <= 1.
Proof.
  apply (@at_most_one_forward_per_second reference_engine
           (render_with_session true)
           [line_at 5999 message_first; line_at 5000 (js "noise");
            line_at 5500 message_second]
           (store_of (render_with_session true) 0) 5000%Z).
  repeat constructor; cbn; lia.
Defined.

(** X9.  The buffer follows the arrival order: after a run that was not
    asked to close, the buffer is the old one with the accepted readings
    appended one by one, in the order of the reads and up to the read that
    ends the loop; from a buffer of at most 200 readings that is the last
    200 of the old readings followed by the accepted ones. *)
Theorem buffer_follows_arrival_order {rt : JsRuntime}
    (render : Monitoring.ReactState) (ticks : list Monitoring.Tick)
    (st : Monitoring.Store) :
  Monitoring.closeLoopRef (Monitoring.refs st) = false ->
  Monitoring.realtime
    (Monitoring.state (fst (Monitoring.readLoop render ticks st)))
  = fold_left (fun b r => Monitoring.push_reading r b)
              (processed_readings ticks)
              (Monitoring.realtime (Monitoring.state st))
  /\ (length (Monitoring.realtime (Monitoring.state st)) <= 200 ->
      Monitoring.realtime
        (Monitoring.state (fst (Monitoring.readLoop render ticks st)))
      = Monitoring.slice_last 200
          (Monitoring.realtime (Monitoring.state st)
           ++ processed_readings ticks)).
Proof.
  intros Hflag. split; [now apply readLoop_realtime|].
  intros Hlen. rewrite readLoop_realtime by assumption.
  rewrite <- (slice_last_short _ 200 (Monitoring.realtime (Monitoring.state st)))
    at 1 by assumption.
  apply push_all.
Qed.

Lemma buffer_follows_arrival_order_witness :
  map Monitoring.pulse
    (Monitoring.realtime
       (Monitoring.state
          (fst (Monitoring.readLoop (render_with_session true)
                  [line_at 5000 message_pulse_300; line_at 5010 (js "noise");
                   line_at 5020 message_first]
                  (store_of (render_with_session true) 0)))))
  = [num 300; num 70].
Proof.
  destruct (@buffer_follows_arrival_order reference_engine
              (render_with_session true)
              [line_at 5000 message_pulse_300; line_at 5010 (js "noise");
               line_at 5020 message_first]
              (store_of (render_with_session true) 0) eq_refl) as [H _].
  rewrite H. vm_compute. reflexivity.
Defined.

(** ** More on the parser: what it accepts *)

(** X17.  No false rejection: a line in braces that [JSON.parse] accepts
    and whose five fields, under either spelling, coerce to finite Numbers
    is accepted, whatever else the object holds; the reading carries
    exactly the coerced values and the clock value read on entry. *)
Theorem parseLine_accepts_finite_messages {rt : JsRuntime}
    (ts line : jsstring) (obj : jsval) (p s t y d : number) :
  startsWith (trim line) (js "{") && endsWith (trim line) (js "}") = true ->
  JSON_parse (trim line) = Normal obj ->
  Monitoring.field obj "pulse" "bpm" = Normal p ->
  Monitoring.field obj "spo2" "oxygenSaturation" = Normal s ->
  Monitoring.field obj "temp" "temperatureC" = Normal t ->
  Monitoring.field obj "sys" "systolic" = Normal y ->
  Monitoring.field obj "dia" "diastolic" = Normal d ->
  forallb Number_isFinite [p; s; t; y; d] = true ->
  Monitoring.parseLine ts line
  = Normal (Some {| Monitoring.timestamp := ts;
                    Monitoring.pulse := p;
                    Monitoring.oxygenSaturation := s;
                    Monitoring.temperatureC := t;
                    Monitoring.systolic := y;
                    Monitoring.diastolic := d |}).
Proof.
  intros Hshape Hobj Hp Hs Ht Hy Hd Hfin.
  rewrite parseLine_shaped by assumption. rewrite Hobj. cbn [bind].
  rewrite (reading_of_all_finite ts obj p s t y d) by assumption.
  now rewrite Hfin.
Qed.

Lemma parseLine_accepts_finite_messages_witness :
  Monitoring.parseLine (js "t") message_mixed
  = Normal (Some {| Monitoring.timestamp := js "t";
                    Monitoring.pulse := num 72;
                    Monitoring.oxygenSaturation := num 98;
                    Monitoring.temperatureC := num_decimal false 366 (-1);
                    Monitoring.systolic := num 118;
                    Monitoring.diastolic := num 76 |}).
Proof.
  apply (@parseLine_accepts_finite_messages reference_engine (js "t")
           message_mixed
           (JObj [(js "bpm", JNum (num 72)); (js "spo2", JNum (num 98));
                  (js "temp", JNum (num_decimal false 366 (-1)));
                  (js "sys", JNum (num 118)); (js "dia", JNum (num 76))]));
    vm_compute; reflexivity.
Defined.

(** ** The page: tasks and steps *)

(** Case analysis on the guards and outcomes of a step. *)
Ltac step_cases :=
  repeat match goal with
         | |- context [if ?b then _ else _] => destruct b eqn:?
         | |- context [match ?x with Some _ => _ | None => _ end] =>
             destruct x eqn:?
         | |- context [match ?x with Normal _ => _ | Throw _ => _ end] =>
             destruct x eqn:?
         end.

(** The handlers and what starts them, unfolded. *)
Ltac unfold_handlers :=
  unfold Monitoring.page_step, Monitoring.started,
    Monitoring.handleCreateSession, Monitoring.handleRequestPort,
    Monitoring.handleConnect, Monitoring.handleDisconnect,
    Monitoring.handleStart, Monitoring.handleStop, Monitoring.handleReset,
    Monitoring.handleDisconnect, Monitoring.handleReset_rest;
  cbv zeta.

Section TaskFacts.
Context {rt : JsRuntime}.
Import Monitoring.

Lemma nth_error_set_nth_same (A : Type) (k : nat) (x : A) (l : list A) :
  k < length l -> nth_error (set_nth k x l) k = Some x.
Proof.
  intros Hk. unfold set_nth.
  rewrite nth_error_app2 by (rewrite length_firstn; lia).
  rewrite length_firstn. replace (k - Nat.min k (length l)) with 0 by lia.
  reflexivity.
Qed.

Lemma nth_error_set_nth_other (A : Type) (j k : nat) (x : A) (l : list A) :
  j < length l -> j <> k ->
  nth_error (set_nth j x l) k = nth_error l k.
Proof.
  intros Hj Hjk. unfold set_nth.
  destruct (Nat.lt_ge_cases k j) as [Hlt|Hge].
  - rewrite nth_error_app1 by (rewrite length_firstn; lia).
    rewrite nth_error_firstn.
    apply Nat.ltb_lt in Hlt. now rewrite Hlt.
  - rewrite nth_error_app2 by (rewrite length_firstn; lia).
    rewrite length_firstn. replace (Nat.min j (length l)) with j by lia.
    destruct (k - j) as [|d] eqn:E; [lia|]. cbn [nth_error].
    rewrite nth_error_skipn. f_equal. lia.
Qed.

Lemma nth_error_snoc (A : Type) (x : A) (l : list A) :
  nth_error (l ++ [x]) (length l) = Some x.
Proof.
  rewrite nth_error_app2 by lia. now rewrite Nat.sub_diag.
Qed.

Lemma set_nth_snoc (A : Type) (x y : A) (l : list A) :
  set_nth (length l) y (l ++ [x]) = l ++ [y].
Proof.
  unfold set_nth. rewrite firstn_app, firstn_all, Nat.sub_diag.
  cbn [firstn]. rewrite app_nil_r.
  rewrite skipn_app, skipn_all2 by lia.
  replace (S (length l) - length l) with 1 by lia. reflexivity.
Qed.

Lemma length_set_nth (A : Type) (k : nat) (x : A) (l : list A) :
  k < length l -> length (set_nth k x l) = length l.
Proof.
  intros Hk. unfold set_nth.
  rewrite length_app, length_firstn. cbn [length]. rewrite length_skipn. lia.
Qed.

Lemma In_set_nth (A : Type) (k : nat) (x y : A) (l : list A) :
  In y (set_nth k x l) -> y = x \/ In y l.
Proof.
  unfold set_nth. intros H. apply in_app_or in H as [H|[H|H]].
  - right. rewrite <- (firstn_skipn k l). apply in_or_app. now left.
  - now left.
  - right. rewrite <- (firstn_skipn (S k) l). apply in_or_app. now right.
Qed.

(** A handler that starts adds at most its own task; the tasks there are
    stay as they are. *)
Lemma started_tasks (p : Page) (res : Started) :
  exists more,
    tasks (fst (started p res)) = tasks p ++ more
    /\ more = match snd res with Some task => [task] | None => [] end.
Proof.
  destruct res as [[st calls] waiting]. cbn. eexists. split; reflexivity.
Qed.

(** An event changes no task but the one whose promise settles. *)
Lemma page_step_keeps_task (p : Page) (ev : Event) (k : nat) (task : Task) :
  nth_error (tasks p) k = Some task ->
  settles_task k ev = false ->
  nth_error (tasks (fst (page_step p ev))) k = Some task.
Proof.
  intros Hk Hev.
  assert (Hlt : k < length (tasks p))
    by (apply nth_error_Some; congruence).
  assert (Hstart : forall res,
            nth_error (tasks (fst (started p res))) k = Some task).
  { intros res. destruct (started_tasks p res) as (more & -> & _).
    now rewrite nth_error_app1. }
  unfold page_step. cbv zeta.
  destruct ev as [value| |index| | | | | | |j o];
    repeat match goal with
           | |- context [if ?b then _ else _] => destruct b
           end;
    try assumption; try apply Hstart.
  cbn [settles_task] in Hev. apply Nat.eqb_neq in Hev.
  destruct (nth_error (tasks p) j) as [task0|] eqn:Ej; [|assumption].
  destruct (resume task0 o (store p)) as [[st1 calls] task1].
  cbn [fst tasks].
  rewrite nth_error_set_nth_other; [assumption | | assumption].
  apply nth_error_Some. congruence.
Qed.

(** The promise of task [k] settling resumes that task. *)
Lemma page_step_settles (p : Page) (k : nat) (o : Outcome) (task : Task) :
  nth_error (tasks p) k = Some task ->
  store (fst (page_step p (Settles k o)))
  = fst (fst (resume task o (store p)))
  /\ snd (page_step p (Settles k o)) = snd (fst (resume task o (store p)))
  /\ nth_error (tasks (fst (page_step p (Settles k o)))) k
     = Some (snd (resume task o (store p)))
  /\ webSerial (fst (page_step p (Settles k o))) = webSerial p.
Proof.
  intros Hk. cbn [page_step]. rewrite Hk.
  destruct (resume task o (store p)) as [[st1 calls] task1].
  cbn [fst snd store tasks webSerial]. repeat split.
  apply nth_error_set_nth_same. apply nth_error_Some. congruence.
Qed.

(** A settled promise that no task waits for changes nothing. *)
Lemma page_step_no_task (p : Page) (k : nat) (o : Outcome) :
  nth_error (tasks p) k = None ->
  page_step p (Settles k o) = (p, []).
Proof. intros Hk. cbn [page_step]. now rewrite Hk. Qed.

(** The start control, enabled: the marker is cleared, the command is
    written, and the handler waits for the write. *)
Lemma click_start_effect (p : Page) :
  canStart (state (store p)) = true ->
  page_step p ClickStart
  = ({| webSerial := webSerial p;
        store := setStartedFromDevice false (setErr None (store p));
        tasks := tasks p ++ [AwaitWriteStart] |},
     [DeviceWrite (Serial.writeLine (js "1"))]).
Proof.
  intros Hcan. unfold page_step, started, handleStart. cbv zeta.
  rewrite Hcan. unfold canStart, isConnected in Hcan.
  apply andb_prop in Hcan as [Hcan Hnm].
  apply andb_prop in Hcan as [Hs Hio].
  apply negb_true_iff in Hnm. rewrite Hnm. cbn [negb orb].
  destruct (io (state (store p))); [|discriminate].
  destruct (session (state (store p))); [|discriminate].
  reflexivity.
Qed.

End TaskFacts.
(** C8, the part that fails.  The start control can only be used while
    connected, so the loop is already running, launched by [handleConnect]
    from a render in which [isMonitoring] was [false]; its guard keeps
    reading that binding.  After the operator has started monitoring
    ([handleStart] has cleared the marker and set the flag) the next
    accepted reading sets the started-from-device marker all the same:
    on the run below; from every page state in which a loop launched
    before the start waits for a line, however the write to the device
    settles; and in particular when the start control is enabled and the
    write succeeds, so that monitoring is on and the marker cleared when
    the reading comes. *)
Theorem autostart_marks_operator_start :
  (let p := fst (Monitoring.page_run (Monitoring.initial_page true)
                   operator_starts) in
   let st := Monitoring.state (Monitoring.store p) in
   Monitoring.isMonitoring st = true
   /\ Monitoring.startedFromDevice st = false
   /\ option_map Monitoring.isMonitoring
        (reading_loop (nth 3 (Monitoring.tasks p) Monitoring.Finished))
      = Some false
   /\ Monitoring.startedFromDevice
        (Monitoring.state
           (Monitoring.store
              (fst (Monitoring.page_step p
                      (Monitoring.Settles 3
                         (Monitoring.ReadSettled
                            (line_at 5000 message_first)))))))
      = true)
  /\ (forall (rt : JsRuntime) (p : Monitoring.Page) (k : nat)
             (render : Monitoring.ReactState) (written : completion unit)
             (t : Monitoring.Tick),
         nth_error (Monitoring.tasks p) k = Some (Monitoring.AwaitRead render) ->
         Monitoring.session render <> None ->
         Monitoring.isMonitoring render = false ->
         tick_accepted t = true ->
         Monitoring.startedFromDevice
           (Monitoring.state
              (Monitoring.store
                 (fst (Monitoring.page_run p
                         [Monitoring.ClickStart;
                          Monitoring.Settles (length (Monitoring.tasks p))
                            (Monitoring.WriteSettled written);
                          Monitoring.Settles k (Monitoring.ReadSettled t)]))))
         = true)
  /\ (forall (rt : JsRuntime) (p : Monitoring.Page) (k : nat)
             (render : Monitoring.ReactState) (t : Monitoring.Tick),
         nth_error (Monitoring.tasks p) k = Some (Monitoring.AwaitRead render) ->
         Monitoring.session render <> None ->
         Monitoring.isMonitoring render = false ->
         Monitoring.canStart (Monitoring.state (Monitoring.store p)) = true ->
         tick_accepted t = true ->
         let started :=
           fst (Monitoring.page_run p
                  [Monitoring.ClickStart;
                   Monitoring.Settles (length (Monitoring.tasks p))
                     (Monitoring.WriteSettled (Normal tt))]) in
         Monitoring.isMonitoring (Monitoring.state (Monitoring.store started))
         = true
         /\ Monitoring.startedFromDevice
              (Monitoring.state (Monitoring.store started))
            = false
         /\ Monitoring.startedFromDevice
              (Monitoring.state
                 (Monitoring.store
                    (fst (Monitoring.page_step started
                            (Monitoring.Settles k
                               (Monitoring.ReadSettled t))))))
            = true).
Proof.
  split; [|split].
  - vm_compute. repeat split.
  - intros rt p k render written t Hloop Hs Hm Hacc.
    apply tick_accepted_inv in Hacc as (value & reading & Hread & Hparse).
    assert (Hk : k < length (Monitoring.tasks p))
      by (apply nth_error_Some; congruence).
    cbn [Monitoring.page_run].
    pose proof (page_step_keeps_task p Monitoring.ClickStart k _ Hloop
                  eq_refl) as Hloop1.
    destruct (Monitoring.page_step p Monitoring.ClickStart) as [p1 calls1].
    cbn [fst] in Hloop1.
    assert (Hne : settles_task k
                    (Monitoring.Settles (length (Monitoring.tasks p))
                       (Monitoring.WriteSettled written)) = false).
    { cbn [settles_task]. apply Nat.eqb_neq. lia. }
    pose proof (page_step_keeps_task p1 _ k _ Hloop1 Hne) as Hloop2.
    destruct (Monitoring.page_step p1 _) as [p2 calls2].
    cbn [fst] in Hloop2.
    destruct (page_step_settles p2 k (Monitoring.ReadSettled t) _ Hloop2)
      as (Hstore & _).
    destruct (Monitoring.page_step p2 _) as [p3 calls3].
    cbn [fst] in *. rewrite Hstore. cbn [Monitoring.resume].
    pose proof (autostart_sets_flags render t value reading
                  (Monitoring.store p2) Hs Hm Hread Hparse) as [_ Hflag].
    destruct (Monitoring.loop_body render t (Monitoring.store p2))
      as [[st1 calls] c].
    exact Hflag.
  - intros rt p k render t Hloop Hs Hm Hcan Hacc started.
    apply tick_accepted_inv in Hacc as (value & reading & Hread & Hparse).
    assert (Hk : k < length (Monitoring.tasks p))
      by (apply nth_error_Some; congruence).
    assert (Hstarted :
      started
      = {| Monitoring.webSerial := Monitoring.webSerial p;
           Monitoring.store :=
             Monitoring.setIsMonitoring true
               (Monitoring.setStartedFromDevice false
                  (Monitoring.setErr None (Monitoring.store p)));
           Monitoring.tasks :=
             Monitoring.tasks p ++ [Monitoring.Finished] |}).
    { subst started. cbn [Monitoring.page_run].
      rewrite (click_start_effect p Hcan).
      cbn [Monitoring.page_step Monitoring.tasks Monitoring.store].
      rewrite nth_error_snoc.
      cbn [Monitoring.resume fst snd]. now rewrite set_nth_snoc. }
    rewrite Hstarted.
    split; [reflexivity|]. split; [reflexivity|].
    cbn [Monitoring.page_step Monitoring.tasks Monitoring.store].
    rewrite nth_error_app1, Hloop by assumption.
    cbn [Monitoring.resume].
    match goal with
    | |- context [Monitoring.loop_body render t ?st] =>
        pose proof (autostart_sets_flags render t value reading st
                      Hs Hm Hread Hparse) as [_ Hflag];
        destruct (Monitoring.loop_body render t st) as [[st1 calls] c]
    end.
    exact Hflag.
Qed.
(** ** The page: what holds in every state it can reach *)

Section PageFacts.
Context {rt : JsRuntime}.
Import Monitoring.

Lemma forallb_skipn (A : Type) (f : A -> bool) (n : nat) (l : list A) :
  forallb f l = true -> forallb f (skipn n l) = true.
Proof.
  revert l. induction n as [|n IH]; intros l H; [assumption|].
  destruct l as [|x l]; [reflexivity|]. cbn [skipn].
  cbn [forallb] in H. apply andb_prop in H as [_ H]. now apply IH.
Qed.

Lemma push_reading_ok (r : RealtimeRow) (rows : list RealtimeRow) :
  reading_finite r = true ->
  forallb reading_finite rows = true ->
  length (push_reading r rows) <= 200
  /\ forallb reading_finite (push_reading r rows) = true.
Proof.
  intros Hr Hrows. unfold push_reading. cbv zeta.
  split; [apply slice_last_length|].
  unfold slice_last. apply forallb_skipn.
  rewrite forallb_app, Hrows. cbn [forallb andb]. now rewrite Hr.
Qed.

Lemma tick_reading_finite (t : Tick) (r : RealtimeRow) :
  tick_reading t = Some r -> reading_finite r = true.
Proof.
  unfold tick_reading. destruct (read t) as [value| |]; try discriminate.
  destruct (parseLine (clock_iso t) value) as [[r'|]|] eqn:E;
    try discriminate.
  intros H. inversion H; subst. now apply parseLine_finite in E.
Qed.

(** What a step does to the buffer: nothing, or it empties it, or it
    appends one finite reading and keeps the last 200. *)
Lemma page_step_realtime (p : Page) (ev : Event) :
  let rows := realtime (state (store p)) in
  let rows' := realtime (state (store (fst (page_step p ev)))) in
  rows' = rows \/ rows' = []
  \/ exists r, reading_finite r = true /\ rows' = push_reading r rows.
Proof.
  cbv zeta. destruct ev as [value| |index| | | | | | |k o].
  1-9: unfold page_step, started, handleCreateSession, handleRequestPort,
         handleConnect, handleDisconnect, handleStart, handleStop,
         handleReset, handleDisconnect, handleReset_rest; cbv zeta;
       step_cases; cbn; auto.
  cbn [page_step].
  destruct (nth_error (tasks p) k) as [task|]; [|now left].
  destruct task; destruct o; cbn [resume]; step_cases; cbn; auto.
  pose proof (loop_body_summary render t (store p)) as (_ & Hbuf & _).
  destruct (loop_body render t (store p)) as [[st1 calls] c].
  cbn [fst snd store] in *. rewrite Hbuf.
  destruct (tick_reading t) as [r|] eqn:Er; [|now left].
  right. right. exists r. split; [|reflexivity].
  now apply tick_reading_finite in Er.
Qed.

Lemma count_app (kind : Task -> bool) (l1 l2 : list Task) :
  count kind (l1 ++ l2) = count kind l1 + count kind l2.
Proof. unfold count. now rewrite filter_app, length_app. Qed.

Lemma count_set_nth (kind : Task -> bool) (k : nat) (x y : Task)
    (l : list Task) :
  nth_error l k = Some x ->
  count kind (set_nth k y l) + Nat.b2n (kind x)
  = count kind l + Nat.b2n (kind y).
Proof.
  intros Hk. unfold set_nth.
  assert (Hl : l = firstn k l ++ x :: skipn (S k) l).
  { revert l Hk. induction k as [|k IH]; intros [|a l] Hk;
      try discriminate.
    - cbn in *. now inversion Hk.
    - cbn [firstn skipn app]. f_equal. apply IH. exact Hk. }
  rewrite Hl at 3. rewrite !count_app.
  unfold count. cbn [filter].
  destruct (kind x), (kind y); cbn [length Nat.b2n]; lia.
Qed.

(** The loop a resumed task runs is the one it ran, or was to launch,
    before. *)
Lemma resume_loop_render (task : Task) (o : Outcome) (st : Store)
    (render : ReactState) :
  loop_render (snd (resume task o st)) = Some render ->
  loop_render task = Some render.
Proof.
  destruct task; destruct o; cbn [resume]; unfold next_read;
    step_cases; cbn; try discriminate; try (intros H; exact H).
  all: destruct (loop_body _ _ _) as [[st1 calls] c]; cbn;
    destruct c; [destruct calls|]; step_cases; cbn;
    try discriminate; intros H; exact H.
Qed.

(** The loading flag is set exactly while the creation call is pending. *)
Lemma page_step_creates (p : Page) (ev : Event) :
  count is_create (tasks p) = Nat.b2n (loading (state (store p))) ->
  count is_create (tasks (fst (page_step p ev)))
  = Nat.b2n (loading (state (store (fst (page_step p ev))))).
Proof.
  intros H. destruct ev as [value| |index| | | | | | |k o].
  1-9: unfold page_step, started, handleCreateSession, handleRequestPort,
         handleConnect, handleDisconnect, handleStart, handleStop,
         handleReset, handleDisconnect, handleReset_rest; cbv zeta;
       step_cases; cbn -[Nat.b2n count];
       rewrite ?count_app, ?app_nil_r; cbn -[Nat.b2n count];
       try assumption;
       try (rewrite H; cbn; lia).
  - apply orb_false_elim in Heqb as [_ E]. rewrite E in H.
    rewrite H. reflexivity.
  - cbn [page_step].
    destruct (nth_error (tasks p) k) as [task|] eqn:Ek; [|exact H].
    pose proof (fun y => count_set_nth is_create k task y (tasks p) Ek)
      as Hcount.
    destruct task; destruct o; cbn [resume]; unfold next_read;
      step_cases; cbn -[Nat.b2n count];
      match goal with
      | |- count _ (set_nth _ ?y _) = _ => specialize (Hcount y)
      | _ => idtac
      end;
      cbn in Hcount |- *; try lia;
      try (destruct (loading (state (store p))); cbn in *; lia).
    pose proof (loop_body_summary render t (store p)) as (Hf & _).
    destruct (loop_body render t (store p)) as [[st1 calls] c].
    cbn [fst snd] in *. unfold frame in Hf.
    injection Hf as Hpl Hp Hs Hpo Hx Hio' Hl Hc.
    cbn [fst tasks store state loading]. rewrite Hl.
    match goal with
    | |- count _ (set_nth _ ?y _) = _ => specialize (Hcount y)
    end.
    destruct c; [destruct calls|]; step_cases; cbn in Hcount; lia.
Qed.

(** Every loop, and every port opening that will launch one, is a closure
    of a render in which the connect control was enabled. *)
Lemma page_step_loops (p : Page) (ev : Event) :
  (forall task render,
      In task (tasks p) -> loop_render task = Some render ->
      canConnect render = true) ->
  forall task render,
    In task (tasks (fst (page_step p ev))) ->
    loop_render task = Some render ->
    canConnect render = true.
Proof.
  intros H task render Hin Hr.
  destruct ev as [value| |index| | | | | | |k o].
  1-9: revert Hin;
       unfold page_step, started, handleCreateSession, handleRequestPort,
         handleConnect, handleDisconnect, handleStart, handleStop,
         handleReset, handleDisconnect, handleReset_rest; cbv zeta;
       step_cases; cbn [fst tasks]; rewrite ?app_nil_r;
       intros Hin; try (now apply (H task render));
       apply in_app_or in Hin as [Hin|[Hin|[]]];
       try (now apply (H task render)); subst task;
       try discriminate.
  - (* the connect control *)
    cbn in Hr. inversion Hr; subst render.
    apply orb_false_elim in Heqb as [_ E]. now apply negb_false_iff in E.
  - cbn [page_step] in Hin.
    destruct (nth_error (tasks p) k) as [task0|] eqn:Ek;
      [|now apply (H task render)].
    pose proof (resume_loop_render task0 o (store p)) as Hres.
    destruct (resume task0 o (store p)) as [[st1 calls] task1].
    cbn [fst snd tasks] in *.
    apply In_set_nth in Hin as [->|Hin]; [|now apply (H task render)].
    apply (H task0 render); [|now apply Hres].
    eapply nth_error_In. exact Ek.
Qed.

Lemma jsstring_eqb_eq (a b : jsstring) :
  jsstring_eqb a b = true <-> a = b.
Proof.
  revert b. induction a as [|x a IH]; intros [|y b]; cbn [jsstring_eqb];
    split; intros H; try reflexivity; try discriminate.
  - apply andb_prop in H as [Hx Ha]. apply N.eqb_eq in Hx.
    apply IH in Ha. now subst.
  - inversion H; subst. rewrite N.eqb_refl. now apply IH.
Qed.

(** An option of the port [select] is -1 or the index of a port. *)
Lemma port_option_range (r : ReactState) (index : Z) :
  existsb (Z.eqb index) (port_options r) = true ->
  (index = -1 \/ 0 <= index < Z.of_nat (length (ports r)))%Z.
Proof.
  unfold port_options. cbn [existsb]. intros H.
  apply orb_prop in H as [H|H]; [left; now apply Z.eqb_eq|].
  right. apply existsb_exists in H as (x & Hin & Hx).
  apply Z.eqb_eq in Hx. subst x.
  apply in_map_iff in Hin as (n & <- & Hn). apply in_seq in Hn. lia.
Qed.

(** [findIndex] gives -1 or an index of the list. *)
Lemma findIndex_range (port : SerialPort) (list : list SerialPort) :
  (-1 <= findIndex port list < Z.of_nat (length list))%Z
  \/ (findIndex port list = -1)%Z.
Proof.
  induction list as [|x rest IH]; [now right|].
  cbn [findIndex length]. destruct (_ =? _)%N; [left; lia|].
  cbv zeta. destruct (findIndex port rest <? 0)%Z eqn:E; [now right|].
  apply Z.ltb_ge in E. left. lia.
Qed.

(** The port selection never goes below -1. *)
Lemma page_step_port_index (p : Page) (ev : Event) :
  (-1 <= selectedPortIdx (state (store p)))%Z ->
  (-1 <= selectedPortIdx (state (store (fst (page_step p ev)))))%Z.
Proof.
  intros H. destruct ev as [value| |index| | | | | | |k o].
  1-9: unfold page_step, started, handleCreateSession, handleRequestPort,
         handleConnect, handleDisconnect, handleStart, handleStop,
         handleReset, handleDisconnect, handleReset_rest; cbv zeta;
       step_cases; cbn; try assumption; try lia.
  - match goal with
    | E : existsb _ (port_options _) = true |- _ =>
        apply port_option_range in E; lia
    end.
  - cbn [page_step].
    destruct (nth_error (tasks p) k) as [task|] eqn:Ek; [|exact H].
    destruct task; destruct o; cbn [resume]; unfold next_read;
      step_cases; cbn; try assumption; try lia.
    pose proof (loop_body_summary render t (store p)) as (Hf & _).
    destruct (loop_body render t (store p)) as [[st1 calls] c].
    cbn [fst snd store] in *. unfold frame in Hf.
    injection Hf as Hpl Hp Hs Hpo Hx Hio' Hl Hc. now rewrite Hx.
Qed.

(** The selected patient is an option of the list, which is empty until
    it is fetched, once. *)
Lemma page_step_patients (p : Page) (ev : Event) :
  patient_listed (state (store p)) = true ->
  count is_findAll (tasks p) <= 1 ->
  (count is_findAll (tasks p) = 1 -> patients (state (store p)) = []) ->
  patient_listed (state (store (fst (page_step p ev)))) = true
  /\ count is_findAll (tasks (fst (page_step p ev))) <= 1
  /\ (count is_findAll (tasks (fst (page_step p ev))) = 1 ->
      patients (state (store (fst (page_step p ev)))) = []).
Proof.
  intros Hsel Hle Hempty. destruct ev as [value| |index| | | | | | |k o].
  1-9: unfold page_step, started, handleCreateSession, handleRequestPort,
         handleConnect, handleDisconnect, handleStart, handleStop,
         handleReset, handleDisconnect, handleReset_rest; cbv zeta;
       step_cases; cbn -[count patient_listed];
       rewrite ?count_app, ?app_nil_r; cbn -[count patient_listed];
       rewrite ?Nat.add_0_r;
       (split; [|split]); try assumption; try reflexivity.
  - cbn [page_step].
    destruct (nth_error (tasks p) k) as [task|] eqn:Ek;
      [|split; [|split]; assumption].
    pose proof (fun y => count_set_nth is_findAll k task y (tasks p) Ek)
      as Hcount.
    destruct task; destruct o; cbn [resume]; unfold next_read;
      step_cases; cbn -[count patient_listed];
      match goal with
      | |- context [count _ (set_nth _ ?y _)] => specialize (Hcount y)
      | _ => idtac
      end;
      cbn -[count] in Hcount;
      try (split; [|split]; solve [assumption | reflexivity | lia
                                   | intros; apply Hempty; lia]).
    1-2: assert (Hone : count is_findAll (tasks p) = 1) by lia;
      specialize (Hempty Hone);
      (split; [|split]; [|lia|lia]);
      unfold patient_listed, patient_options in *; rewrite Hempty in Hsel;
      cbn [map existsb] in Hsel |- *;
      apply orb_prop in Hsel as [Hsel|Hsel]; [|discriminate];
      cbn [state patientId patients]; now rewrite Hsel.
    all: pose proof (loop_body_summary render t (store p)) as (Hf & _);
      destruct (loop_body render t (store p)) as [[st1 calls] c];
      cbn [fst snd store tasks] in *; unfold frame in Hf;
      injection Hf as Hpl Hp Hs Hpo Hx Hio' Hl Hc;
      unfold patient_listed, patient_options in *; rewrite Hpl, Hp;
      match goal with
      | |- context [count _ (set_nth _ ?y _)] => specialize (Hcount y)
      end;
      assert (Hsame : count is_findAll (set_nth k
                 match c with
                 | Continue =>
                     match calls with
                     | [] => next_read render st1
                     | _ :: _ => AwaitAddData render
                     end
                 | Break => Finished
                 end (tasks p)) = count is_findAll (tasks p))
        by (destruct c; [destruct calls|]; unfold next_read in *;
            step_cases; cbn in Hcount; lia);
      unfold next_read in Hsame; rewrite Hsame;
      (split; [|split]; assumption).
Qed.

(** Every event keeps a sound page sound. *)
Lemma page_step_ok (p : Page) (ev : Event) :
  page_ok p -> page_ok (fst (page_step p ev)).
Proof.
  intros (Hlen & Hfin & Hload & Hloops & Hidx & Hsel & Hle & Hempty).
  destruct (page_step_patients p ev Hsel Hle Hempty) as (H6 & H7 & H8).
  unfold page_ok. cbv zeta.
  split; [|split]; [| |split; [|split; [|split; [|split; [|split]]]]];
    try assumption.
  - destruct (page_step_realtime p ev) as [H|[H|(r & Hr & H)]];
      cbv zeta in H; rewrite H; [assumption | cbn; lia|].
    now apply push_reading_ok.
  - destruct (page_step_realtime p ev) as [H|[H|(r & Hr & H)]];
      cbv zeta in H; rewrite H; [assumption | reflexivity|].
    now apply push_reading_ok.
  - now apply page_step_creates.
  - now apply page_step_loops.
  - now apply page_step_port_index.
Qed.

Lemma initial_page_ok (supported : bool) : page_ok (initial_page supported).
Proof.
  unfold page_ok, initial_page. destruct supported; cbn;
    repeat match goal with |- _ /\ _ => split end;
    try lia; try reflexivity; try discriminate;
    intros task render Hin Hr;
    repeat (destruct Hin as [<-|Hin]; [discriminate|]); contradiction.
Qed.

Lemma page_run_ok (p : Page) (evs : list Event) :
  page_ok p -> page_ok (fst (page_run p evs)).
Proof.
  revert p. induction evs as [|ev rest IH]; intros p Hp; [assumption|].
  cbn [page_run].
  pose proof (page_step_ok p ev Hp) as H1.
  destruct (page_step p ev) as [p1 calls].
  specialize (IH p1 H1).
  destruct (page_run p1 rest) as [p2 calls']. exact IH.
Qed.

(** The calls of a loop iteration. *)
Lemma loop_body_calls (render : ReactState) (t : Tick) (st : Store) :
  snd (fst (loop_body render t st))
  = match tick_reading t, session render with
    | Some reading, Some s =>
        if (1000 <=? clock_ms t - lastSentRef (refs st))%Z
        then [AddData (id s) (clamped reading)]
        else []
    | _, _ => []
    end.
Proof.
  unfold tick_reading, loop_body, read_failed.
  destruct (read t) as [value| |e]; try reflexivity.
  - destruct (parseLine_never_throws (clock_iso t) value) as [o Ho].
    destruct value as [|c v].
    + rewrite parseLine_unshaped by reflexivity. reflexivity.
    + cbn [is_empty]. rewrite Ho. destruct o as [reading|]; [|reflexivity].
      apply accept_calls.
  - destruct (closeLoopRef (refs st)); reflexivity.
Qed.

(** The calls of an event that is not the promise of a task settling
    hold no [addData], and neither do those of any promise but a read. *)
Lemma page_step_forward (p : Page) (ev : Event) (sid : jsstring)
    (data : SessionData) :
  In (AddData sid data) (snd (page_step p ev)) ->
  exists k render t s reading,
    ev = Settles k (ReadSettled t)
    /\ nth_error (tasks p) k = Some (AwaitRead render)
    /\ session render = Some s
    /\ tick_reading t = Some reading
    /\ (1000 <= clock_ms t - lastSentRef (refs (store p)))%Z
    /\ sid = id s
    /\ data = clamped reading.
Proof.
  intros Hin. destruct ev as [value| |index| | | | | | |k o].
  1-9: exfalso; revert Hin;
       unfold page_step, started, handleCreateSession, handleRequestPort,
         handleConnect, handleDisconnect, handleStart, handleStop,
         handleReset, handleDisconnect, handleReset_rest; cbv zeta;
       step_cases; cbn; intros Hin;
       repeat (destruct Hin as [Hin|Hin]; [discriminate|]); assumption.
  cbn [page_step] in Hin.
  destruct (nth_error (tasks p) k) as [task|] eqn:Ek; [|contradiction].
  destruct task; destruct o;
    try (exfalso; revert Hin; cbn [resume]; unfold next_read;
         step_cases; cbn; intros Hin;
         repeat (destruct Hin as [Hin|Hin]; [discriminate|]);
         assumption).
  cbn [resume] in Hin.
  pose proof (loop_body_calls render t (store p)) as Hcalls.
  destruct (loop_body render t (store p)) as [[st1 calls] c].
  cbn [fst snd] in *. subst calls.
  destruct (tick_reading t) as [reading|] eqn:Er; [|contradiction].
  destruct (session render) as [s|] eqn:Es; [|contradiction].
  destruct (1000 <=? _)%Z eqn:Ege; [|contradiction].
  destruct Hin as [Heq|[]]. inversion Heq; subst.
  apply Z.leb_le in Ege.
  exists k, render, t, s, reading. repeat split; assumption.
Qed.

(** The stop control and what follows it leave the refs alone. *)
Lemma click_stop_refs (p : Page) :
  refs (store (fst (page_step p ClickStop))) = refs (store p).
Proof. unfold_handlers. step_cases; reflexivity. Qed.

Lemma settled_write_refs (p : Page) (k : nat) (written : completion unit) :
  refs (store (fst (page_step p (Settles k (WriteSettled written)))))
  = refs (store p).
Proof.
  cbn [page_step]. destruct (nth_error (tasks p) k) as [task|];
    [|reflexivity].
  destruct task; cbn [resume]; step_cases; reflexivity.
Qed.

Lemma settled_close_refs (p : Page) (k : nat) (closed : completion unit)
    (now_iso : jsstring) :
  refs (store (fst (page_step p
                      (Settles k (SessionCloseSettled closed now_iso)))))
  = refs (store p).
Proof.
  cbn [page_step]. destruct (nth_error (tasks p) k) as [task|];
    [|reflexivity].
  destruct task; cbn [resume]; step_cases; reflexivity.
Qed.

(** The create control: ignored, or the call is made and awaited. *)
Lemma click_create_effect (p : Page) :
  page_step p ClickCreateSession = (p, [])
  \/ (canCreateSession (state (store p)) = true
      /\ loading (state (store p)) = false
      /\ page_step p ClickCreateSession
         = ({| webSerial := webSerial p;
               store := setErr None (setLoading true (store p));
               tasks := tasks p ++ [AwaitCreate] |},
            [SessionCreate (patientId (state (store p)))])).
Proof.
  unfold page_step, started, handleCreateSession. cbv zeta.
  destruct (negb _ || _) eqn:E; [now left|].
  apply orb_false_elim in E as [Hcan Hload].
  apply negb_false_iff in Hcan.
  pose proof Hcan as Hcan'. unfold canCreateSession in Hcan'.
  apply andb_prop in Hcan' as [Hpid _]. apply negb_true_iff in Hpid.
  rewrite Hpid. right. repeat split; assumption.
Qed.

(** The connect control: ignored, or the call is made and awaited. *)
Lemma click_connect_effect (p : Page) :
  page_step p ClickConnect = (p, [])
  \/ (canConnect (state (store p)) = true
      /\ page_step p ClickConnect
         = ({| webSerial := webSerial p;
               store := setErr None (store p);
               tasks := tasks p ++ [AwaitOpenPort (state (store p))] |},
            [PortOpen (nth_error (ports (state (store p)))
                         (Z.to_nat (selectedPortIdx (state (store p)))))
                      115200])).
Proof.
  unfold page_step, started, handleConnect. cbv zeta.
  destruct (_ || negb _) eqn:E; [now left|].
  apply orb_false_elim in E as [_ Hcan].
  apply negb_false_iff in Hcan.
  pose proof Hcan as Hcan'. unfold canConnect in Hcan'.
  apply andb_prop in Hcan' as [Hcan' _].
  apply andb_prop in Hcan' as [_ Hidx]. apply Z.leb_le in Hidx.
  replace (selectedPortIdx (state (store p)) <? 0)%Z with false
    by (symmetry; apply Z.ltb_ge; assumption).
  right. split; [assumption | reflexivity].
Qed.

(** The reset control, enabled: with no connection the reset is done at
    once; with a connection the handler asks the loop to close and waits
    for [io.close()]. *)
Lemma click_reset_effect (p : Page) :
  canReset (state (store p)) = true ->
  (io (state (store p)) = None
   /\ page_step p ClickReset
      = ({| webSerial := webSerial p;
            store := handleReset_rest (store p);
            tasks := tasks p |}, []))
  \/ (io (state (store p)) <> None
      /\ page_step p ClickReset
         = ({| webSerial := webSerial p;
               store := set_closeLoopRef true (store p);
               tasks := tasks p ++ [AwaitClose true] |}, [PortClose])).
Proof.
  intros Hcan. unfold page_step, started, handleReset, handleDisconnect.
  cbv zeta. rewrite Hcan. cbn [negb].
  unfold canReset in Hcan. apply andb_prop in Hcan as [Hnm _].
  apply negb_true_iff in Hnm. rewrite Hnm.
  destruct (io (state (store p))) as [c|].
  - right. split; [discriminate | reflexivity].
  - left. split; [reflexivity|]. now rewrite app_nil_r.
Qed.

(** A setter that writes the value already there changes nothing. *)
Lemma setErr_same (st : Store) : setErr (err (state st)) st = st.
Proof. destruct st as [s r]. destruct s. reflexivity. Qed.

End PageFacts.

Section PageClaims.
Context {rt : JsRuntime}.
Import Monitoring.

Lemma reading_finite_fields (r : RealtimeRow) :
  reading_finite r = true ->
  Number_isFinite (pulse r) = true
  /\ Number_isFinite (oxygenSaturation r) = true
  /\ Number_isFinite (temperatureC r) = true
  /\ Number_isFinite (systolic r) = true
  /\ Number_isFinite (diastolic r) = true.
Proof.
  unfold reading_finite. cbn [forallb]. intros H.
  repeat (apply andb_prop in H as [? H]). auto.
Qed.

Lemma filter_all (A : Type) (f : A -> bool) (l : list A) :
  forallb f l = true -> filter f l = l.
Proof.
  induction l as [|x l IH]; [reflexivity|].
  cbn [forallb filter]. intros H. apply andb_prop in H as [Hx Hl].
  rewrite Hx. now rewrite IH.
Qed.

Lemma by_metric_all (k : RealtimeRow -> number) (rows : list RealtimeRow) :
  (forall r, reading_finite r = true -> Number_isFinite (k r) = true) ->
  forallb reading_finite rows = true ->
  by_metric k rows = map k (slice_last 50 rows)
  /\ length (by_metric k rows) = Nat.min 50 (length rows).
Proof.
  intros Hk Hrows. unfold by_metric. cbv zeta.
  assert (Hall : forallb Number_isFinite (map k (slice_last 50 rows)) = true).
  { apply forallb_forall. intros x Hx.
    apply in_map_iff in Hx as [r [<- Hr]]. apply Hk.
    unfold slice_last in Hr.
    pose proof (forallb_skipn _ reading_finite (length rows - 50) rows Hrows)
      as Hs.
    rewrite forallb_forall in Hs. now apply Hs. }
  rewrite (filter_all _ _ _ Hall). split; [reflexivity|].
  rewrite length_map. unfold slice_last. rewrite length_skipn. lia.
Qed.

End PageClaims.
(** ** The page: properties of every run *)

(** X10.  In every state the page can reach, whatever the order in which
    the operator acts and the awaited calls settle, the buffer holds at most 200
    readings and each has five finite values; so the filter of the series
    drops nothing (each series is the metric over the last 50 readings,
    [min 50 n] points for [n] readings) and no ticker cell shows the
    dash. *)
Theorem reachable_buffer_is_finite {rt : JsRuntime}
    (supported : bool) (evs : list Monitoring.Event) :
  let rows :=
    Monitoring.realtime
      (Monitoring.state
         (Monitoring.store
            (fst (Monitoring.page_run (Monitoring.initial_page supported)
                    evs)))) in
  length rows <= 200
  /\ forallb reading_finite rows = true
  /\ Monitoring.by_metric Monitoring.pulse rows
     = map Monitoring.pulse (Monitoring.slice_last 50 rows)
  /\ Monitoring.by_metric Monitoring.oxygenSaturation rows
     = map Monitoring.oxygenSaturation (Monitoring.slice_last 50 rows)
  /\ Monitoring.by_metric Monitoring.temperatureC rows
     = map Monitoring.temperatureC (Monitoring.slice_last 50 rows)
  /\ Monitoring.by_metric Monitoring.systolic rows
     = map Monitoring.systolic (Monitoring.slice_last 50 rows)
  /\ Monitoring.by_metric Monitoring.diastolic rows
     = map Monitoring.diastolic (Monitoring.slice_last 50 rows)
  /\ length (Monitoring.by_metric Monitoring.pulse rows)
     = Nat.min 50 (length rows)
  /\ (forall r, In r (Monitoring.ticker rows) ->
        Monitoring.BadgeCell_value (Monitoring.pulse r)
        = Some (Monitoring.pulse r)
        /\ Monitoring.BadgeCell_value (Monitoring.oxygenSaturation r)
           = Some (Monitoring.oxygenSaturation r)
        /\ Monitoring.BadgeCell_value (Monitoring.temperatureC r)
           = Some (Monitoring.temperatureC r)
        /\ Monitoring.BadgeCell_value (Monitoring.systolic r)
           = Some (Monitoring.systolic r)
        /\ Monitoring.BadgeCell_value (Monitoring.diastolic r)
           = Some (Monitoring.diastolic r)).
Proof.
  intros rows.
  destruct (page_run_ok (Monitoring.initial_page supported) evs
              (initial_page_ok supported))
    as (Hlen & Hfin & _).
  fold rows in Hlen, Hfin.
  split; [assumption|]. split; [assumption|].
  repeat split;
    try (apply by_metric_all; [|assumption];
         intros r0 Hr0; now apply reading_finite_fields in Hr0).
  all: unfold Monitoring.ticker, Monitoring.slice_last in H;
    pose proof (forallb_skipn _ reading_finite (length rows - 20) rows Hfin)
      as Hs;
    rewrite forallb_forall in Hs; specialize (Hs r H);
    apply reading_finite_fields in Hs as (H1 & H2 & H3 & H4 & H5);
    unfold Monitoring.BadgeCell_value;
    now rewrite ?H1, ?H2, ?H3, ?H4, ?H5.
Qed.

Lemma reachable_buffer_is_finite_witness :
  Monitoring.BadgeCell_value (num 70) = Some (num 70).
Proof.
  destruct (@reachable_buffer_is_finite reference_engine true
              (operator_connects
               ++ [Monitoring.Settles 3
                     (Monitoring.ReadSettled
                        (line_at 5000 message_first))]))
    as (_ & _ & _ & _ & _ & _ & _ & _ & H).
  destruct (H {| Monitoring.timestamp := js "2025-01-01T00:00:00.000Z";
                 Monitoring.pulse := num 70;
                 Monitoring.oxygenSaturation := num 97;
                 Monitoring.temperatureC := num_decimal false 365 (-1);
                 Monitoring.systolic := num 120;
                 Monitoring.diastolic := num 80 |}) as [Hp _].
  - vm_compute. left. reflexivity.
  - exact Hp.
Defined.

(** X14.  The page writes two commands to the device and nothing else:
    whatever the state and the event, a text handed to the writer is the
    line ["1"] from the start control or the line ["0"] from the stop
    control, each ended by a line feed. *)
Theorem device_gets_only_start_and_stop {rt : JsRuntime}
    (p : Monitoring.Page) (ev : Monitoring.Event) (text : jsstring) :
  In (Monitoring.DeviceWrite text) (snd (Monitoring.page_step p ev)) ->
  (text = js "1" ++ [LF] /\ ev = Monitoring.ClickStart)
  \/ (text = js "0" ++ [LF] /\ ev = Monitoring.ClickStop).
Proof.
  intros Hin. destruct ev as [value| |index| | | | | | |k o].
  1-9: revert Hin; unfold_handlers; step_cases; cbn; intros Hin;
       repeat match goal with
              | H : _ \/ _ |- _ => destruct H as [H|H]
              | H : Monitoring.DeviceWrite _ = Monitoring.DeviceWrite _ |- _ =>
                  inversion H; subst; clear H
              end;
       try contradiction; try discriminate;
       try (left; split; reflexivity); try (right; split; reflexivity).
  exfalso. cbn [Monitoring.page_step] in Hin.
  destruct (nth_error (Monitoring.tasks p) k) as [task|] eqn:Ek;
    [|contradiction].
  destruct task; destruct o;
    try (revert Hin; cbn [Monitoring.resume]; unfold Monitoring.next_read;
         step_cases; cbn; intros Hin;
         repeat (destruct Hin as [Hin|Hin]; [discriminate|]);
         assumption).
  cbn [Monitoring.resume] in Hin.
  pose proof (loop_body_calls render t (Monitoring.store p)) as Hcalls.
  destruct (Monitoring.loop_body render t (Monitoring.store p))
    as [[st1 calls] c].
  cbn [fst snd] in *. subst calls.
  destruct (tick_reading t); [|contradiction].
  destruct (Monitoring.session render); [|contradiction].
  destruct (1000 <=? _)%Z; [|contradiction].
  destruct Hin as [Heq|[]]. discriminate.
Qed.

Lemma device_gets_only_start_and_stop_witness :
  (js "1" ++ [LF] = js "1" ++ [LF]
   /\ Monitoring.ClickStart = Monitoring.ClickStart)
  \/ (js "1" ++ [LF] = js "0" ++ [LF]
      /\ Monitoring.ClickStart = Monitoring.ClickStop).
Proof.
  apply (@device_gets_only_start_and_stop reference_engine
           (fst (Monitoring.page_run (Monitoring.initial_page true)
                   operator_connects))
           Monitoring.ClickStart (js "1" ++ [LF])).
  vm_compute. left. reflexivity.
Defined.

(** X16.  The stop control does not end ingestion.  None of its events,
    the control used, the write to the device settled, the closing of the
    session settled, in whatever state and however they settle, touches a
    read loop that waits for a line or the refs.  So after a stop the
    next accepted reading that comes 1000 ms or more after the last
    forward is still forwarded, to the session the loop was launched
    for. *)
Theorem stop_leaves_the_loop_forwarding {rt : JsRuntime} :
  (forall (q : Monitoring.Page) (ev : Monitoring.Event) (k : nat)
          (render : Monitoring.ReactState),
      stop_event ev = true ->
      nth_error (Monitoring.tasks q) k = Some (Monitoring.AwaitRead render) ->
      nth_error (Monitoring.tasks (fst (Monitoring.page_step q ev))) k
      = Some (Monitoring.AwaitRead render)
      /\ Monitoring.refs (Monitoring.store (fst (Monitoring.page_step q ev)))
         = Monitoring.refs (Monitoring.store q))
  /\ (forall (p : Monitoring.Page) (k : nat)
             (render : Monitoring.ReactState) (s : Monitoring.Session)
             (written closed : completion unit) (now : jsstring)
             (t : Monitoring.Tick) (reading : Monitoring.RealtimeRow),
         nth_error (Monitoring.tasks p) k = Some (Monitoring.AwaitRead render) ->
         Monitoring.session render = Some s ->
         tick_reading t = Some reading ->
         (1000 <= Monitoring.clock_ms t
                  - Monitoring.lastSentRef
                      (Monitoring.refs (Monitoring.store p)))%Z ->
         nth_error
           (Monitoring.tasks
              (fst (Monitoring.page_run p
                      [Monitoring.ClickStop;
                       Monitoring.Settles (length (Monitoring.tasks p))
                         (Monitoring.WriteSettled written);
                       Monitoring.Settles (length (Monitoring.tasks p))
                         (Monitoring.SessionCloseSettled closed now)])))
           k
         = Some (Monitoring.AwaitRead render)
         /\ snd (Monitoring.page_step
                   (fst (Monitoring.page_run p
                           [Monitoring.ClickStop;
                            Monitoring.Settles (length (Monitoring.tasks p))
                              (Monitoring.WriteSettled written);
                            Monitoring.Settles (length (Monitoring.tasks p))
                              (Monitoring.SessionCloseSettled closed now)]))
                   (Monitoring.Settles k (Monitoring.ReadSettled t)))
            = [Monitoring.AddData (Monitoring.id s)
                 (Monitoring.clamped reading)]).
Proof.
  assert (Hgen : forall (q : Monitoring.Page) (ev : Monitoring.Event)
                        (k : nat) (render : Monitoring.ReactState),
            stop_event ev = true ->
            nth_error (Monitoring.tasks q) k
            = Some (Monitoring.AwaitRead render) ->
            nth_error (Monitoring.tasks (fst (Monitoring.page_step q ev))) k
            = Some (Monitoring.AwaitRead render)
            /\ Monitoring.refs
                 (Monitoring.store (fst (Monitoring.page_step q ev)))
               = Monitoring.refs (Monitoring.store q)).
  { intros q ev k render Hev Hk.
    destruct ev as [value| |index| | | | | | |j o]; try discriminate.
    - split; [now apply page_step_keeps_task | apply click_stop_refs].
    - assert (Hrefs : Monitoring.refs
                        (Monitoring.store
                           (fst (Monitoring.page_step q
                                   (Monitoring.Settles j o))))
                      = Monitoring.refs (Monitoring.store q))
        by (destruct o; try discriminate;
            [apply settled_write_refs | apply settled_close_refs]).
      split; [|exact Hrefs].
      destruct (Nat.eqb j k) eqn:Ejk.
      + apply Nat.eqb_eq in Ejk. subst j.
        destruct (page_step_settles q k o _ Hk) as (_ & _ & Htask & _).
        rewrite Htask. destruct o; try discriminate; reflexivity.
      + now apply page_step_keeps_task. }
  split; [exact Hgen|].
  intros p k render s written closed now t reading Hloop Hs Hr Hge.
  cbn [Monitoring.page_run].
  destruct (Hgen p Monitoring.ClickStop k render eq_refl Hloop) as [Hl1 Hr1].
  destruct (Monitoring.page_step p Monitoring.ClickStop) as [p1 calls1].
  cbn [fst] in Hl1, Hr1.
  destruct (Hgen p1 (Monitoring.Settles (length (Monitoring.tasks p))
                       (Monitoring.WriteSettled written))
              k render eq_refl Hl1) as [Hl2 Hr2].
  destruct (Monitoring.page_step p1 _) as [p2 calls2].
  cbn [fst] in Hl2, Hr2.
  destruct (Hgen p2 (Monitoring.Settles (length (Monitoring.tasks p))
                       (Monitoring.SessionCloseSettled closed now))
              k render eq_refl Hl2) as [Hl3 Hr3].
  destruct (Monitoring.page_step p2 _) as [p3 calls3].
  cbn [fst] in *.
  split; [assumption|].
  destruct (page_step_settles p3 k (Monitoring.ReadSettled t) _ Hl3)
    as (_ & Hcalls & _).
  rewrite Hcalls. cbn [Monitoring.resume].
  pose proof (loop_body_calls render t (Monitoring.store p3)) as Hbody.
  destruct (Monitoring.loop_body render t _) as [[st1 calls] c].
  cbn [fst snd] in *. rewrite Hbody, Hr, Hs, Hr3, Hr2, Hr1.
  apply Z.leb_le in Hge. now rewrite Hge.
Qed.

Lemma stop_leaves_the_loop_forwarding_witness :
  snd (Monitoring.page_step
         (fst (Monitoring.page_run
                 (fst (Monitoring.page_run (Monitoring.initial_page true)
                         operator_starts))
                 [Monitoring.ClickStop;
                  Monitoring.Settles 5 (Monitoring.WriteSettled (Normal tt));
                  Monitoring.Settles 5
                    (Monitoring.SessionCloseSettled (Normal tt) (js "t"))]))
         (Monitoring.Settles 3
            (Monitoring.ReadSettled (line_at 5000 message_pulse_300))))
  = [Monitoring.AddData (js "s1")
       (Monitoring.clamped
          {| Monitoring.timestamp := js "2025-01-01T00:00:00.000Z";
             Monitoring.pulse := num 300;
             Monitoring.oxygenSaturation := num 97;
             Monitoring.temperatureC := num_decimal false 365 (-1);
             Monitoring.systolic := num 120;
             Monitoring.diastolic := num 80 |})].
Proof.
  destruct (@stop_leaves_the_loop_forwarding reference_engine) as [_ H].
  apply (H (fst (Monitoring.page_run (Monitoring.initial_page true)
                   operator_starts))
           3 render_before_connect session_s1
           (Normal tt) (Normal tt) (js "t")
           (line_at 5000 message_pulse_300)).
  - vm_compute. reflexivity.
  - reflexivity.
  - vm_compute. reflexivity.
  - vm_compute. discriminate.
Defined.
(** X18.  A failed call leaves no partial transition.  A session creation
    or a port opening that fails at once changes nothing but the error
    message and leaves nothing pending; when the control was enabled the
    message is that of the error.  And whatever happened while the call
    was pending, its failure writes the message, clears the loading flag
    in the case of the creation, and launches no loop. *)
Theorem failed_call_changes_only_the_message {rt : JsRuntime}
    (p : Monitoring.Page) (e : thrown) :
  let n := length (Monitoring.tasks p) in
  let created :=
    fst (Monitoring.page_run p
           [Monitoring.ClickCreateSession;
            Monitoring.Settles n (Monitoring.CreateSettled (Throw e))]) in
  let opened :=
    fst (Monitoring.page_run p
           [Monitoring.ClickConnect;
            Monitoring.Settles n (Monitoring.OpenSettled (Throw e))]) in
  let create_failed :=
    Some (Monitoring.error_message e
            (js "Error creando la sesi" ++ [243%N] ++ js "n.")) in
  let open_failed :=
    Some (Monitoring.error_message e
            (js "No se pudo abrir el puerto serial.")) in
  Monitoring.store created
  = Monitoring.setErr
      (Monitoring.err (Monitoring.state (Monitoring.store created)))
      (Monitoring.store p)
  /\ (Monitoring.tasks created = Monitoring.tasks p
      \/ Monitoring.tasks created
         = Monitoring.tasks p ++ [Monitoring.Finished])
  /\ Monitoring.store opened
     = Monitoring.setErr
         (Monitoring.err (Monitoring.state (Monitoring.store opened)))
         (Monitoring.store p)
  /\ (Monitoring.tasks opened = Monitoring.tasks p
      \/ Monitoring.tasks opened
         = Monitoring.tasks p ++ [Monitoring.Finished])
  /\ (Monitoring.canCreateSession (Monitoring.state (Monitoring.store p))
      = true ->
      Monitoring.loading (Monitoring.state (Monitoring.store p)) = false ->
      Monitoring.err (Monitoring.state (Monitoring.store created))
      = create_failed)
  /\ (Monitoring.canConnect (Monitoring.state (Monitoring.store p)) = true ->
      Monitoring.err (Monitoring.state (Monitoring.store opened))
      = open_failed)
  /\ (forall k : nat,
         nth_error (Monitoring.tasks p) k = Some Monitoring.AwaitCreate ->
         Monitoring.page_step p
           (Monitoring.Settles k (Monitoring.CreateSettled (Throw e)))
         = ({| Monitoring.webSerial := Monitoring.webSerial p;
               Monitoring.store :=
                 Monitoring.setLoading false
                   (Monitoring.setErr create_failed (Monitoring.store p));
               Monitoring.tasks :=
                 Monitoring.set_nth k Monitoring.Finished
                   (Monitoring.tasks p) |},
            []))
  /\ (forall (k : nat) (r : Monitoring.ReactState),
         nth_error (Monitoring.tasks p) k = Some (Monitoring.AwaitOpenPort r) ->
         Monitoring.page_step p
           (Monitoring.Settles k (Monitoring.OpenSettled (Throw e)))
         = ({| Monitoring.webSerial := Monitoring.webSerial p;
               Monitoring.store :=
                 Monitoring.setErr open_failed (Monitoring.store p);
               Monitoring.tasks :=
                 Monitoring.set_nth k Monitoring.Finished
                   (Monitoring.tasks p) |},
            [])).
Proof.
  cbv zeta.
  assert (Hnone : forall o,
            Monitoring.page_step p
              (Monitoring.Settles (length (Monitoring.tasks p)) o)
            = (p, [])).
  { intros o. apply page_step_no_task. apply nth_error_None. lia. }
  assert (Hcreate :
    Monitoring.store
      (fst (Monitoring.page_run p
              [Monitoring.ClickCreateSession;
               Monitoring.Settles (length (Monitoring.tasks p))
                 (Monitoring.CreateSettled (Throw e))]))
    = Monitoring.setErr
        (Monitoring.err
           (Monitoring.state
              (Monitoring.store
                 (fst (Monitoring.page_run p
                         [Monitoring.ClickCreateSession;
                          Monitoring.Settles (length (Monitoring.tasks p))
                            (Monitoring.CreateSettled (Throw e))])))))
        (Monitoring.store p)
    /\ (Monitoring.tasks
          (fst (Monitoring.page_run p
                  [Monitoring.ClickCreateSession;
                   Monitoring.Settles (length (Monitoring.tasks p))
                     (Monitoring.CreateSettled (Throw e))]))
        = Monitoring.tasks p
        \/ Monitoring.tasks
             (fst (Monitoring.page_run p
                     [Monitoring.ClickCreateSession;
                      Monitoring.Settles (length (Monitoring.tasks p))
                        (Monitoring.CreateSettled (Throw e))]))
           = Monitoring.tasks p ++ [Monitoring.Finished])
    /\ (Monitoring.canCreateSession (Monitoring.state (Monitoring.store p))
        = true ->
        Monitoring.loading (Monitoring.state (Monitoring.store p)) = false ->
        Monitoring.err
          (Monitoring.state
             (Monitoring.store
                (fst (Monitoring.page_run p
                        [Monitoring.ClickCreateSession;
                         Monitoring.Settles (length (Monitoring.tasks p))
                           (Monitoring.CreateSettled (Throw e))]))))
        = Some (Monitoring.error_message e
                  (js "Error creando la sesi" ++ [243%N] ++ js "n.")))).
  { cbn [Monitoring.page_run].
    destruct (click_create_effect p) as [Hsame|(Hcan & Hload & Hstep)].
    - rewrite Hsame, Hnone. cbn [fst].
      split; [symmetry; apply setErr_same|]. split; [now left|].
      intros Hcan Hload. exfalso. revert Hsame.
      unfold Monitoring.page_step, Monitoring.started,
        Monitoring.handleCreateSession.
      cbv zeta. rewrite Hcan, Hload. cbn [negb orb].
      unfold Monitoring.canCreateSession in Hcan.
      apply andb_prop in Hcan as [Hpid _]. apply negb_true_iff in Hpid.
      rewrite Hpid. intros H. inversion H.
    - rewrite Hstep. cbn [Monitoring.page_step Monitoring.tasks].
      rewrite nth_error_snoc.
      cbn [Monitoring.resume fst snd Monitoring.store Monitoring.tasks].
      rewrite set_nth_snoc.
      split; [|split; [now right|]].
      + destruct p as [ws [st rf] tk]. destruct st.
        cbn in Hload |- *. now subst.
      + intros _ _. reflexivity. }
  assert (Hopen :
    Monitoring.store
      (fst (Monitoring.page_run p
              [Monitoring.ClickConnect;
               Monitoring.Settles (length (Monitoring.tasks p))
                 (Monitoring.OpenSettled (Throw e))]))
    = Monitoring.setErr
        (Monitoring.err
           (Monitoring.state
              (Monitoring.store
                 (fst (Monitoring.page_run p
                         [Monitoring.ClickConnect;
                          Monitoring.Settles (length (Monitoring.tasks p))
                            (Monitoring.OpenSettled (Throw e))])))))
        (Monitoring.store p)
    /\ (Monitoring.tasks
          (fst (Monitoring.page_run p
                  [Monitoring.ClickConnect;
                   Monitoring.Settles (length (Monitoring.tasks p))
                     (Monitoring.OpenSettled (Throw e))]))
        = Monitoring.tasks p
        \/ Monitoring.tasks
             (fst (Monitoring.page_run p
                     [Monitoring.ClickConnect;
                      Monitoring.Settles (length (Monitoring.tasks p))
                        (Monitoring.OpenSettled (Throw e))]))
           = Monitoring.tasks p ++ [Monitoring.Finished])
    /\ (Monitoring.canConnect (Monitoring.state (Monitoring.store p))
        = true ->
        Monitoring.err
          (Monitoring.state
             (Monitoring.store
                (fst (Monitoring.page_run p
                        [Monitoring.ClickConnect;
                         Monitoring.Settles (length (Monitoring.tasks p))
                           (Monitoring.OpenSettled (Throw e))]))))
        = Some (Monitoring.error_message e
                  (js "No se pudo abrir el puerto serial.")))).
  { cbn [Monitoring.page_run].
    destruct (click_connect_effect p) as [Hsame|(Hcan & Hstep)].
    - rewrite Hsame, Hnone. cbn [fst].
      split; [symmetry; apply setErr_same|]. split; [now left|].
      intros Hcan. exfalso. revert Hsame.
      unfold Monitoring.page_step, Monitoring.started,
        Monitoring.handleConnect.
      cbv zeta. rewrite Hcan.
      unfold Monitoring.canConnect in Hcan.
      apply andb_prop in Hcan as [Hcan Hnc].
      apply andb_prop in Hcan as [_ Hidx]. apply Z.leb_le in Hidx.
      apply negb_true_iff in Hnc. rewrite Hnc. cbn [negb orb].
      replace (Monitoring.selectedPortIdx _ <? 0)%Z with false
        by (symmetry; apply Z.ltb_ge; assumption).
      intros H. inversion H.
    - rewrite Hstep. cbn [Monitoring.page_step Monitoring.tasks].
      rewrite nth_error_snoc.
      cbn [Monitoring.resume fst snd Monitoring.store Monitoring.tasks].
      rewrite set_nth_snoc.
      split; [|split; [now right|]].
      + destruct p as [ws [st rf] tk]. destruct st. reflexivity.
      + intros _. reflexivity. }
  destruct Hcreate as (H1 & H2 & H5). destruct Hopen as (H3 & H4 & H6).
  repeat match goal with |- _ /\ _ => split end; try assumption.
  - intros k Hk. cbn [Monitoring.page_step]. rewrite Hk. reflexivity.
  - intros k r Hk. cbn [Monitoring.page_step]. rewrite Hk. reflexivity.
Qed.

Lemma failed_call_changes_only_the_message_witness :
  Monitoring.err
    (Monitoring.state
       (Monitoring.store
          (fst (Monitoring.page_run
                  (fst (Monitoring.page_run (Monitoring.initial_page true)
                          (page_loads ++ [Monitoring.SelectPatient (js "p1")])))
                  [Monitoring.ClickCreateSession;
                   Monitoring.Settles 2
                     (Monitoring.CreateSettled
                        (Throw (ThrownError (js "HTTP 500"))))]))))
  = Some (js "HTTP 500").
Proof.
  destruct (@failed_call_changes_only_the_message reference_engine
              (fst (Monitoring.page_run (Monitoring.initial_page true)
                      (page_loads ++ [Monitoring.SelectPatient (js "p1")])))
              (ThrownError (js "HTTP 500")))
    as (_ & _ & _ & _ & H & _).
  apply H; reflexivity.
Defined.
(** X11.  Persistence is only ever called by a read loop, for the session
    of the render the loop was launched from: whatever the state and the
    event, an [addData] call comes from a read that settles for a loop,
    carries the id of that loop's [session] binding and the clamped
    reading, and is made 1000 ms or more after the last forward.  In
    every state the page can reach that binding is a session, of a render
    in which no connection was open.  It need not be the session of the
    page: when the reset control is used while the port is being opened,
    the loop is launched all the same, and the next accepted reading is
    forwarded to the session that was reset, the page showing none. *)
Theorem forwards_carry_the_session_of_the_loop {rt : JsRuntime} :
  (forall (p : Monitoring.Page) (ev : Monitoring.Event) (sid : jsstring)
          (data : Monitoring.SessionData),
      In (Monitoring.AddData sid data) (snd (Monitoring.page_step p ev)) ->
      exists k render t s reading,
        ev = Monitoring.Settles k (Monitoring.ReadSettled t)
        /\ nth_error (Monitoring.tasks p) k
           = Some (Monitoring.AwaitRead render)
        /\ Monitoring.session render = Some s
        /\ tick_reading t = Some reading
        /\ (1000 <= Monitoring.clock_ms t
                    - Monitoring.lastSentRef
                        (Monitoring.refs (Monitoring.store p)))%Z
        /\ sid = Monitoring.id s
        /\ data = Monitoring.clamped reading)
  /\ (forall (supported : bool) (evs : list Monitoring.Event)
             (task : Monitoring.Task) (render : Monitoring.ReactState),
         In task
            (Monitoring.tasks
               (fst (Monitoring.page_run (Monitoring.initial_page supported)
                       evs))) ->
         loop_render task = Some render ->
         Monitoring.session render <> None
         /\ Monitoring.io render = None)
  /\ (forall (p : Monitoring.Page) (k : nat) (r : Monitoring.ReactState)
             (s : Monitoring.Session) (connected : Monitoring.SerialIO)
             (t : Monitoring.Tick) (reading : Monitoring.RealtimeRow),
         nth_error (Monitoring.tasks p) k = Some (Monitoring.AwaitOpenPort r) ->
         Monitoring.session r = Some s ->
         Monitoring.canReset (Monitoring.state (Monitoring.store p)) = true ->
         Monitoring.io (Monitoring.state (Monitoring.store p)) = None ->
         tick_reading t = Some reading ->
         (1000 <= Monitoring.clock_ms t
                  - Monitoring.lastSentRef
                      (Monitoring.refs (Monitoring.store p)))%Z ->
         Monitoring.session
           (Monitoring.state
              (Monitoring.store
                 (fst (Monitoring.page_run p
                         [Monitoring.ClickReset;
                          Monitoring.Settles k
                            (Monitoring.OpenSettled (Normal connected));
                          Monitoring.Settles k
                            (Monitoring.ReadSettled t)]))))
         = None
         /\ snd (Monitoring.page_run p
                   [Monitoring.ClickReset;
                    Monitoring.Settles k
                      (Monitoring.OpenSettled (Normal connected));
                    Monitoring.Settles k (Monitoring.ReadSettled t)])
            = [Monitoring.AddData (Monitoring.id s)
                 (Monitoring.clamped reading)]).
Proof.
  split; [|split].
  - intros p ev sid data Hin. now apply page_step_forward.
  - intros supported evs task render Hin Hr.
    destruct (page_run_ok (Monitoring.initial_page supported) evs
                (initial_page_ok supported))
      as (_ & _ & _ & Hloops & _).
    specialize (Hloops task render Hin Hr).
    unfold Monitoring.canConnect, Monitoring.isConnected in Hloops.
    apply andb_prop in Hloops as [Hcan Hnc].
    apply andb_prop in Hcan as [Hs _].
    destruct (Monitoring.session render); [|discriminate].
    destruct (Monitoring.io render); [discriminate|].
    split; [discriminate | reflexivity].
  - intros p k r s connected t reading Hk Hs Hcan Hio Hr Hge.
    cbn [Monitoring.page_run].
    destruct (click_reset_effect p Hcan) as [[_ Hstep]|[Hno _]];
      [|congruence].
    rewrite Hstep. cbn [Monitoring.page_step Monitoring.tasks].
    rewrite Hk.
    cbn [Monitoring.resume Monitoring.next_read Monitoring.set_closeLoopRef
         Monitoring.refs Monitoring.closeLoopRef fst snd
         Monitoring.store Monitoring.tasks].
    rewrite nth_error_set_nth_same by (apply nth_error_Some; congruence).
    cbn [Monitoring.resume].
    match goal with
    | |- context [Monitoring.loop_body r t ?st] =>
        pose proof (loop_body_calls r t st) as Hcalls;
        pose proof (loop_body_summary r t st) as (Hf & _);
        destruct (Monitoring.loop_body r t st) as [[st1 calls] c]
    end.
    cbn [fst snd Monitoring.store] in *.
    rewrite Hr, Hs in Hcalls.
    cbn [Monitoring.refs Monitoring.lastSentRef] in Hcalls.
    apply Z.leb_le in Hge.
    unfold Monitoring.handleReset_rest in Hcalls. cbn in Hcalls.
    rewrite Hge in Hcalls. subst calls.
    split; [|reflexivity].
    unfold frame in Hf. injection Hf as _ _ Hses _ _ _ _ _.
    rewrite Hses. reflexivity.
Qed.

Lemma forwards_carry_the_session_of_the_loop_witness :
  Monitoring.session
    (Monitoring.state
       (Monitoring.store
          (fst (Monitoring.page_run
                  (fst (Monitoring.page_run (Monitoring.initial_page true)
                          operator_opens))
                  [Monitoring.ClickReset;
                   Monitoring.Settles 3
                     (Monitoring.OpenSettled
                        (Normal {| Monitoring.port_index := 0 |}));
                   Monitoring.Settles 3
                     (Monitoring.ReadSettled
                        (line_at 5000 message_first))]))))
  = None
  /\ snd (Monitoring.page_run
            (fst (Monitoring.page_run (Monitoring.initial_page true)
                    operator_opens))
            [Monitoring.ClickReset;
             Monitoring.Settles 3
               (Monitoring.OpenSettled
                  (Normal {| Monitoring.port_index := 0 |}));
             Monitoring.Settles 3
               (Monitoring.ReadSettled (line_at 5000 message_first))])
     = [Monitoring.AddData (js "s1")
          (Monitoring.clamped
             {| Monitoring.timestamp := js "2025-01-01T00:00:00.000Z";
                Monitoring.pulse := num 70;
                Monitoring.oxygenSaturation := num 97;
                Monitoring.temperatureC := num_decimal false 365 (-1);
                Monitoring.systolic := num 120;
                Monitoring.diastolic := num 80 |})].
Proof.
  destruct (@forwards_carry_the_session_of_the_loop reference_engine)
    as (_ & _ & H).
  apply (H (fst (Monitoring.page_run (Monitoring.initial_page true)
                   operator_opens))
           3
           render_before_connect
           session_s1 {| Monitoring.port_index := 0 |}
           (line_at 5000 message_first)).
  - vm_compute. reflexivity.
  - reflexivity.
  - vm_compute. reflexivity.
  - vm_compute. reflexivity.
  - vm_compute. reflexivity.
  - vm_compute. discriminate.
Defined.
(** X12.  The reset control, whenever it is enabled, brings every
    [useState] value back to its initial value except the patient list,
    the port list and the loading flag, which it leaves as they are: at
    once when no connection is open, and otherwise when [io.close()] has
    settled (here: before anything else happens).  It keeps the last-sent
    time and cancels nothing: every pending call is still awaited, so a
    session creation that was pending puts its session on the page, with
    no patient selected, when it succeeds after the reset.  Whatever
    happened while [io.close()] was pending, the reset that follows it
    leaves the patient list, the port list, the loading flag and the
    monitoring flag as they are then, and sets the rest as above. *)
Theorem reset_cancels_no_pending_call {rt : JsRuntime}
    (p : Monitoring.Page) (closed : completion unit) :
  Monitoring.canReset (Monitoring.state (Monitoring.store p)) = true ->
  let s := Monitoring.state (Monitoring.store p) in
  let p1 :=
    fst (Monitoring.page_run p
           [Monitoring.ClickReset;
            Monitoring.Settles (length (Monitoring.tasks p))
              (Monitoring.CloseSettled closed)]) in
  Monitoring.state (Monitoring.store p1)
  = {| Monitoring.patients := Monitoring.patients s;
       Monitoring.patientId := [];
       Monitoring.session := None;
       Monitoring.ports := Monitoring.ports s;
       Monitoring.selectedPortIdx := -1;
       Monitoring.io := None;
       Monitoring.isMonitoring := false;
       Monitoring.startedFromDevice := false;
       Monitoring.loading := Monitoring.loading s;
       Monitoring.err := None;
       Monitoring.realtime := [] |}
  /\ Monitoring.lastSentRef (Monitoring.refs (Monitoring.store p1))
     = Monitoring.lastSentRef (Monitoring.refs (Monitoring.store p))
  /\ (forall (k : nat) (task : Monitoring.Task),
         nth_error (Monitoring.tasks p) k = Some task ->
         nth_error (Monitoring.tasks p1) k = Some task)
  /\ (forall (k : nat) (created : Monitoring.Session),
         nth_error (Monitoring.tasks p) k = Some Monitoring.AwaitCreate ->
         let p2 :=
           fst (Monitoring.page_step p1
                  (Monitoring.Settles k
                     (Monitoring.CreateSettled (Normal created)))) in
         Monitoring.session (Monitoring.state (Monitoring.store p2))
         = Some created
         /\ Monitoring.patientId (Monitoring.state (Monitoring.store p2))
            = []
         /\ Monitoring.loading (Monitoring.state (Monitoring.store p2))
            = false)
  /\ (forall (q : Monitoring.Page) (k : nat) (settled : completion unit),
         nth_error (Monitoring.tasks q) k = Some (Monitoring.AwaitClose true) ->
         Monitoring.state
           (Monitoring.store
              (fst (Monitoring.page_step q
                      (Monitoring.Settles k
                         (Monitoring.CloseSettled settled)))))
         = {| Monitoring.patients :=
                Monitoring.patients (Monitoring.state (Monitoring.store q));
              Monitoring.patientId := [];
              Monitoring.session := None;
              Monitoring.ports :=
                Monitoring.ports (Monitoring.state (Monitoring.store q));
              Monitoring.selectedPortIdx := -1;
              Monitoring.io := None;
              Monitoring.isMonitoring :=
                Monitoring.isMonitoring
                  (Monitoring.state (Monitoring.store q));
              Monitoring.startedFromDevice := false;
              Monitoring.loading :=
                Monitoring.loading (Monitoring.state (Monitoring.store q));
              Monitoring.err := None;
              Monitoring.realtime := [] |}).
Proof.
  intros Hcan s p1.
  assert (Hnm : Monitoring.isMonitoring s = false).
  { unfold Monitoring.canReset in Hcan. apply andb_prop in Hcan as [Hnm _].
    now apply negb_true_iff in Hnm. }
  assert (Hp1 : Monitoring.state (Monitoring.store p1)
                = Monitoring.state
                    (Monitoring.handleReset_rest
                       (Monitoring.setIo None (Monitoring.store p)))
                /\ Monitoring.lastSentRef
                     (Monitoring.refs (Monitoring.store p1))
                   = Monitoring.lastSentRef
                       (Monitoring.refs (Monitoring.store p))
                /\ exists more, Monitoring.tasks p1
                                = Monitoring.tasks p ++ more).
  { subst p1. cbn [Monitoring.page_run].
    destruct (click_reset_effect p Hcan) as [[Hio Hstep]|[Hio Hstep]];
      rewrite Hstep.
    - rewrite page_step_no_task
        by (apply nth_error_None; cbn [fst Monitoring.tasks]; lia).
      cbn [fst Monitoring.store]. split; [|split; [reflexivity|]].
      + fold s in Hio. destruct p as [ws [st rf] tk]. destruct st.
        cbn in Hio, s |- *. now subst.
      + exists []. now rewrite app_nil_r.
    - cbn [Monitoring.page_step Monitoring.tasks fst].
      rewrite nth_error_snoc.
      cbn [Monitoring.resume fst snd Monitoring.store Monitoring.tasks].
      rewrite set_nth_snoc.
      split; [reflexivity|]. split; [reflexivity|].
      eexists. reflexivity. }
  destruct Hp1 as (Hstate & Hsent & more & Htasks).
  assert (Hkeep : forall k task,
            nth_error (Monitoring.tasks p) k = Some task ->
            nth_error (Monitoring.tasks p1) k = Some task).
  { intros k task Hk. rewrite Htasks, nth_error_app1; [assumption|].
    apply nth_error_Some. congruence. }
  split; [|split; [assumption|split; [assumption|split]]].
  - rewrite Hstate. cbn. fold s. now rewrite Hnm.
  - intros k created Hk p2. subst p2.
    destruct (page_step_settles p1 k
                (Monitoring.CreateSettled (Normal created)) _
                (Hkeep k _ Hk)) as (Hstore & _).
    rewrite Hstore. cbn [Monitoring.resume fst].
    cbn. rewrite Hstate. cbn. repeat split.
  - intros q k settled Hq.
    destruct (page_step_settles q k (Monitoring.CloseSettled settled) _ Hq)
      as (Hstore & _).
    rewrite Hstore. reflexivity.
Qed.

Lemma reset_cancels_no_pending_call_witness :
  Monitoring.session
    (Monitoring.state
       (Monitoring.store
          (fst (Monitoring.page_run (Monitoring.initial_page true)
                  (operator_creates
                   ++ [Monitoring.ClickReset;
                       Monitoring.Settles 3
                         (Monitoring.CloseSettled (Normal tt));
                       Monitoring.Settles 2
                         (Monitoring.CreateSettled (Normal session_s1))])))))
  = Some session_s1
  /\ Monitoring.patientId
       (Monitoring.state
          (Monitoring.store
             (fst (Monitoring.page_run (Monitoring.initial_page true)
                     (operator_creates
                      ++ [Monitoring.ClickReset;
                          Monitoring.Settles 3
                            (Monitoring.CloseSettled (Normal tt));
                          Monitoring.Settles 2
                            (Monitoring.CreateSettled
                               (Normal session_s1))])))))
     = [].
Proof.
  destruct (@reset_cancels_no_pending_call reference_engine
              (fst (Monitoring.page_run (Monitoring.initial_page true)
                      operator_creates))
              (Normal tt) eq_refl)
    as (_ & _ & _ & H & _).
  destruct (H 2 session_s1 eq_refl) as (Hs & Hp & _).
  split; [exact Hs | exact Hp].
Defined.

(** X13.  In every state the page can reach, whatever the order in which
    the operator acts and the awaited calls settle: the loading flag is
    set exactly while a session creation is pending, and at most one is;
    every read loop, and every port opening that will launch one, is a
    closure of a render with a session, a selected port and no open
    connection; the port selection is at least -1; and the selected
    patient is none or one of the patient list. *)
Theorem controller_invariants {rt : JsRuntime}
    (supported : bool) (evs : list Monitoring.Event) :
  let p := fst (Monitoring.page_run (Monitoring.initial_page supported)
                  evs) in
  let s := Monitoring.state (Monitoring.store p) in
  (Monitoring.loading s = true <-> count is_create (Monitoring.tasks p) = 1)
  /\ count is_create (Monitoring.tasks p) <= 1
  /\ (forall (task : Monitoring.Task) (render : Monitoring.ReactState),
         In task (Monitoring.tasks p) ->
         loop_render task = Some render ->
         Monitoring.session render <> None
         /\ (0 <= Monitoring.selectedPortIdx render)%Z
         /\ Monitoring.io render = None)
  /\ (-1 <= Monitoring.selectedPortIdx s)%Z
  /\ (Monitoring.patientId s = []
      \/ In (Monitoring.patientId s)
            (map Monitoring.patient_id (Monitoring.patients s))).
Proof.
  intros p s.
  destruct (page_run_ok (Monitoring.initial_page supported) evs
              (initial_page_ok supported))
    as (_ & _ & Hload & Hloops & Hidx & Hsel & _).
  fold p in Hload, Hloops, Hidx, Hsel. fold s in Hload, Hidx, Hsel.
  split; [|split; [|split; [|split]]].
  - rewrite Hload. destruct (Monitoring.loading s); cbn; split;
      intros H; try reflexivity; discriminate.
  - rewrite Hload. destruct (Monitoring.loading s); cbn; lia.
  - intros task render Hin Hr. specialize (Hloops task render Hin Hr).
    unfold Monitoring.canConnect, Monitoring.isConnected in Hloops.
    apply andb_prop in Hloops as [Hcan Hnc].
    apply andb_prop in Hcan as [Hs Hi]. apply Z.leb_le in Hi.
    destruct (Monitoring.session render); [|discriminate].
    destruct (Monitoring.io render); [discriminate|].
    repeat split; [discriminate | assumption].
  - assumption.
  - unfold patient_listed, Monitoring.patient_options in Hsel.
    cbn [existsb] in Hsel. apply orb_prop in Hsel as [H|H].
    + left. now apply jsstring_eqb_eq in H.
    + right. apply existsb_exists in H as (x & Hin & Hx).
      apply jsstring_eqb_eq in Hx. now subst x.
Qed.

Lemma controller_invariants_witness :
  Monitoring.session render_before_connect <> None
  /\ (0 <= Monitoring.selectedPortIdx render_before_connect)%Z
  /\ Monitoring.io render_before_connect = None.
Proof.
  destruct (@controller_invariants reference_engine true operator_opens)
    as (_ & _ & H & _).
  apply (H (Monitoring.AwaitOpenPort render_before_connect)).
  - vm_compute. do 3 right. left. reflexivity.
  - reflexivity.
Defined.

(** X19.  A session is only ever created from the create control, for the
    patient selected, who is one of the patient list, and while the page
    has no session: in every state the page can reach, whatever the event,
    a [sessionService.create] call has these properties. *)
Theorem session_created_for_a_listed_patient {rt : JsRuntime}
    (supported : bool) (evs : list Monitoring.Event)
    (ev : Monitoring.Event) (patient : jsstring) :
  let p := fst (Monitoring.page_run (Monitoring.initial_page supported)
                  evs) in
  let s := Monitoring.state (Monitoring.store p) in
  In (Monitoring.SessionCreate patient) (snd (Monitoring.page_step p ev)) ->
  ev = Monitoring.ClickCreateSession
  /\ patient = Monitoring.patientId s
  /\ In patient (map Monitoring.patient_id (Monitoring.patients s))
  /\ patient <> []
  /\ Monitoring.session s = None
  /\ Monitoring.loading s = false.
Proof.
  intros p s Hin.
  destruct (page_run_ok (Monitoring.initial_page supported) evs
              (initial_page_ok supported))
    as (_ & _ & _ & _ & _ & Hsel & _).
  fold p in Hsel. fold s in Hsel.
  assert (Hev : ev = Monitoring.ClickCreateSession).
  { destruct ev as [value| |index| | | | | | |k o]; try reflexivity;
      exfalso.
    1-8: revert Hin; unfold_handlers; step_cases; cbn; intros Hin;
         repeat (destruct Hin as [Hin|Hin]; [discriminate|]); assumption.
    cbn [Monitoring.page_step] in Hin.
    destruct (nth_error (Monitoring.tasks p) k) as [task|] eqn:Ek;
      [|contradiction].
    destruct task; destruct o;
      try (revert Hin; cbn [Monitoring.resume];
           unfold Monitoring.next_read;
           step_cases; cbn; intros Hin;
           repeat (destruct Hin as [Hin|Hin]; [discriminate|]);
           assumption).
    cbn [Monitoring.resume] in Hin.
    pose proof (loop_body_calls render t (Monitoring.store p)) as Hcalls.
    destruct (Monitoring.loop_body render t (Monitoring.store p))
      as [[st1 calls] c].
    cbn [fst snd] in *. subst calls.
    destruct (tick_reading t); [|contradiction].
    destruct (Monitoring.session render); [|contradiction].
    destruct (1000 <=? _)%Z; [|contradiction].
    destruct Hin as [Heq|[]]. discriminate. }
  subst ev. split; [reflexivity|].
  destruct (click_create_effect p) as [Hsame|(Hcan & Hload & Hstep)].
  - rewrite Hsame in Hin. contradiction.
  - rewrite Hstep in Hin. destruct Hin as [Heq|[]].
    inversion Heq; subst patient. fold s.
    fold s in Hcan. unfold Monitoring.canCreateSession in Hcan.
    apply andb_prop in Hcan as [Hpid Hnos].
    apply negb_true_iff in Hpid. apply negb_true_iff in Hnos.
    assert (Hne : Monitoring.patientId s <> []).
    { intros H. rewrite H in Hpid. discriminate. }
    split; [reflexivity|]. split; [|split; [assumption|split]].
    + unfold patient_listed, Monitoring.patient_options in Hsel.
      cbn [existsb] in Hsel. apply orb_prop in Hsel as [H|H].
      * apply jsstring_eqb_eq in H. congruence.
      * apply existsb_exists in H as (x & Hx & Heqb).
        apply jsstring_eqb_eq in Heqb. now subst x.
    + now destruct (Monitoring.session s).
    + exact Hload.
Qed.

Lemma session_created_for_a_listed_patient_witness :
  In (js "p1") (map Monitoring.patient_id [patient_p1]).
Proof.
  destruct (@session_created_for_a_listed_patient reference_engine true
              (page_loads ++ [Monitoring.SelectPatient (js "p1")])
              Monitoring.ClickCreateSession (js "p1"))
    as (_ & _ & H & _).
  - vm_compute. left. reflexivity.
  - exact H.
Defined.
